(** * Verification of the ingestion layer of the crypto research dashboard

    A shallow embedding of [data_sources.py]: the number normalizer
    [_to_number], the source-specific parsers and the tabular assemblers,
    together with the part of the Python runtime and of pandas they rest on;
    and of the display of amounts, [_format_number] of [app.py].

    Conventions.
    - A Python [str] is a [string] whose characters are the code points
      below 256; the unit words of the display alone lie outside and stand as
      their UTF-8 bytes.
    - A Python [float] is a binary64 value, a [spec_float] used at precision
      53 and maximal exponent 1024; arithmetic is the correctly rounded
      arithmetic of [SpecFloat].
    - A Python computation that may raise is a [result]. *)

From Stdlib Require Import ZArith List String Ascii Bool Lia DecimalString.
From Stdlib Require Import Floats.SpecFloat Floats.PrimFloat Floats.FloatOps.
From Stdlib Require Import Sorting.Sorted Sorting.Permutation.
Import ListNotations.

Set Warnings "-inexact-float,-register-all".

Local Open Scope list_scope.
Local Open Scope string_scope.

(** ** Exceptions and the error monad *)

Inductive exn : Type :=
| DataFetchError (msg : string)
| IndexError
| KeyError
| ValueError
| TypeError
| AttributeError
| OverflowError.

Inductive result (A : Type) : Type :=
| Ok (a : A)
| Raise (e : exn).

Arguments Ok {A} a.
Arguments Raise {A} e.

Definition bind {A B : Type} (m : result A) (k : A -> result B) : result B :=
  match m with
  | Ok a => k a
  | Raise e => Raise e
  end.

Notation "x <- m ;; k" := (bind m (fun x => k))
  (at level 61, m at next level, right associativity).

Definition is_fetch_error {A : Type} (r : result A) : bool :=
  match r with
  | Raise (DataFetchError _) => true
  | _ => false
  end.

Definition returns {A : Type} (r : result A) : bool :=
  match r with
  | Ok _ => true
  | Raise _ => false
  end.

(** [try: ... except (handled): raise DataFetchError(msg)] *)
Definition reraise_as {A : Type} (handled : exn -> bool) (msg : string)
  (m : result A) : result A :=
  match m with
  | Ok a => Ok a
  | Raise e => if handled e then Raise (DataFetchError msg) else Raise e
  end.

(** ** Python strings *)

Module PyStr.

Definition code (c : ascii) : nat := nat_of_ascii c.

Definition between (lo hi : nat) (c : ascii) : bool :=
  (lo <=? code c)%nat && (code c <=? hi)%nat.

(** [str.isspace] on one character: the white space of [str.strip()],
    of [float()] and of the pattern class [\s]. *)
Definition isspace (c : ascii) : bool :=
  between 9 13 c || between 28 32 c || (code c =? 133)%nat || (code c =? 160)%nat.

(** Line boundaries of [str.splitlines]. *)
Definition islinebreak (c : ascii) : bool :=
  between 10 13 c || between 28 30 c || (code c =? 133)%nat.

Definition is_ascii_digit (c : ascii) : bool := between 48 57 c.

(** [str.isdigit] on one character: the decimal digits and the superscript
    digits of the Latin-1 block. *)
Definition isdigit_char (c : ascii) : bool :=
  is_ascii_digit c || (code c =? 178)%nat || (code c =? 179)%nat || (code c =? 185)%nat.

Definition is_ascii_alpha (c : ascii) : bool :=
  between 65 90 c || between 97 122 c.

Definition lower_char (c : ascii) : ascii :=
  if between 65 90 c || (between 192 222 c && negb (code c =? 215)%nat)
  then ascii_of_nat (code c + 32)
  else c.

Fixpoint lower (s : string) : string :=
  match s with
  | EmptyString => EmptyString
  | String c r => String (lower_char c) (lower r)
  end.

Definition is_empty (s : string) : bool :=
  match s with
  | EmptyString => true
  | String _ _ => false
  end.

Fixpoint mem_char (c : ascii) (cs : string) : bool :=
  match cs with
  | EmptyString => false
  | String d r => Ascii.eqb c d || mem_char c r
  end.

Fixpoint lstrip_by (p : ascii -> bool) (s : string) : string :=
  match s with
  | EmptyString => EmptyString
  | String c r => if p c then lstrip_by p r else s
  end.

Fixpoint rstrip_by (p : ascii -> bool) (s : string) : string :=
  match s with
  | EmptyString => EmptyString
  | String c r =>
      let r' := rstrip_by p r in
      if is_empty r' && p c then EmptyString else String c r'
  end.

Definition strip_by (p : ascii -> bool) (s : string) : string :=
  rstrip_by p (lstrip_by p s).

(** [s.strip()] *)
Definition strip (s : string) : string := strip_by isspace s.

(** [s.strip(chars)] *)
Definition strip_chars (chars s : string) : string :=
  strip_by (fun c => mem_char c chars) s.

(** [s.startswith(p)] *)
Definition startswith (p s : string) : bool := String.prefix p s.

(** [s.endswith(p)] *)
Fixpoint endswith (p s : string) : bool :=
  String.eqb s p ||
  match s with
  | EmptyString => false
  | String _ r => endswith p r
  end.

(** [s.replace(old, new)] for a non-empty [old]: the occurrences are taken
    from the left and do not overlap. [skip] counts the characters of an
    occurrence still to be passed over. *)
Fixpoint replace_from (old new : string) (skip : nat) (s : string) : string :=
  match s with
  | EmptyString => EmptyString
  | String c r =>
      match skip with
      | S k => replace_from old new k r
      | O =>
          if String.prefix old s
          then new ++ replace_from old new (String.length old - 1) r
          else String c (replace_from old new 0 r)
      end
  end.

Definition replace (old new s : string) : string := replace_from old new 0 s.

(** [s[-1]] *)
Fixpoint last_char (s : string) : option ascii :=
  match s with
  | EmptyString => None
  | String c EmptyString => Some c
  | String _ r => last_char r
  end.

(** [s[:-1]] *)
Fixpoint drop_last (s : string) : string :=
  match s with
  | EmptyString => EmptyString
  | String _ EmptyString => EmptyString
  | String c r => String c (drop_last r)
  end.

Fixpoint drop (n : nat) (s : string) : string :=
  match n, s with
  | O, _ => s
  | S _, EmptyString => EmptyString
  | S k, String _ r => drop k r
  end.

Fixpoint take (n : nat) (s : string) : string :=
  match n, s with
  | O, _ => EmptyString
  | S _, EmptyString => EmptyString
  | S k, String c r => String c (take k r)
  end.

(** [s[a:b]] for non-negative [a] and [b] *)
Definition slice (a b : nat) (s : string) : string := take (b - a) (drop a s).

(** Offset of the first occurrence of [sub] in [s]. *)
Fixpoint find0 (sub s : string) : option nat :=
  if String.prefix sub s then Some O
  else match s with
       | EmptyString => None
       | String _ r => option_map S (find0 sub r)
       end.

(** [s.find(sub, start)], with [None] for the result [-1]. *)
Definition find (sub s : string) (start : nat) : option nat :=
  if (String.length s <? start)%nat then None
  else option_map (Nat.add start) (find0 sub (drop start s)).

(** [s.split(sep)] for a one-character separator. *)
Fixpoint split (sep : ascii) (s : string) : list string :=
  match s with
  | EmptyString => [EmptyString]
  | String c r =>
      if Ascii.eqb c sep then EmptyString :: split sep r
      else match split sep r with
           | [] => [String c EmptyString]
           | f :: fs => String c f :: fs
           end
  end.

(** [s.splitlines()]: a line ends at a line boundary, the pair CR LF counts
    as one boundary, and no empty line follows the last boundary.
    [cur] is the line being read, reversed; [after_cr] tells that the
    previous character was a CR. *)
Fixpoint splitlines_from (cur : list ascii) (after_cr : bool) (s : string)
  : list string :=
  let flush := string_of_list_ascii (rev cur) in
  match s with
  | EmptyString => if is_empty flush then [] else [flush]
  | String c r =>
      if after_cr && (code c =? 10)%nat then splitlines_from [] false r
      else if islinebreak c
           then flush :: splitlines_from [] (code c =? 13)%nat r
           else splitlines_from (c :: cur) false r
  end.

Definition splitlines (s : string) : list string := splitlines_from [] false s.

(** [s.isdigit()] *)
Fixpoint all_chars (p : ascii -> bool) (s : string) : bool :=
  match s with
  | EmptyString => true
  | String c r => p c && all_chars p r
  end.

Definition isdigit (s : string) : bool :=
  negb (is_empty s) && all_chars isdigit_char s.

End PyStr.

(** ** Python floats and integers *)

Module PyNum.
Import PyStr.

Definition float : Type := spec_float.

Definition prec : Z := 53.
Definition emax : Z := 1024.

Definition nan : float := S754_nan.
Definition fmul (x y : float) : float := SFmul prec emax x y.
Definition fdiv (x y : float) : float := SFdiv prec emax x y.
Definition fneg (x : float) : float := SFopp x.

Definition isnan (x : float) : bool :=
  match x with
  | S754_nan => true
  | _ => false
  end.

Definition isfinite (x : float) : bool :=
  match x with
  | S754_zero _ | S754_finite _ _ _ => true
  | _ => false
  end.

(** Truth value of a float: [not x] holds for both zeros only. *)
Definition truthy (x : float) : bool :=
  match x with
  | S754_zero _ => false
  | _ => true
  end.

(** The binary64 value nearest to [m * 10 ^ e] (ties to even), with sign
    [neg]; a magnitude beyond the largest finite value gives an infinity. *)
Definition of_decimal (neg : bool) (m : N) (e : Z) : float :=
  match m with
  | N0 => S754_zero neg
  | Npos p =>
      match e with
      | Zneg k =>
          let '(q, e', l) :=
            SFdiv_core_binary prec emax (Zpos p) 0 (Z.pow_pos 10 k) 0 in
          binary_round_aux prec emax neg q e' l
      | _ => binary_normalize prec emax
               (if neg then Z.opp (Zpos p * 10 ^ e) else Zpos p * 10 ^ e) 0 neg
      end
  end.

(** [float(n)] for a Python [int]: correctly rounded, [OverflowError] when
    the integer is too large. *)
Definition float_of_int (n : Z) : result float :=
  let x := binary_normalize prec emax n 0 false in
  if isfinite x then Ok x else Raise OverflowError.

(** [int(x)] for a float: truncation towards zero. *)
Definition int_of_float (x : float) : result Z :=
  match x with
  | S754_zero _ => Ok 0%Z
  | S754_finite s m e =>
      let a := match e with
               | Zneg k => Z.shiftr (Zpos m) (Zpos k)
               | _ => Z.shiftl (Zpos m) e
               end in
      Ok (if s then Z.opp a else a)
  | S754_infinity _ => Raise OverflowError
  | S754_nan => Raise ValueError
  end.

Definition digit_val (c : ascii) : N := N.of_nat (code c - 48).

(** Value of a string of decimal digits read after the value [acc]. *)
Fixpoint digits_val (acc : N) (s : string) : N :=
  match s with
  | EmptyString => acc
  | String c r => digits_val (acc * 10 + digit_val c) r
  end.

(** The longest prefix of decimal digits, and what follows it. *)
Fixpoint span_digits (s : string) : string * string :=
  match s with
  | EmptyString => (EmptyString, EmptyString)
  | String c r =>
      if is_ascii_digit c
      then let '(d, rest) := span_digits r in (String c d, rest)
      else (EmptyString, s)
  end.

(** Digit grouping of numeric literals: an underscore stands between two
    digits. The result is the literal without its underscores. [prev] is the
    character before [s]. *)
Fixpoint ungroup (prev : option ascii) (s : string) : option string :=
  let prev_digit := match prev with Some d => is_ascii_digit d | None => false end in
  let prev_under := match prev with Some d => Ascii.eqb d "_" | None => false end in
  match s with
  | EmptyString => if prev_under then None else Some EmptyString
  | String c r =>
      if Ascii.eqb c "_"
      then if prev_digit then ungroup (Some c) r else None
      else if prev_under && negb (is_ascii_digit c) then None
           else option_map (String c) (ungroup (Some c) r)
  end.

Definition take_sign (s : string) : bool * string :=
  match s with
  | String "-" r => (true, r)
  | String "+" r => (false, r)
  | _ => (false, s)
  end.

(** The exponent part of a float literal: empty, or [e] or [E], an optional
    sign and at least one digit. *)
Definition parse_exponent (s : string) : option Z :=
  match s with
  | EmptyString => Some 0%Z
  | String c r =>
      if Ascii.eqb (lower_char c) "e"
      then let '(neg, r1) := take_sign r in
           let '(d, rest) := span_digits r1 in
           if is_empty d || negb (is_empty rest) then None
           else let v := Z.of_N (digits_val 0 d) in
                Some (if neg then Z.opp v else v)
      else None
  end.

(** An unsigned float literal: digits, an optional point and digits, with a
    digit on one side of the point at least, and an optional exponent; or
    one of the names [inf], [infinity], [nan] in any case. *)
Definition parse_unsigned (neg : bool) (s : string) : option float :=
  let name := lower s in
  if String.eqb name "inf" || String.eqb name "infinity" then Some (S754_infinity neg)
  else if String.eqb name "nan" then Some S754_nan
  else
    let '(ip, r1) := span_digits s in
    let '(fp, r2) :=
      match r1 with
      | String "." r => span_digits r
      | _ => (EmptyString, r1)
      end in
    if is_empty ip && is_empty fp then None
    else match parse_exponent r2 with
         | None => None
         | Some ex =>
             Some (of_decimal neg (digits_val 0 (ip ++ fp))
                     (ex - Z.of_nat (String.length fp)))
         end.

(** The white space that [float()] and [int()] allow around a literal: the
    ASCII white space and, above 127, the white space of [str.isspace]. The
    separators 28 to 31, which [str.strip()] removes, are not among it. *)
Definition literal_space (c : ascii) : bool :=
  between 9 13 c || (code c =? 32)%nat || (code c =? 133)%nat || (code c =? 160)%nat.

(** [float(s)] for a string, [None] standing for [ValueError]. *)
Definition parse_float (s : string) : option float :=
  match ungroup None (strip_by literal_space s) with
  | None => None
  | Some t => let '(neg, r) := take_sign t in parse_unsigned neg r
  end.

Definition float_of_str (s : string) : result float :=
  match parse_float s with
  | Some x => Ok x
  | None => Raise ValueError
  end.

(** [int(s)] for a string, [None] standing for [ValueError]. *)
Definition parse_int (s : string) : option Z :=
  match ungroup None (strip_by literal_space s) with
  | None => None
  | Some t =>
      let '(neg, r) := take_sign t in
      let '(d, rest) := span_digits r in
      if is_empty d || negb (is_empty rest) then None
      else let v := Z.of_N (digits_val 0 d) in Some (if neg then Z.opp v else v)
  end.

(** A float literal of the source text. *)
Definition lit (x : PrimFloat.float) : float := Prim2SF x.

End PyNum.

(** ** The number normalizer *)

Import PyStr PyNum.

(** [multipliers = {"m": 1e6, "b": 1e9}] *)
Definition multipliers (k : ascii) : option float :=
  if Ascii.eqb k "m" then Some (lit 1e6)
  else if Ascii.eqb k "b" then Some (lit 1e9)
  else None.

(** The text handed to [float()]: [value.strip('()')] without commas,
    dollar and plus signs, unit tokens and percent signs. *)
Definition clean (value : string) : string :=
  let without (token s : string) : string := replace token EmptyString s in
  let cleaned := without "$" (without "," (strip_chars "()" value)) in
  let cleaned := without "BTC" (without "ETH" (without "SOL" (without "+" cleaned))) in
  without "%" cleaned.

(** [negative = value.startswith('(') and value.endswith(')')] *)
Definition negative_marker (value : string) : bool :=
  startswith "(" value && endswith ")" value.

(** [_to_number(value)]. The subscript [cleaned[-1]] raises [IndexError]
    on the empty text; a text that [float()] rejects gives NaN (the handler
    of [ValueError]); a final [m] or [b] scales the number. *)
Definition _to_number (value : string) : result float :=
  let value := strip value in
  if is_empty value || String.eqb value "-" then Ok nan
  else
    let negative := negative_marker value in
    match last_char (clean value) with
    | None => Raise IndexError
    | Some c =>
        let suffix := multipliers (lower_char c) in
        let cleaned_num :=
          match suffix with
          | Some _ => drop_last (clean value)
          | None => clean value
          end in
        match parse_float cleaned_num with
        | None => Ok nan
        | Some number =>
            let number :=
              match suffix with
              | Some k => fmul number k
              | None => number
              end in
            Ok (if negative then fneg number else number)
        end
    end.

(** ** Decoded JSON values and the Python operations on them *)

Inductive json : Type :=
| JNull
| JBool (b : bool)
| JInt (n : Z)
| JFloat (x : float)
| JStr (s : string)
| JArr (items : list json)
| JObj (fields : list (string * json)).

Module PyObj.

(** Lookup in a decoded object, a [dict] with string keys: the entries are
    listed in their order, each key once. *)
Fixpoint lookup (k : string) (fields : list (string * json)) : option json :=
  match fields with
  | [] => None
  | (k', v) :: r => if String.eqb k k' then Some v else lookup k r
  end.

(** [x.get(k, default)]: only a [dict] has the method. *)
Definition get_default (x : json) (k : string) (default : json) : result json :=
  match x with
  | JObj fields =>
      Ok match lookup k fields with
         | Some v => v
         | None => default
         end
  | _ => Raise AttributeError
  end.

(** [x.get(k)] *)
Definition get (x : json) (k : string) : result json := get_default x k JNull.

(** [x[k]] for a string key. *)
Definition getitem (x : json) (k : string) : result json :=
  match x with
  | JObj fields =>
      match lookup k fields with
      | Some v => Ok v
      | None => Raise KeyError
      end
  | _ => Raise TypeError
  end.

Definition chars (s : string) : list json :=
  map (fun c => JStr (String c EmptyString)) (list_ascii_of_string s).

(** [x[i]] for a non-negative integer index. *)
Definition getindex (x : json) (i : nat) : result json :=
  match x with
  | JArr items =>
      match nth_error items i with
      | Some v => Ok v
      | None => Raise IndexError
      end
  | JStr s =>
      match nth_error (chars s) i with
      | Some v => Ok v
      | None => Raise IndexError
      end
  | JObj _ => Raise KeyError
  | _ => Raise TypeError
  end.

(** The elements visited by [for e in x]. *)
Definition iterate (x : json) : result (list json) :=
  match x with
  | JArr items => Ok items
  | JObj fields => Ok (map (fun kv => JStr (fst kv)) fields)
  | JStr s => Ok (chars s)
  | _ => Raise TypeError
  end.

(** Truth value: [not x] holds for [None], [False], zero and the empty
    string, list and dict. *)
Definition truthy (x : json) : bool :=
  match x with
  | JNull => false
  | JBool b => b
  | JInt n => negb (Z.eqb n 0)
  | JFloat f => PyNum.truthy f
  | JStr s => negb (is_empty s)
  | JArr items => match items with [] => false | _ => true end
  | JObj fields => match fields with [] => false | _ => true end
  end.

Definition is_none (x : json) : bool :=
  match x with
  | JNull => true
  | _ => false
  end.

(** [float(x)] *)
Definition to_float (x : json) : result float :=
  match x with
  | JFloat f => Ok f
  | JInt n => float_of_int n
  | JBool b => Ok (if b then lit 1 else lit 0)
  | JStr s => float_of_str s
  | _ => Raise TypeError
  end.

(** [int(x)] *)
Definition to_int (x : json) : result Z :=
  match x with
  | JInt n => Ok n
  | JBool b => Ok (if b then 1%Z else 0%Z)
  | JFloat f => int_of_float f
  | JStr s =>
      match parse_int s with
      | Some n => Ok n
      | None => Raise ValueError
      end
  | _ => Raise TypeError
  end.

(** [x.replace(old, new)]: only a [str] has the method. *)
Definition str_replace (x : json) (old new : string) : result string :=
  match x with
  | JStr s => Ok (replace old new s)
  | _ => Raise AttributeError
  end.

End PyObj.

(** ** Calendar dates *)

Record date : Type := mkdate { year : Z; month : Z; day : Z }.

(** Calendar order. *)
Definition date_compare (a b : date) : comparison :=
  match Z.compare (year a) (year b) with
  | Eq => match Z.compare (month a) (month b) with
          | Eq => Z.compare (day a) (day b)
          | c => c
          end
  | c => c
  end.

Definition date_leb (a b : date) : bool :=
  match date_compare a b with
  | Gt => false
  | _ => true
  end.

Definition date_ltb (a b : date) : bool :=
  match date_compare a b with
  | Lt => true
  | _ => false
  end.

Definition zstr (n : Z) : string := NilZero.string_of_int (Z.to_int n).

Fixpoint zeros (n : nat) : string :=
  match n with
  | O => EmptyString
  | S k => String "0" (zeros k)
  end.

Definition pad0 (width : nat) (s : string) : string :=
  zeros (width - String.length s) ++ s.

(** [d.isoformat()] *)
Definition isoformat (d : date) : string :=
  pad0 4 (zstr (year d)) ++ "-" ++ pad0 2 (zstr (month d)) ++ "-" ++ pad0 2 (zstr (day d)).

(** ** The HTTP access layer *)

(** What [requests.get] returns: the status code, the body, and the value
    the body decodes to ([None] when the body is not JSON). *)
Record response : Type := mkresponse {
  status_code : Z;
  text : string;
  decoded : option json
}.

(** The remote side: the response to a GET request of each address. *)
Definition web : Type := string -> response.

Definition status_message (url : string) (resp : response) : string :=
  "Failed to fetch " ++ url ++ " (status " ++ zstr (status_code resp) ++ ")".

Definition _request_json (www : web) (url : string) : result json :=
  let resp := www url in
  if negb (Z.eqb (status_code resp) 200)
  then Raise (DataFetchError (status_message url resp))
  else match decoded resp with
       | Some payload => Ok payload
       | None => Raise (DataFetchError ("Invalid JSON payload from " ++ url))
       end.

Definition _get_text (www : web) (url : string) : result string :=
  let resp := www url in
  if negb (Z.eqb (status_code resp) 200)
  then Raise (DataFetchError (status_message url resp))
  else Ok (text resp).

(** ** Data frames

    A data frame is the list of its rows. The sort of pandas does not fix
    the order of rows with equal keys; the model keeps them in their
    original order. Rows whose key is missing come last. *)

Module Frame.

Section Sorting.
Context {A : Type}.
Variable le : A -> A -> bool.

Fixpoint insert (x : A) (l : list A) : list A :=
  match l with
  | [] => [x]
  | y :: r => if le x y then x :: l else y :: insert x r
  end.

Definition sort (l : list A) : list A := fold_right insert [] l.

(** Every element is related to its successor. *)
Fixpoint chain (l : list A) : bool :=
  match l with
  | [] => true
  | x :: r =>
      match r with
      | [] => true
      | y :: _ => le x y && chain r
      end
  end.
End Sorting.

(** [df.sort_values(key)], ascending, for a key that is never missing and
    is ordered by [le]. *)
Definition sort_values {A K : Type} (le : K -> K -> bool) (key : A -> K)
  (df : list A) : list A :=
  sort (fun a b => le (key a) (key b)) df.

(** [df.sort_values(key, ascending=False)] for a float key: the rows with a
    number in decreasing order, then the rows with NaN. *)
Definition sort_values_desc {A : Type} (key : A -> float) (df : list A) : list A :=
  sort (fun a b => SFleb (key b) (key a)) (filter (fun a => negb (isnan (key a))) df)
  ++ filter (fun a => isnan (key a)) df.

(** [df.head(n)]: the first [n] rows, or all but the last [-n] rows when
    [n] is negative. *)
Definition head {A : Type} (n : Z) (df : list A) : list A :=
  match n with
  | Zneg p => firstn (List.length df - Pos.to_nat p) df
  | _ => firstn (Z.to_nat n) df
  end.

End Frame.

(** ** The library functions the parsers call

    [datetime.fromisoformat], [pandas.to_datetime] with a format and
    [errors="coerce"], and the text an f-string gives for a value are taken
    as parameters of the parsers. [None] stands for [ValueError] in the
    first and for NaT in the second. *)

Record runtime : Type := mkruntime {
  fromisoformat : string -> option date;
  to_datetime : string -> string -> option date;
  py_str : json -> string
}.

(** *** A reference runtime *)

Module Reference.

Definition leap (y : Z) : bool :=
  (Z.eqb (y mod 4) 0 && negb (Z.eqb (y mod 100) 0)) || Z.eqb (y mod 400) 0.

Definition days_in_month (y m : Z) : Z :=
  if Z.eqb m 2 then (if leap y then 29 else 28)%Z
  else if Z.eqb m 4 || Z.eqb m 6 || Z.eqb m 9 || Z.eqb m 11 then 30%Z
  else 31%Z.

Definition valid_date (d : date) : bool :=
  Z.leb 1 (year d) && Z.leb (year d) 9999 &&
  Z.leb 1 (month d) && Z.leb (month d) 12 &&
  Z.leb 1 (day d) && Z.leb (day d) (days_in_month (year d) (month d)).

(** The days a pandas timestamp can hold at midnight. *)
Definition in_timestamp_range (d : date) : bool :=
  date_leb (mkdate 1677 9 22) d && date_leb d (mkdate 2262 4 11).

(** Exactly [n] decimal digits at the head of a text. *)
Fixpoint digits_exactly (n : nat) (s : string) : option (string * string) :=
  match n with
  | O => Some (EmptyString, s)
  | S k =>
      match s with
      | String c r =>
          if is_ascii_digit c
          then match digits_exactly k r with
               | Some (d, rest) => Some (String c d, rest)
               | None => None
               end
          else None
      | EmptyString => None
      end
  end.

Definition number (n : nat) (s : string) : option (Z * string) :=
  match digits_exactly n s with
  | Some (d, rest) => Some (Z.of_N (digits_val 0 d), rest)
  | None => None
  end.

Definition expect (c : ascii) (s : string) : option string :=
  match s with
  | String c' r => if Ascii.eqb c c' then Some r else None
  | EmptyString => None
  end.

(** A field of one or two digits with a value from 1 to [hi], the two-digit
    reading first. *)
Definition short_field (hi : Z) (s : string) : list (Z * string) :=
  (match number 2 s with
   | Some (v, r) => if Z.leb 1 v && Z.leb v hi then [(v, r)] else []
   | None => []
   end) ++
  (match number 1 s with
   | Some (v, r) => if Z.leb 1 v then [(v, r)] else []
   | None => []
   end).

Definition month_names : list string :=
  ["jan"; "feb"; "mar"; "apr"; "may"; "jun"; "jul"; "aug"; "sep"; "oct"; "nov"; "dec"].

Fixpoint month_index (names : list string) (i : Z) (s : string) : option Z :=
  match names with
  | [] => None
  | n :: r => if String.eqb n s then Some i else month_index r (i + 1)%Z s
  end.

Definition checked (d : date) : option date :=
  if valid_date d && in_timestamp_range d then Some d else None.

(** One or more white-space characters. *)
Definition spaces1 (s : string) : option string :=
  match s with
  | String c r => if isspace c then Some (lstrip_by isspace r) else None
  | EmptyString => None
  end.

(** Format [%d %b %Y] after the day field. *)
Definition after_day_dbY (dv : Z) (s : string) : option date :=
  match spaces1 s with
  | None => None
  | Some s1 =>
      match month_index month_names 1 (lower (take 3 s1)) with
      | None => None
      | Some mv =>
          match spaces1 (drop 3 s1) with
          | None => None
          | Some s2 =>
              match number 4 s2 with
              | Some (yv, EmptyString) => checked (mkdate yv mv dv)
              | _ => None
              end
          end
      end
  end.

Fixpoint first_some {A B : Type} (f : A -> option B) (l : list A) : option B :=
  match l with
  | [] => None
  | x :: r => match f x with
              | Some y => Some y
              | None => first_some f r
              end
  end.

Definition parse_dbY (s : string) : option date :=
  first_some (fun c => after_day_dbY (fst c) (snd c)) (short_field 31 s).

(** Format [%Y-%m-%d]. *)
Definition parse_Ymd (s : string) : option date :=
  match number 4 s with
  | None => None
  | Some (yv, s1) =>
      match expect "-" s1 with
      | None => None
      | Some s2 =>
          first_some
            (fun m =>
               match expect "-" (snd m) with
               | None => None
               | Some s3 =>
                   first_some
                     (fun d => if is_empty (snd d)
                               then checked (mkdate yv (fst m) (fst d))
                               else None)
                     (short_field 31 s3)
               end)
            (short_field 12 s2)
      end
  end.

Definition ref_to_datetime (format s : string) : option date :=
  if String.eqb format "%Y-%m-%d" then parse_Ymd s
  else if String.eqb format "%d %b %Y" then parse_dbY s
  else None.

(** *** [datetime.fromisoformat]

    The reading of Python 3.11, which works on the UTF-8 bytes of the text:
    a date [YYYY-MM-DD], [YYYYMMDD], [YYYY-Www[-D]] or [YYYYWww[D]], then
    either nothing or one character and a time [HH[:MM[:SS[.f+]]]], the
    colons all present or all absent, with an optional offset [Z] or
    [+HH[:MM[:SS[.f+]]]]. *)

(** The UTF-8 bytes of a text whose code points are below 256. *)
Fixpoint utf8 (s : string) : string :=
  match s with
  | EmptyString => EmptyString
  | String c r =>
      if (code c <? 128)%nat then String c (utf8 r)
      else String (ascii_of_nat (192 + code c / 64))
             (String (ascii_of_nat (128 + code c mod 64)) (utf8 r))
  end.

(** The byte at an index; past the end, the terminating zero. *)
Definition byte_at (b : string) (i : nat) : ascii :=
  match String.get i b with
  | Some c => c
  | None => Ascii.zero
  end.

(** Exactly [n] decimal digits from the index [p], read after the value
    [acc]: their value and the index after them. *)
Fixpoint parse_digits (b : string) (p n : nat) (acc : Z) : option (Z * nat) :=
  match n with
  | O => Some (acc, p)
  | S k =>
      let c := byte_at b p in
      if is_ascii_digit c
      then parse_digits b (S p) k (acc * 10 + Z.of_nat (code c - 48))%Z
      else None
  end.

(** The first index from [idx] on, below [idx + fuel], that holds no
    digit. *)
Fixpoint digit_run (b : string) (idx fuel : nat) : nat :=
  match fuel with
  | O => idx
  | S k => if is_ascii_digit (byte_at b idx) then digit_run b (S idx) k else idx
  end.

(** Where the date ends, for a text of [len] bytes, seven at least. *)
Definition find_separator (b : string) (len : nat) : option nat :=
  if (len =? 7)%nat then Some 7%nat
  else if Ascii.eqb (byte_at b 4) "-" then
    if Ascii.eqb (byte_at b 5) "W" then
      if (len <? 8)%nat then None
      else if (8 <? len)%nat && Ascii.eqb (byte_at b 8) "-" then
        if (len =? 9)%nat then None
        else if (10 <? len)%nat && is_ascii_digit (byte_at b 10) then Some 8%nat
        else Some 10%nat
      else Some 8%nat
    else Some 10%nat
  else if Ascii.eqb (byte_at b 4) "W" then
    let idx := digit_run b 7 (len - 7) in
    if (idx <? 9)%nat then Some idx
    else if Nat.even idx then Some 7%nat else Some 8%nat
  else Some 8%nat.

Definition days_before_year (y : Z) : Z :=
  ((y - 1) * 365 + (y - 1) / 4 - (y - 1) / 100 + (y - 1) / 400)%Z.

Definition days_before_month (y m : Z) : Z :=
  (nth (Z.to_nat m) [0; 0; 31; 59; 90; 120; 151; 181; 212; 243; 273; 304; 334] 0 +
   (if Z.ltb 2 m && leap y then 1 else 0))%Z.

Definition ymd_to_ord (y m d : Z) : Z :=
  (days_before_year y + days_before_month y m + d)%Z.

(** The date of an ordinal, the first of January of the year 1 being the
    day 1. *)
Definition ord_to_ymd (ordinal : Z) : date :=
  let n := (ordinal - 1)%Z in
  let n400 := (n / 146097)%Z in
  let n := (n mod 146097)%Z in
  let n100 := (n / 36524)%Z in
  let n := (n mod 36524)%Z in
  let n4 := (n / 1461)%Z in
  let n := (n mod 1461)%Z in
  let n1 := (n / 365)%Z in
  let n := (n mod 365)%Z in
  let y := (n400 * 400 + 1 + n100 * 100 + n4 * 4 + n1)%Z in
  if Z.eqb n1 4 || Z.eqb n100 4 then mkdate (y - 1) 12 31
  else
    let leapyear := Z.eqb n1 3 && (negb (Z.eqb n4 24) || Z.eqb n100 3) in
    let m := Z.shiftr (n + 50) 5 in
    let preceding :=
      (nth (Z.to_nat m) [0; 0; 31; 59; 90; 120; 151; 181; 212; 243; 273; 304; 334] 0 +
       (if Z.ltb 2 m && leapyear then 1 else 0))%Z in
    if Z.ltb n preceding
    then
      let m' := (m - 1)%Z in
      let before :=
        (preceding -
         (nth (Z.to_nat m') [0; 31; 28; 31; 30; 31; 30; 31; 31; 30; 31; 30; 31] 0 +
          (if Z.eqb m' 2 && leapyear then 1 else 0)))%Z in
      mkdate y m' (n - before + 1)
    else mkdate y m (n - preceding + 1).

(** The day of the week, Monday being 0. *)
Definition weekday (y m d : Z) : Z := ((ymd_to_ord y m d + 6) mod 7)%Z.

Definition iso_week1_monday (y : Z) : Z :=
  let first_day := ymd_to_ord y 1 1 in
  let first_weekday := ((first_day + 6) mod 7)%Z in
  let week1_monday := (first_day - first_weekday)%Z in
  if Z.ltb 3 first_weekday then (week1_monday + 7)%Z else week1_monday.

(** The date of a day of an ISO week. No week of the year 0 holds a day
    of the calendar. *)
Definition iso_to_ymd (iso_year iso_week iso_day : Z) : option date :=
  if Z.ltb iso_year 1 then None
  else
    let in_range :=
      (Z.ltb 0 iso_week && Z.ltb iso_week 53) ||
      (Z.eqb iso_week 53 &&
       (Z.eqb (weekday iso_year 1 1) 3 ||
        (Z.eqb (weekday iso_year 1 1) 2 && leap iso_year))) in
    if negb in_range then None
    else if negb (Z.ltb 0 iso_day && Z.ltb iso_day 8) then None
    else Some (ord_to_ymd (iso_week1_monday iso_year + ((iso_week - 1) * 7 + iso_day - 1))).

(** The date in the first [len] bytes. *)
Definition parse_isoformat_date (b : string) (len : nat) : option date :=
  match parse_digits b 0 4 0 with
  | None => None
  | Some (yv, p) =>
      let uses_separator := Ascii.eqb (byte_at b p) "-" in
      let p := if uses_separator then S p else p in
      if Ascii.eqb (byte_at b p) "W"
      then
        match parse_digits b (S p) 2 0 with
        | None => None
        | Some (wv, p1) =>
            if (p1 <? len)%nat
            then
              if uses_separator && negb (Ascii.eqb (byte_at b p1) "-") then None
              else
                match parse_digits b (if uses_separator then S p1 else p1) 1 0 with
                | None => None
                | Some (dv, _) => iso_to_ymd yv wv dv
                end
            else iso_to_ymd yv wv 1
        end
      else
        match parse_digits b p 2 0 with
        | None => None
        | Some (mv, p1) =>
            if uses_separator && negb (Ascii.eqb (byte_at b p1) "-") then None
            else
              match parse_digits b (if uses_separator then S p1 else p1) 2 0 with
              | None => None
              | Some (dv, _) => Some (mkdate yv mv dv)
              end
        end
  end.

(** What the reading of one of the fields [HH], [MM], [SS] is followed
    by. *)
Inductive after_field : Type :=
| field_last (more : bool)
| field_next (p : nat)
| field_fraction (p : nat).

Definition time_field (b : string) (p_end : nat) (first : bool) (has_separator : bool)
  (p : nat) : option (Z * bool * after_field) :=
  match parse_digits b p 2 0 with
  | None => None
  | Some (v, p1) =>
      let c := byte_at b p1 in
      let has_separator := if first then Ascii.eqb c ":" else has_separator in
      if (p_end <=? S p1)%nat
      then Some (v, has_separator, field_last (negb (Ascii.eqb c Ascii.zero)))
      else if has_separator && Ascii.eqb c ":"
      then Some (v, has_separator, field_next (S p1))
      else if Ascii.eqb c "." || Ascii.eqb c ","
      then Some (v, has_separator, field_fraction (S p1))
      else if negb has_separator then Some (v, has_separator, field_next p1)
      else None
  end.

(** The fraction of a second from the index [p]: six digits at most are
    read, the digits after them are passed over. The result is the number of
    microseconds, and whether something follows. *)
Definition time_fraction (b : string) (p_end p : nat) : option (Z * bool) :=
  let to_parse := Nat.min 6 (p_end - p) in
  match parse_digits b p to_parse 0 with
  | None => None
  | Some (v, p1) =>
      let us := (v * 10 ^ Z.of_nat (6 - to_parse))%Z in
      let p2 := digit_run b p1 (String.length b - p1) in
      Some (us, negb (Ascii.eqb (byte_at b p2) Ascii.zero))
  end.

(** The fields [HH[:MM[:SS[.f+]]]] between the index [p] and [p_end]: the
    hour, minute, second and microsecond, and whether something follows
    them. *)
Definition parse_hh_mm_ss_ff (b : string) (p p_end : nat)
  : option (Z * Z * Z * Z * bool) :=
  match time_field b p_end true true p with
  | None => None
  | Some (h, sep, field_last more) => Some (h, 0, 0, 0, more)%Z
  | Some (h, sep, field_fraction q) =>
      match time_fraction b p_end q with
      | None => None
      | Some (us, more) => Some (h, 0, 0, us, more)%Z
      end
  | Some (h, sep, field_next q) =>
      match time_field b p_end false sep q with
      | None => None
      | Some (m, _, field_last more) => Some (h, m, 0, 0, more)%Z
      | Some (m, _, field_fraction q1) =>
          match time_fraction b p_end q1 with
          | None => None
          | Some (us, more) => Some (h, m, 0, us, more)%Z
          end
      | Some (m, _, field_next q1) =>
          match time_field b p_end false sep q1 with
          | None => None
          | Some (sec, _, field_last more) => Some (h, m, sec, 0, more)%Z
          | Some (sec, _, field_fraction q2)
          | Some (sec, _, field_next q2) =>
              match time_fraction b p_end q2 with
              | None => None
              | Some (us, more) => Some (h, m, sec, us, more)%Z
              end
          end
      end
  end.

(** The first index from [p] on, below [p + fuel], that holds the mark of
    an offset; [p + fuel] when there is none. *)
Fixpoint offset_mark (b : string) (p fuel : nat) : nat :=
  match fuel with
  | O => p
  | S k =>
      let c := byte_at b p in
      if Ascii.eqb c "Z" || Ascii.eqb c "+" || Ascii.eqb c "-" then p
      else offset_mark b (S p) k
  end.

(** The time in the [len] bytes from the index [p]: whether it is one that
    a [datetime] can hold. *)
Definition parse_isoformat_time (b : string) (p len : nat) : bool :=
  let p_end := (p + len)%nat in
  let tz := if (len =? 0)%nat then S p else offset_mark b p len in
  match parse_hh_mm_ss_ff b p tz with
  | None => false
  | Some (h, m, sec, us, more) =>
      let time_fits := Z.ltb h 24 && Z.ltb m 60 && Z.ltb sec 60 in
      if (tz =? p_end)%nat then negb more && time_fits
      else if Ascii.eqb (byte_at b tz) "Z"
      then Ascii.eqb (byte_at b (S tz)) Ascii.zero && time_fits
      else
        match parse_hh_mm_ss_ff b (S tz) p_end with
        | None => false
        | Some (th, tm, ts, tus, tmore) =>
            negb tmore && time_fits &&
            Z.ltb ((th * 3600 + tm * 60 + ts) * 1000000 + tus) 86400000000
        end
  end.

(** [datetime.fromisoformat(s).date()] *)
Definition ref_fromisoformat (s : string) : option date :=
  let b := utf8 s in
  let len := String.length b in
  if (len <? 7)%nat then None
  else
    match find_separator b len with
    | None => None
    | Some sep =>
        match parse_isoformat_date b sep with
        | None => None
        | Some d =>
            if negb (valid_date d) then None
            else if (sep <? len)%nat
            then
              let p := if (code (byte_at b sep) <? 128)%nat then S sep else S (S sep) in
              if parse_isoformat_time b p (len - p) then Some d else None
            else Some d
        end
    end.

(** The text of a value in an f-string; exact on strings, integers,
    booleans and [None]. *)
Definition ref_py_str (x : json) : string :=
  match x with
  | JStr s => s
  | JInt n => zstr n
  | JBool true => "True"
  | JBool false => "False"
  | JNull => "None"
  | _ => EmptyString
  end.

Definition python : runtime :=
  mkruntime ref_fromisoformat ref_to_datetime ref_py_str.

End Reference.

(** ** The market-cap snapshot *)

Record MarketCapSnapshot : Type := mkMarketCapSnapshot {
  btc_price : float;
  btc_market_cap : float;
  gold_price : float;
  gold_market_cap : float
}.

Definition btc_vs_gold_ratio (self : MarketCapSnapshot) : float :=
  if negb (PyNum.truthy (gold_market_cap self)) then nan
  else fdiv (btc_market_cap self) (gold_market_cap self).

Definition gold_vs_btc_upside (self : MarketCapSnapshot) : float :=
  if negb (PyNum.truthy (btc_market_cap self)) then nan
  else fdiv (gold_market_cap self) (btc_market_cap self).

Definition TOTAL_ABOVE_GROUND_GOLD_TONNES : float := lit 205000.
Definition TONNES_TO_TROY_OZ : float := lit 32150.7466.

(** ** The rows of the tables *)

Record m2_row : Type := mk_m2_row {
  m2_year : Z;
  m2_value : float;
  value_trillion : float
}.

Record mvrv_row : Type := mk_mvrv_row {
  mvrv_date : date;
  cap_market_usd : float;
  cap_realized_usd : float;
  mvrv_ratio : float
}.

Record ahr_row : Type := mk_ahr_row {
  ahr_date : date;
  ahr : float
}.

Record flow_row : Type := mk_flow_row {
  date_str : string;
  total_flow : float;
  flow_date : date
}.

(** A treasury row: the cells of the line, and the decoded holding amount
    that replaces the cell of the holding column. *)
Record treasury_row : Type := mk_treasury_row {
  cells : list string;
  held : float
}.

(** ** The parsers *)

Definition dquote : ascii := ascii_of_nat 34.
Definition backslash : ascii := ascii_of_nat 92.

Section Parsers.

Variable rt : runtime.
Variable www : web.

(** *** Global broad money *)

Definition m2_url : string :=
  "https://api.worldbank.org/v2/country/WLD/indicator/" ++
  "FM.LBL.BMNY.CN?format=json&per_page=600".

(** The loop over the records: a record without value or year, or whose
    value [float()] rejects, is passed over. *)
Fixpoint m2_rows (records : list json) : result (list (Z * float)) :=
  match records with
  | [] => Ok []
  | entry :: rest =>
      value <- PyObj.get entry "value" ;;
      yr <- PyObj.get entry "date" ;;
      if PyObj.is_none value || PyObj.is_none yr then m2_rows rest
      else
        match PyObj.to_float value with
        | Raise TypeError | Raise ValueError => m2_rows rest
        | Raise e => Raise e
        | Ok numeric =>
            y <- PyObj.to_int yr ;;
            rows <- m2_rows rest ;;
            Ok ((y, numeric) :: rows)
        end
  end.

Definition fetch_global_m2 : result (list m2_row) :=
  payload <- _request_json www m2_url ;;
  records <- PyObj.getindex payload 1 ;;
  entries <- PyObj.iterate records ;;
  rows <- m2_rows entries ;;
  match rows with
  | [] => Raise (DataFetchError "World Bank M2 dataset returned no usable data")
  | _ =>
      Ok (map (fun r => mk_m2_row (fst r) (snd r) (fdiv (snd r) (lit 1e12)))
              (Frame.sort_values Z.leb fst rows))
  end.

(** *** Market caps *)

Definition btc_url : string :=
  "https://api.coingecko.com/api/v3/simple/price" ++
  "?ids=bitcoin&vs_currencies=usd&include_market_cap=true".

Definition gold_url : string := "https://data-asg.goldprice.org/dbXRates/USD".

Definition fetch_market_caps : result MarketCapSnapshot :=
  btc_payload <- _request_json www btc_url ;;
  btc_data <- PyObj.get btc_payload "bitcoin" ;;
  if negb (PyObj.truthy btc_data)
  then Raise (DataFetchError "CoinGecko response missing bitcoin data")
  else
    usd <- PyObj.getitem btc_data "usd" ;;
    btc_price <- PyObj.to_float usd ;;
    cap <- PyObj.getitem btc_data "usd_market_cap" ;;
    btc_cap <- PyObj.to_float cap ;;
    gold_payload <- _request_json www gold_url ;;
    items <- PyObj.get gold_payload "items" ;;
    if negb (PyObj.truthy items)
    then Raise (DataFetchError "Gold price feed missing items list")
    else
      item <- PyObj.getindex items 0 ;;
      xau <- PyObj.getitem item "xauPrice" ;;
      gold_price <- PyObj.to_float xau ;;
      let total_oz := fmul TOTAL_ABOVE_GROUND_GOLD_TONNES TONNES_TO_TROY_OZ in
      let gold_cap := fmul gold_price total_oz in
      Ok (mkMarketCapSnapshot btc_price btc_cap gold_price gold_cap).

(** *** The valuation ratio *)

(** How a generator stops: exhausted, or by an exception. *)
Definition stop : Type := option exn.

(** The rows the generator yields until it stops. [fuel] bounds the number
    of pages requested; [None] tells that the bound was reached. *)
Fixpoint _paginate_coinmetrics (fuel : nat) (base_url : string)
  (next_token : option json) : option (list json * stop) :=
  match fuel with
  | O => None
  | S fuel' =>
      let url : string :=
        match next_token with
        | Some tok => base_url ++ "&next_page_token=" ++ py_str rt tok
        | None => base_url
        end in
      match (payload <- _request_json www url ;;
             data <- PyObj.get_default payload "data" (JArr []) ;;
             rows <- PyObj.iterate data ;;
             Ok (payload, rows)) with
      | Raise e => Some ([], Some e)
      | Ok (payload, rows) =>
          match PyObj.get payload "next_page_token" with
          | Raise e => Some (rows, Some e)
          | Ok tok =>
              if negb (PyObj.truthy tok) then Some (rows, None)
              else match _paginate_coinmetrics fuel' base_url (Some tok) with
                   | None => None
                   | Some (more, how) => Some ((rows ++ more)%list, how)
                   end
          end
      end
  end.

Definition handled_timestamp (e : exn) : bool :=
  match e with
  | KeyError | ValueError => true
  | _ => false
  end.

(** The timestamp of a row, under the handler of the loop. *)
Definition mvrv_timestamp (row : json) : result date :=
  reraise_as handled_timestamp "Invalid timestamp in CoinMetrics payload"
    (tm <- PyObj.getitem row "time" ;;
     iso <- PyObj.str_replace tm "Z" "+00:00" ;;
     match fromisoformat rt iso with
     | Some d => Ok d
     | None => Raise ValueError
     end).

Definition mvrv_record (row : json) : result mvrv_row :=
  timestamp <- mvrv_timestamp row ;;
  a <- PyObj.getitem row "CapMrktCurUSD" ;;
  cap_market <- PyObj.to_float a ;;
  b <- PyObj.getitem row "CapRealUSD" ;;
  cap_realized <- PyObj.to_float b ;;
  c <- PyObj.getitem row "CapMVRVCur" ;;
  ratio <- PyObj.to_float c ;;
  Ok (mk_mvrv_row timestamp cap_market cap_realized ratio).

(** The loop of the fetcher over a run of the generator: the rows in the
    order they are yielded, then the way the generator stopped. *)
Fixpoint mvrv_rows (yielded : list json) (how : stop) : result (list mvrv_row) :=
  match yielded with
  | [] => match how with
          | Some e => Raise e
          | None => Ok []
          end
  | row :: rest =>
      r <- mvrv_record row ;;
      rows <- mvrv_rows rest how ;;
      Ok (r :: rows)
  end.

Definition mvrv_base_url (start today : date) : string :=
  "https://community-api.coinmetrics.io/v4/timeseries/asset-metrics" ++
  "?assets=btc&metrics=CapMrktCurUSD,CapRealUSD,CapMVRVCur" ++
  "&frequency=1d&start_time=" ++ isoformat start ++ "&end_time=" ++ isoformat today.

Definition mvrv_table (rows : list mvrv_row) : result (list mvrv_row) :=
  match rows with
  | [] => Raise (DataFetchError "CoinMetrics returned no data for MVRV")
  | _ => Ok (Frame.sort_values date_leb mvrv_date rows)
  end.

(** The [for] loop of the fetcher over the generator. The generator runs
    only as far as the next row for each turn of the loop, so that the rows
    of a page are read before the token of the page is looked at and the
    next page is asked for: a row that raises ends the fetch without a
    further request. [fuel] bounds the number of pages requested; [None]
    tells that the bound was reached. *)
Fixpoint mvrv_loop (fuel : nat) (base_url : string) (next_token : option json)
  : option (result (list mvrv_row)) :=
  match fuel with
  | O => None
  | S fuel' =>
      let url : string :=
        match next_token with
        | Some tok => base_url ++ "&next_page_token=" ++ py_str rt tok
        | None => base_url
        end in
      match (payload <- _request_json www url ;;
             data <- PyObj.get_default payload "data" (JArr []) ;;
             rows <- PyObj.iterate data ;;
             Ok (payload, rows)) with
      | Raise e => Some (Raise e)
      | Ok (payload, rows) =>
          match mvrv_rows rows None with
          | Raise e => Some (Raise e)
          | Ok read =>
              match PyObj.get payload "next_page_token" with
              | Raise e => Some (Raise e)
              | Ok tok =>
                  if negb (PyObj.truthy tok) then Some (Ok read)
                  else match mvrv_loop fuel' base_url (Some tok) with
                       | None => None
                       | Some later => Some (more <- later ;; Ok (read ++ more)%list)
                       end
              end
          end
      end
  end.

(** [today] is the value of [dt.date.today()]. *)
Definition fetch_mvrv_timeseries (fuel : nat) (today start : date)
  : option (result (list mvrv_row)) :=
  match mvrv_loop fuel (mvrv_base_url start today) None with
  | None => None
  | Some read => Some (rows <- read ;; mvrv_table rows)
  end.

(** *** The sentiment index *)

Definition ahr_url : string := "https://www.caizi.fun/trade/data/ahr".

Definition anchor : string := "name:" ++ String backslash (String dquote "AHR999").
Definition data_key : string := "data:[".
Definition labels_key : string := "labels:[".

Definition nonblank (s : string) : bool := negb (is_empty (strip s)).

(** The two bracketed blocks after the anchor, as lists of entries. *)
Definition ahr_blocks (html : string) : result (list string * list string) :=
  match find anchor html 0 with
  | None => Raise (DataFetchError "Unable to locate AHR999 series in CaiZi page")
  | Some anchor_idx =>
      match find data_key html anchor_idx, find labels_key html anchor_idx with
      | Some data_start, Some labels_start =>
          match find "]" html data_start, find "]" html labels_start with
          | Some data_end, Some labels_end =>
              let raw_values :=
                map strip
                  (filter nonblank
                     (split "," (slice (data_start + String.length data_key) data_end html))) in
              let raw_labels :=
                map (fun label => strip_chars (String dquote EmptyString) (strip label))
                  (filter nonblank
                     (split "," (slice (labels_start + String.length labels_key) labels_end html))) in
              Ok (raw_values, raw_labels)
          | _, _ => Raise (DataFetchError "Malformed AHR999 script section")
          end
      | _, _ => Raise (DataFetchError "Missing data or labels block for AHR999")
      end
  end.

Fixpoint floats_of (raw_values : list string) : result (list float) :=
  match raw_values with
  | [] => Ok []
  | v :: rest =>
      x <- float_of_str v ;;
      xs <- floats_of rest ;;
      Ok (x :: xs)
  end.

(** [df.dropna()] on the frame of dates and values. *)
Fixpoint ahr_dropna (dates : list (option date)) (values : list float) : list ahr_row :=
  match dates, values with
  | d :: ds, v :: vs =>
      match d with
      | Some d' => if isnan v then ahr_dropna ds vs else mk_ahr_row d' v :: ahr_dropna ds vs
      | None => ahr_dropna ds vs
      end
  | _, _ => []
  end.

Definition fetch_ahr_timeseries : result (list ahr_row) :=
  html <- _get_text www ahr_url ;;
  blocks <- ahr_blocks html ;;
  let '(raw_values, raw_labels) := blocks in
  if negb (List.length raw_values =? List.length raw_labels)%nat
  then Raise (DataFetchError "Mismatched label/value counts in AHR data")
  else
    let dates := map (to_datetime rt "%Y-%m-%d") raw_labels in
    values <- floats_of raw_values ;;
    Ok (Frame.sort_values date_leb ahr_date (ahr_dropna dates values)).

(** *** ETF daily flows *)

Definition _proxied_farside_url (path : string) : string :=
  "https://r.jina.ai/https://farside.co.uk/" ++ strip_chars "/" path ++ "/".

(** The group of the pattern [\d{2} [A-Za-z]{3} \d{4}] at the head of a
    text, and what follows it. *)
Definition date_group (s : string) : option (string * string) :=
  let g := take 11 s in
  match list_ascii_of_string g with
  | [d1; d2; s1; a1; a2; a3; s2; y1; y2; y3; y4] =>
      if is_ascii_digit d1 && is_ascii_digit d2 && Ascii.eqb s1 " " &&
         is_ascii_alpha a1 && is_ascii_alpha a2 && is_ascii_alpha a3 &&
         Ascii.eqb s2 " " &&
         is_ascii_digit y1 && is_ascii_digit y2 && is_ascii_digit y3 && is_ascii_digit y4
      then Some (g, drop 11 s)
      else None
  | _ => None
  end.

(** [date_pattern.match(line)], with the pattern
    [^\|\s*(\d{2} [A-Za-z]{3} \d{4})\s*\|]; the result is the group. *)
Definition date_pattern_match (line : string) : option string :=
  match line with
  | String "|" r =>
      match date_group (lstrip_by isspace r) with
      | Some (g, rest) =>
          match lstrip_by isspace rest with
          | String "|" _ => Some g
          | _ => None
          end
      | None => None
      end
  | _ => None
  end.

(** [[p.strip() for p in line.strip('|').split('|')]] *)
Definition pipe_parts (line : string) : list string :=
  map strip (split "|" (strip_chars "|" line)).

Fixpoint flow_scan (lines : list string) : result (list (string * float)) :=
  match lines with
  | [] => Ok []
  | line :: rest =>
      if negb (startswith "|" (strip line)) then flow_scan rest
      else match date_pattern_match line with
           | None => flow_scan rest
           | Some date_str =>
               match rev (pipe_parts line) with
               | [] => flow_scan rest
               | total_str :: _ =>
                   value <- _to_number total_str ;;
                   rows <- flow_scan rest ;;
                   Ok ((date_str, value) :: rows)
               end
           end
  end.

(** The rows whose date parses, each with its date. *)
Fixpoint flow_dated (rows : list (string * float)) : list flow_row :=
  match rows with
  | [] => []
  | (s, v) :: rest =>
      match to_datetime rt "%d %b %Y" s with
      | Some d => mk_flow_row s v d :: flow_dated rest
      | None => flow_dated rest
      end
  end.

Definition _parse_farside_daily_flows (text : string) : result (list flow_row) :=
  rows <- flow_scan (splitlines text) ;;
  match rows with
  | [] => Raise (DataFetchError "No daily ETF flow rows found in Farside table")
  | _ => Ok (Frame.sort_values date_leb flow_date (flow_dated rows))
  end.

Definition fetch_btc_etf_flows : result (list flow_row) :=
  text <- _get_text www (_proxied_farside_url "btc") ;;
  _parse_farside_daily_flows text.

Definition fetch_eth_etf_flows : result (list flow_row) :=
  text <- _get_text www (_proxied_farside_url "eth") ;;
  _parse_farside_daily_flows text.

(** *** Treasury holdings *)

(** The lines a scanning loop keeps, each as the cells it appends. *)
Fixpoint collect (keep : string -> option (list string)) (lines : list string)
  : list (list string) :=
  match lines with
  | [] => []
  | line :: rest =>
      match keep line with
      | Some row => row :: collect keep rest
      | None => collect keep rest
      end
  end.

(** [df[column] = df[column].apply(_to_number)] *)
Fixpoint decode_column (column : nat) (rows : list (list string))
  : result (list treasury_row) :=
  match rows with
  | [] => Ok []
  | row :: rest =>
      x <- _to_number (nth column row EmptyString) ;;
      more <- decode_column column rest ;;
      Ok (mk_treasury_row row x :: more)
  end.

(** The ranking shared by the three tables: decode the holding column,
    sort on it in decreasing order, keep the first [top_n] rows. *)
Definition ranked (column : nat) (top_n : Z) (rows : list (list string))
  : result (list treasury_row) :=
  df <- decode_column column rows ;;
  Ok (Frame.head top_n (Frame.sort_values_desc held df)).

Definition btc_line (line : string) : option (list string) :=
  if negb (startswith "|" line) then None
  else
    let parts := pipe_parts line in
    if (List.length parts <? 9)%nat ||
       (String.eqb (hd EmptyString parts) "Ticker" || String.eqb (hd EmptyString parts) EmptyString)
    then None
    else Some (firstn 9 parts).

Definition fetch_btc_treasury_holdings (top_n : Z) : result (list treasury_row) :=
  text <- _get_text www (_proxied_farside_url "bitcoin-treasury-companies") ;;
  match collect btc_line (splitlines text) with
  | [] => Raise (DataFetchError "No BTC treasury rows parsed")
  | rows => ranked 8 top_n rows
  end.

Definition eth_line (line : string) : option (list string) :=
  if negb (startswith "|" line) then None
  else
    let parts := pipe_parts line in
    if (List.length parts <? 8)%nat || String.eqb (hd EmptyString parts) "Company Name"
    then None
    else Some (firstn 8 parts).

Definition fetch_eth_treasury_holdings (top_n : Z) : result (list treasury_row) :=
  text <- _get_text www "https://r.jina.ai/https://ethereumtreasuries.net/" ;;
  match collect eth_line (splitlines text) with
  | [] => Raise (DataFetchError "No Ethereum treasury data parsed")
  | rows => ranked 3 top_n rows
  end.

Definition sol_line (line : string) : option (list string) :=
  if negb (startswith "|" line) then None
  else
    let parts := pipe_parts line in
    if (List.length parts <? 8)%nat || String.eqb (hd EmptyString parts) "Company"
    then None
    else
      let parts := if isdigit (hd EmptyString parts) then tl parts else parts in
      if (List.length parts <? 7)%nat then None
      else Some (firstn 7 parts).

Definition fetch_sol_treasury_holdings (top_n : Z) : result (list treasury_row) :=
  text <- _get_text www "https://r.jina.ai/https://www.coingecko.com/en/treasuries/solana" ;;
  match collect sol_line (splitlines text) with
  | [] => Raise (DataFetchError "No Solana treasury table detected")
  | rows => ranked 3 top_n rows
  end.

End Parsers.

(** * Properties *)

(** ** Order predicates on tables *)

Definition ascending (dates : list date) : bool := Frame.chain date_leb dates.

Definition strictly_ascending (dates : list date) : bool := Frame.chain date_ltb dates.

(** Decreasing amounts followed by the missing ones: next to each other, a
    number is followed by a number not above it ([strict]: below it) or by
    NaN, and NaN is followed by NaN only. *)
Definition before_desc (strict : bool) (a b : float) : bool :=
  if isnan b then true
  else if isnan a then false
  else if strict then SFltb b a else SFleb b a.

Definition descending_nan_last (amounts : list float) : bool :=
  Frame.chain (before_desc false) amounts.

Definition strictly_descending_nan_last (amounts : list float) : bool :=
  Frame.chain (before_desc true) amounts.

(** ** What the properties speak of *)

(** [dates] is the date column of a table that one of the three parsers
    returns. *)
Definition series_dates (rt : runtime) (www : web) (dates : list date) : Prop :=
  (exists fuel today start table,
     fetch_mvrv_timeseries rt www fuel today start = Some (Ok table) /\
     dates = map mvrv_date table) \/
  (exists table,
     fetch_ahr_timeseries rt www = Ok table /\ dates = map ahr_date table) \/
  (exists text table,
     _parse_farside_daily_flows rt text = Ok table /\ dates = map flow_date table).

(** [series_rows rt www accepted dates]: one of the three parsers returns a
    table with the date column [dates] after it has accepted rows with the
    dates [accepted], in the order it met them. The accepted rows are the
    rows of all the pages (MVRV), the pairs of a label and a value that have
    a date and a number (AHR999), and the lines found by the date pattern
    whose date parses (ETF flows). *)
Definition series_rows (rt : runtime) (www : web) (accepted dates : list date) : Prop :=
  (exists fuel today start yielded rows table,
     _paginate_coinmetrics rt www fuel (mvrv_base_url start today) None =
       Some (yielded, None) /\
     Forall2 (fun row r => mvrv_record rt row = Ok r) yielded rows /\
     fetch_mvrv_timeseries rt www fuel today start = Some (Ok table) /\
     accepted = map mvrv_date rows /\ dates = map mvrv_date table) \/
  (exists html raw_values raw_labels values table,
     _get_text www ahr_url = Ok html /\
     ahr_blocks html = Ok (raw_values, raw_labels) /\
     floats_of raw_values = Ok values /\
     fetch_ahr_timeseries rt www = Ok table /\
     accepted = map ahr_date
                  (ahr_dropna (map (to_datetime rt "%Y-%m-%d") raw_labels) values) /\
     dates = map ahr_date table) \/
  (exists text rows table,
     flow_scan (splitlines text) = Ok rows /\
     _parse_farside_daily_flows rt text = Ok table /\
     accepted = map flow_date (flow_dated rt rows) /\
     dates = map flow_date table).

(** [table] is what one of the three treasury fetchers returns for
    [top_n]. *)
Definition treasury_table (www : web) (top_n : Z) (table : list treasury_row) : Prop :=
  fetch_btc_treasury_holdings www top_n = Ok table \/
  fetch_eth_treasury_holdings www top_n = Ok table \/
  fetch_sol_treasury_holdings www top_n = Ok table.

(** What is wrong with the timestamp of a row: the row is no object, it
    has no "time" entry, the entry is no text, or its text is one that
    [fromisoformat] rejects once every "Z" is replaced by "+00:00". *)
Inductive timestamp_defect : Type :=
| no_object
| no_entry
| not_text
| rejected_text.

Definition timestamp_defect_of (rt : runtime) (row : json) : option timestamp_defect :=
  match row with
  | JObj fields =>
      match PyObj.lookup "time" fields with
      | None => Some no_entry
      | Some (JStr t) =>
          match fromisoformat rt (replace "Z" "+00:00" t) with
          | Some _ => None
          | None => Some rejected_text
          end
      | Some _ => Some not_text
      end
  | _ => Some no_object
  end.

(** The timestamp of a row is missing or malformed. *)
Definition bad_timestamp (rt : runtime) (row : json) : Prop :=
  timestamp_defect_of rt row <> None.

Definition invalid_timestamp : exn :=
  DataFetchError "Invalid timestamp in CoinMetrics payload".

(** The exception that each defect ends in. *)
Definition defect_exn (k : timestamp_defect) : exn :=
  match k with
  | no_object => TypeError
  | no_entry | rejected_text => invalid_timestamp
  | not_text => AttributeError
  end.

(** ** Inputs of the examples *)

Module Examples.
Import Reference.

Definition newline : string := String (ascii_of_nat 10) EmptyString.

(** A remote side that answers every request with the same text. *)
Definition page (body : string) : web := fun _ => mkresponse 200 body None.

(** A remote side that answers every request with the same JSON value. *)
Definition api (payload : json) : web :=
  fun _ => mkresponse 200 EmptyString (Some payload).

(** Two flow lines for the same day. *)
Definition repeated_day_text : string :=
  "| 02 Jan 2024 | 1.0 | 7 |" ++ newline ++
  "| 01 Jan 2024 | 2.0 | 9 |" ++ newline ++
  "| 02 Jan 2024 | 3.0 | (4) |".

(** One flow line whose date matches the pattern and names no month. *)
Definition undated_flow_text : string := "| 31 Foo 2024 | 5 |".

Definition quoted (s : string) : string :=
  String dquote s ++ String dquote EmptyString.

Definition ahr_document (values labels : string) : string :=
  "series:[{" ++ anchor ++ String dquote ",data:[" ++ values ++ "]}],labels:[" ++ labels ++ "]".

(** Three values and two labels. *)
Definition ahr_mismatch : string :=
  ahr_document "0.45,0.52,0.61" (quoted "2024-01-01" ++ "," ++ quoted "2024-01-02").

(** Both arrays empty. *)
Definition ahr_empty : string := ahr_document EmptyString EmptyString.

Definition ahr_two_days : string :=
  ahr_document "0.52,0.45" (quoted "2024-01-02" ++ "," ++ quoted "2024-01-01").

Definition mvrv_entry (time : string) (rest : list (string * json)) : json :=
  JObj (("time", JStr time) :: rest).

Definition metrics : list (string * json) :=
  [("CapMrktCurUSD", JStr "1200000000000.5");
   ("CapRealUSD", JStr "600000000000");
   ("CapMVRVCur", JStr "2.0")].

Definition mvrv_payload (rows : list json) (token : json) : json :=
  JObj [("data", JArr rows); ("next_page_token", token)].

(** Two pages of one row each, the second reached by the token of the
    first. *)
Definition mvrv_two_pages : web :=
  fun url =>
    if endswith "&next_page_token=p2" url
    then mkresponse 200 EmptyString
           (Some (JObj [("data", JArr [mvrv_entry "2024-01-01T00:00:00Z" metrics])]))
    else mkresponse 200 EmptyString
           (Some (mvrv_payload [mvrv_entry "2024-01-02T00:00:00Z" metrics] (JStr "p2"))).

(** A row without its realised cap. *)
Definition mvrv_missing_metric : web :=
  api (mvrv_payload
         [mvrv_entry "2024-01-01T00:00:00Z"
            [("CapMrktCurUSD", JStr "1"); ("CapMVRVCur", JStr "2.0")]] JNull).

(** A row whose market cap is not a number. *)
Definition mvrv_bad_metric : web :=
  api (mvrv_payload
         [mvrv_entry "2024-01-01T00:00:00Z"
            [("CapMrktCurUSD", JStr "n/a"); ("CapRealUSD", JStr "1");
             ("CapMVRVCur", JStr "2.0")]] JNull).

(** A good row followed by a row whose timestamp is not a date. *)
Definition mvrv_bad_timestamp : web :=
  api (mvrv_payload
         [mvrv_entry "2024-01-01T00:00:00Z" metrics;
          mvrv_entry "yesterday" metrics] JNull).

(** A row whose timestamp is [null]. *)
Definition mvrv_null_timestamp : web :=
  api (mvrv_payload [JObj (("time", JNull) :: metrics)] JNull).

Definition m2_record (yr : json) (value : json) : json :=
  JObj [("date", yr); ("value", value)].

(** A year that is not an integer text. *)
Definition m2_bad_year : web :=
  api (JArr [JObj [("page", JInt 1)];
             JArr [m2_record (JStr "2020") (JFloat (lit 1e14));
                   m2_record (JStr "2021Q1") (JFloat (lit 1.1e14))]]).

(** A payload of one element. *)
Definition m2_short_payload : web := api (JArr [JObj [("message", JStr "error")]]).

(** BTC price 60000, BTC market cap 1.2e12, gold price 2000. *)
Definition caps_example : web :=
  fun url =>
    if String.eqb url btc_url
    then mkresponse 200 EmptyString
           (Some (JObj [("bitcoin",
                         JObj [("usd", JInt 60000);
                               ("usd_market_cap", JFloat (lit 1.2e12))])]))
    else mkresponse 200 EmptyString
           (Some (JObj [("items", JArr [JObj [("xauPrice", JFloat (lit 2000.0))]])])).

Definition btc_treasury_line (ticker holdings : string) : string :=
  "| " ++ ticker ++ " | Name | Miner | US | USD | 10.0 | +1% | 500 | " ++ holdings ++ " |".

(** Two companies with the same holdings, and one with none reported. *)
Definition btc_treasury_tie : web :=
  page ("| Ticker | Name | Type | Country | Currency | Price | Day Change | Market Cap (m) | BTC Holdings |"
        ++ newline ++ btc_treasury_line "AAA" "1,000"
        ++ newline ++ btc_treasury_line "BBB" "-"
        ++ newline ++ btc_treasury_line "CCC" "1,000"
        ++ newline ++ btc_treasury_line "DDD" "2.5b").

Definition day0 : date := mkdate 2024 1 1.

End Examples.

Import Reference Examples.

Ltac bind_cases H :=
  repeat match type of H with
         | context [bind ?m _] =>
             let E := fresh "E" in
             destruct m eqn:E; cbn [bind] in H; try discriminate H
         | context [if ?b then _ else _] =>
             let E := fresh "E" in
             destruct b eqn:E; try discriminate H
         end.

(** * Further properties *)

(** ** What they speak of *)

(** A text without the characters of [chars]. *)
Fixpoint remove_chars (chars s : string) : string :=
  match s with
  | EmptyString => EmptyString
  | String c r =>
      if mem_char c chars then remove_chars chars r
      else String c (remove_chars chars r)
  end.

(** An integer written with digits and grouping commas, one digit at
    least. *)
Definition grouped_integer (s : string) : bool :=
  all_chars (fun c => is_ascii_digit c || Ascii.eqb c ",") s &&
  negb (is_empty (remove_chars "," s)).

(** The float nearest to the integer that a grouped integer denotes. *)
Definition integer_value (s : string) : float :=
  of_decimal false (digits_val 0 (remove_chars "," s)) 0.


(** The removals that [clean] applies to [value.strip('()')]. *)
Definition scrub (y : string) : string :=
  let without (token s : string) : string := replace token EmptyString s in
  without "%"
    (without "BTC" (without "ETH" (without "SOL" (without "+"
       (without "$" (without "," y)))))).


(** The remote side answers no request with the status 200. *)
Definition unavailable (www : web) : Prop :=
  forall url, status_code (www url) <> 200%Z.

(** The three treasury fetchers. *)
Definition treasury_fetchers
  : list (web -> Z -> result (list treasury_row)) :=
  [fetch_btc_treasury_holdings; fetch_eth_treasury_holdings;
   fetch_sol_treasury_holdings].

Module MoreExamples.

(** A remote side that answers every request with the status 503. *)
Definition down : web := fun _ => mkresponse 503 EmptyString None.

End MoreExamples.

Import MoreExamples.


(** A broad-money record that the loop passes over: an object whose value
    or year is absent or [null], or whose value is a text or a container
    that [float()] refuses. *)
Definition unusable_record (entry : json) : Prop :=
  exists fields,
    entry = JObj fields /\
    (PyObj.lookup "value" fields = None \/
     PyObj.lookup "value" fields = Some JNull \/
     PyObj.lookup "date" fields = None \/
     PyObj.lookup "date" fields = Some JNull \/
     (exists v, PyObj.lookup "value" fields = Some (JStr v) /\ parse_float v = None) \/
     (exists l, PyObj.lookup "value" fields = Some (JArr l)) \/
     (exists m, PyObj.lookup "value" fields = Some (JObj m))).

(** The address of a page: the base address, with the continuation token
    of the page before when there is one. *)
Definition page_url (rt : runtime) (base_url : string) (next_token : option json)
  : string :=
  match next_token with
  | Some tok => base_url ++ "&next_page_token=" ++ py_str rt tok
  | None => base_url
  end.

(** [pages_from rt www base_url tok rows n]: the [n] pages reached from the
    token [tok], each by the token of the page before, end with a page that
    has no token, and [rows] are their data rows in the order of the
    pages. *)
Inductive pages_from (rt : runtime) (www : web) (base_url : string)
  : option json -> list json -> nat -> Prop :=
| pages_last (tok : option json) (payload data next : json) (rows : list json) :
    _request_json www (page_url rt base_url tok) = Ok payload ->
    PyObj.get_default payload "data" (JArr []) = Ok data ->
    PyObj.iterate data = Ok rows ->
    PyObj.get payload "next_page_token" = Ok next ->
    PyObj.truthy next = false ->
    pages_from rt www base_url tok rows 1
| pages_more (tok : option json) (payload data next : json)
    (rows more : list json) (n : nat) :
    _request_json www (page_url rt base_url tok) = Ok payload ->
    PyObj.get_default payload "data" (JArr []) = Ok data ->
    PyObj.iterate data = Ok rows ->
    PyObj.get payload "next_page_token" = Ok next ->
    PyObj.truthy next = true ->
    pages_from rt www base_url (Some next) more n ->
    pages_from rt www base_url tok (rows ++ more)%list (S n).

(** [row_reached rt www base_url tok before row n]: the generator started
    with the token [tok] yields [row] from the [n]-th page it asks for,
    after the rows [before]; each page before that one carries a token.
    Nothing is said of the pages after it. *)
Inductive row_reached (rt : runtime) (www : web) (base_url : string)
  : option json -> list json -> json -> nat -> Prop :=
| reached_here (tok : option json) (payload data : json)
    (before after : list json) (row : json) :
    _request_json www (page_url rt base_url tok) = Ok payload ->
    PyObj.get_default payload "data" (JArr []) = Ok data ->
    PyObj.iterate data = Ok (before ++ row :: after)%list ->
    row_reached rt www base_url tok before row 1
| reached_later (tok : option json) (payload data next : json)
    (rows before : list json) (row : json) (n : nat) :
    _request_json www (page_url rt base_url tok) = Ok payload ->
    PyObj.get_default payload "data" (JArr []) = Ok data ->
    PyObj.iterate data = Ok rows ->
    PyObj.get payload "next_page_token" = Ok next ->
    PyObj.truthy next = true ->
    row_reached rt www base_url (Some next) before row n ->
    row_reached rt www base_url tok (rows ++ before)%list row (S n).

Module PagingExamples.

(** Every page carries a token, and the one row of each page has the
    timestamp [null]. *)
Definition mvrv_endless_null_timestamp : web :=
  api (mvrv_payload [JObj (("time", JNull) :: metrics)] (JStr "again")).

(** The first page answers with a token, the page of that token with the
    status 500. *)
Definition mvrv_second_page_down : web :=
  fun url =>
    if endswith "&next_page_token=p2" url
    then mkresponse 500 EmptyString None
    else mkresponse 200 EmptyString
           (Some (mvrv_payload [mvrv_entry "2024-01-02T00:00:00Z" metrics] (JStr "p2"))).

End PagingExamples.

Import PagingExamples.


(** The dates that the pattern finds at the head of the lines, in the order
    of the lines. *)
Fixpoint matched_dates (lines : list string) : list string :=
  match lines with
  | [] => []
  | line :: rest =>
      match date_pattern_match line with
      | Some g => g :: matched_dates rest
      | None => matched_dates rest
      end
  end.

(** The lines at the head of which the pattern finds a date. *)
Definition dated_lines (lines : list string) : list string :=
  filter (fun line => match date_pattern_match line with
                      | Some _ => true
                      | None => false
                      end) lines.

(** A text of the form [DD Mon YYYY]: two digits, a space, three letters, a
    space and four digits. *)
Definition date_text (g : string) : bool :=
  match date_group g with
  | Some (_, EmptyString) => true
  | _ => false
  end.

(** The last cell of a line: [parts[-1]]. *)
Definition last_part (line : string) : string :=
  last (pipe_parts line) EmptyString.


(** The date of a flow line is one that [to_datetime] reads. *)
Definition date_parses (rt : runtime) (g : string) : bool :=
  match to_datetime rt "%d %b %Y" g with
  | Some _ => true
  | None => false
  end.


(** What tells the three treasury fetchers apart: the address, the test and
    cut applied to a line, the number of cells kept, the index of the
    holding column, the first cells that mark a line to skip, and the
    message for a text without rows. *)
Record treasury_source : Type := mk_treasury_source {
  ts_fetch : web -> Z -> result (list treasury_row);
  ts_url : string;
  ts_keep : string -> option (list string);
  ts_width : nat;
  ts_column : nat;
  ts_headers : list string;
  ts_empty : string
}.

Definition btc_source : treasury_source :=
  mk_treasury_source fetch_btc_treasury_holdings
    (_proxied_farside_url "bitcoin-treasury-companies") btc_line 9 8
    ["Ticker"; EmptyString] "No BTC treasury rows parsed".

Definition eth_source : treasury_source :=
  mk_treasury_source fetch_eth_treasury_holdings
    "https://r.jina.ai/https://ethereumtreasuries.net/" eth_line 8 3
    ["Company Name"] "No Ethereum treasury data parsed".

Definition sol_source : treasury_source :=
  mk_treasury_source fetch_sol_treasury_holdings
    "https://r.jina.ai/https://www.coingecko.com/en/treasuries/solana" sol_line 7 3
    [] "No Solana treasury table detected".

Definition treasury_sources : list treasury_source :=
  [btc_source; eth_source; sol_source].

(** The lines of the page of a source that its loop keeps. *)
Definition usable_rows (sp : treasury_source) (www : web) : list (list string) :=
  match _get_text www (ts_url sp) with
  | Ok text => collect (ts_keep sp) (splitlines text)
  | Raise _ => []
  end.


(** Every page that the remote side serves carries a token for a next
    page. *)
Definition endless (www : web) : Prop :=
  forall url, exists payload data rows next,
    _request_json www url = Ok payload /\
    PyObj.get_default payload "data" (JArr []) = Ok data /\
    PyObj.iterate data = Ok rows /\
    PyObj.get payload "next_page_token" = Ok next /\
    PyObj.truthy next = true.

(** A page with neither a line that begins with a pipe nor the anchor of
    the sentiment index. *)
Definition without_table (body : string) : Prop :=
  (forall line, In line (splitlines body) -> startswith "|" (strip line) = false) /\
  find anchor body 0 = None.


(** The cells of a table line, each between a space and a space and a
    pipe. *)
Fixpoint row_cells (cells : list string) : string :=
  match cells with
  | [] => EmptyString
  | c :: rest => " " ++ c ++ " |" ++ row_cells rest
  end.

(** A line of a pipe-delimited table with the given cells. *)
Definition table_row (cells : list string) : string :=
  "|" ++ row_cells cells.

(** A cell that a table line can carry: without a pipe, and without white
    space at its ends. *)
Definition plain_cell (c : string) : Prop :=
  mem_char "|" c = false /\ strip c = c.

(** The text between the outer pipes of a table line. *)
Fixpoint row_inner (c : string) (rest : list string) : string :=
  match rest with
  | [] => " " ++ c ++ " "
  | c' :: rest' => " " ++ c ++ " |" ++ row_inner c' rest'
  end.


(** * The display of amounts

    [_format_number] of [app.py], which the dashboard shows the market
    capitalisations with, and the fixed-point format of a float it rests
    on.  The unit words are outside the one-byte range of the strings used
    here and stand as their UTF-8 bytes. *)

Module PyFormat.

(** The integer nearest to the quotient of a numerator that is not negative
    by a positive denominator, the even one of two that are equally near:
    the rounding of the conversion of a float to a decimal text. *)
Definition round_half_even (num den : Z) : Z :=
  let q := (num / den)%Z in
  let r := (num mod den)%Z in
  match (2 * r ?= den)%Z with
  | Lt => q
  | Gt => (q + 1)%Z
  | Eq => if Z.even q then q else (q + 1)%Z
  end.

(** The magnitude [m * 2^e] in units of [10^-places], rounded. *)
Definition scaled (places : nat) (m : positive) (e : Z) : Z :=
  match e with
  | Zneg k => round_half_even (Zpos m * 10 ^ Z.of_nat places) (2 ^ Zpos k)
  | _ => (Zpos m * 2 ^ e * 10 ^ Z.of_nat places)%Z
  end.

(** The thousands separator of the format option [,]. *)
Fixpoint group (digits : string) : string :=
  match digits with
  | EmptyString => EmptyString
  | String c rest =>
      String c (if negb (is_empty rest) && (String.length rest mod 3 =? 0)%nat
                then String "," (group rest) else group rest)
  end.

Definition digits_text (grouping : bool) (places : nat) (n : Z) : string :=
  let unit := (10 ^ Z.of_nat places)%Z in
  let whole := zstr (n / unit) in
  (if grouping then group whole else whole) ++
  match places with
  | O => EmptyString
  | S _ => "." ++ pad0 places (zstr (n mod unit))
  end.

Definition sign_text (s : bool) : string := if s then "-" else EmptyString.

(** [format(x, ".<places>f")], and [format(x, ",.<places>f")] with
    [grouping]. *)
Definition format_fixed (grouping : bool) (places : nat) (x : float) : string :=
  match x with
  | S754_nan => "nan"
  | S754_infinity s => sign_text s ++ "inf"
  | S754_zero s => sign_text s ++ digits_text grouping places 0
  | S754_finite s m e => sign_text s ++ digits_text grouping places (scaled places m e)
  end.

End PyFormat.

Import PyFormat.

(** The three unit words of the display, each after a space. *)
Definition unit_trillion : string := " 万亿".
Definition unit_billion : string := " 十亿".
Definition unit_million : string := " 百万".

Definition _format_number (value : float) : string :=
  if isnan value then "-"
  else if SFleb (lit 1e12) (SFabs value)
  then format_fixed false 2 (fdiv value (lit 1e12)) ++ unit_trillion
  else if SFleb (lit 1e9) (SFabs value)
  then format_fixed false 2 (fdiv value (lit 1e9)) ++ unit_billion
  else if SFleb (lit 1e6) (SFabs value)
  then format_fixed false 2 (fdiv value (lit 1e6)) ++ unit_million
  else format_fixed true 0 value.

(** The sign bit of a float. *)
Definition sign_bit (x : float) : bool :=
  match x with
  | S754_nan => false
  | S754_infinity s | S754_zero s | S754_finite s _ _ => s
  end.

(** ** Facts on sorting *)

Section SortFacts.
Context {A : Type}.
Variable le : A -> A -> bool.

Lemma chain_cons2 (x y : A) (r : list A) :
  Frame.chain le (x :: y :: r) = le x y && Frame.chain le (y :: r).
Proof. reflexivity. Qed.

Lemma chain_tail (x : A) (l : list A) :
  Frame.chain le (x :: l) = true -> Frame.chain le l = true.
Proof.
  destruct l as [|y r]; [reflexivity|].
  rewrite chain_cons2. intros H. apply andb_true_iff in H. apply H.
Qed.

Lemma insert_perm (x : A) (l : list A) :
  Permutation (Frame.insert le x l) (x :: l).
Proof.
  induction l as [|y r IH]; simpl.
  - apply Permutation_refl.
  - destruct (le x y).
    + apply Permutation_refl.
    + apply perm_trans with (y :: x :: r).
      * apply perm_skip, IH.
      * apply perm_swap.
Qed.

Lemma sort_perm (l : list A) : Permutation (Frame.sort le l) l.
Proof.
  induction l as [|x r IH]; simpl.
  - apply perm_nil.
  - apply perm_trans with (x :: Frame.sort le r).
    + apply insert_perm.
    + apply perm_skip, IH.
Qed.

Variable P : A -> Prop.
Hypothesis le_total : forall x y, P x -> P y -> le x y = true \/ le y x = true.

Lemma chain_insert (x : A) (l : list A) :
  P x -> Forall P l -> Frame.chain le l = true ->
  Frame.chain le (Frame.insert le x l) = true.
Proof.
  intros Px. induction l as [|y r IH]; intros HP Hc.
  - reflexivity.
  - inversion HP as [|? ? Py Pr]; subst.
    cbn [Frame.insert]. destruct (le x y) eqn:Exy.
    + rewrite chain_cons2, Exy, Hc. reflexivity.
    + assert (Hyx : le y x = true).
      { destruct (le_total x y Px Py) as [H|H]; [congruence|exact H]. }
      specialize (IH Pr (chain_tail _ _ Hc)).
      destruct r as [|z r'].
      * cbn. rewrite Hyx. reflexivity.
      * rewrite chain_cons2 in Hc. apply andb_true_iff in Hc.
        destruct Hc as [Hyz Hc].
        cbn [Frame.insert] in *. destruct (le x z).
        -- rewrite chain_cons2, Hyx, IH. reflexivity.
        -- rewrite chain_cons2, Hyz, IH. reflexivity.
Qed.

Lemma sort_chain (l : list A) :
  Forall P l -> Frame.chain le (Frame.sort le l) = true.
Proof.
  induction l as [|x r IH]; intros HP.
  - reflexivity.
  - inversion HP as [|? ? Px Pr]; subst. simpl.
    apply chain_insert; [exact Px| |apply IH, Pr].
    apply Forall_forall. intros y Hy.
    apply (Permutation_in _ (sort_perm r)) in Hy.
    revert y Hy. apply Forall_forall, Pr.
Qed.
End SortFacts.

Section ChainFacts.
Context {A : Type}.

Lemma chain_firstn (R : A -> A -> bool) (n : nat) (l : list A) :
  Frame.chain R l = true -> Frame.chain R (firstn n l) = true.
Proof.
  revert n. induction l as [|x r IH]; intros n Hc.
  - destruct n; reflexivity.
  - destruct n as [|n]; [reflexivity|].
    specialize (IH n (chain_tail _ _ _ Hc)).
    destruct r as [|y r']; [destruct n; reflexivity|].
    destruct n as [|n]; [reflexivity|].
    rewrite chain_cons2 in Hc. apply andb_true_iff in Hc.
    change (Frame.chain R (x :: y :: firstn n r') = true).
    rewrite chain_cons2. apply andb_true_iff. split; [apply Hc|exact IH].
Qed.

Lemma chain_weaken (R1 R2 : A -> A -> bool) (P : A -> Prop) (l : list A) :
  (forall a b, P a -> P b -> R1 a b = true -> R2 a b = true) ->
  Forall P l -> Frame.chain R1 l = true -> Frame.chain R2 l = true.
Proof.
  intros HR. induction l as [|x r IH]; intros HP Hc; [reflexivity|].
  inversion HP as [|? ? Px Pr]; subst.
  destruct r as [|y r']; [reflexivity|].
  inversion Pr as [|? ? Py Pr']; subst.
  rewrite chain_cons2 in *. apply andb_true_iff in Hc. destruct Hc as [H1 H2].
  apply andb_true_iff. split; [apply HR; assumption|apply IH; assumption].
Qed.

Lemma chain_app (R : A -> A -> bool) (l1 l2 : list A) :
  Frame.chain R l1 = true -> Frame.chain R l2 = true ->
  (forall a b, In a l1 -> In b l2 -> R a b = true) ->
  Frame.chain R (l1 ++ l2)%list = true.
Proof.
  induction l1 as [|x r IH]; intros H1 H2 Hx; [exact H2|].
  assert (Hr : Frame.chain R (r ++ l2)%list = true).
  { apply IH; [apply (chain_tail _ _ _ H1)|exact H2|].
    intros a b Ha Hb. apply Hx; [right; exact Ha|exact Hb]. }
  destruct r as [|y r'].
  - destruct l2 as [|b l2']; [reflexivity|].
    change (Frame.chain R (x :: b :: l2') = true).
    rewrite chain_cons2. apply andb_true_iff. split; [|exact H2].
    apply Hx; left; reflexivity.
  - change (Frame.chain R (x :: y :: (r' ++ l2)%list) = true).
    rewrite chain_cons2 in *. apply andb_true_iff in H1.
    apply andb_true_iff. split; [apply H1|exact Hr].
Qed.

Lemma chain_map {B : Type} (R : B -> B -> bool) (f : A -> B) (l : list A) :
  Frame.chain R (map f l) = Frame.chain (fun a b => R (f a) (f b)) l.
Proof.
  induction l as [|x r IH]; [reflexivity|].
  destruct r as [|y r']; [reflexivity|].
  change (Frame.chain R (f x :: f y :: map f r') =
          Frame.chain (fun a b => R (f a) (f b)) (x :: y :: r')).
  rewrite !chain_cons2. f_equal. exact IH.
Qed.
End ChainFacts.

(** ** Facts on the order of dates *)

Lemma date_compare_antisym (a b : date) :
  date_compare b a = CompOpp (date_compare a b).
Proof.
  unfold date_compare.
  rewrite (Z.compare_antisym (year a) (year b)).
  rewrite (Z.compare_antisym (month a) (month b)).
  rewrite (Z.compare_antisym (day a) (day b)).
  destruct (year a ?= year b)%Z; simpl; try reflexivity.
  destruct (month a ?= month b)%Z; simpl; reflexivity.
Qed.

Lemma date_leb_total (a b : date) : date_leb a b = true \/ date_leb b a = true.
Proof.
  unfold date_leb. rewrite (date_compare_antisym a b).
  destruct (date_compare a b); simpl; auto.
Qed.

Lemma date_compare_eq (a b : date) : date_compare a b = Eq -> a = b.
Proof.
  destruct a as [ya ma da], b as [yb mb db]. unfold date_compare; simpl.
  destruct (ya ?= yb)%Z eqn:Ey; try discriminate.
  destruct (ma ?= mb)%Z eqn:Em; try discriminate.
  intros Ed. apply Z.compare_eq in Ey, Em, Ed. congruence.
Qed.

Lemma date_leb_neq_ltb (a b : date) :
  date_leb a b = true -> a <> b -> date_ltb a b = true.
Proof.
  unfold date_leb, date_ltb. intros Hle Hne.
  destruct (date_compare a b) eqn:E; try reflexivity; try discriminate.
  elim Hne. apply date_compare_eq, E.
Qed.

Lemma ascending_nodup_strict (dates : list date) :
  ascending dates = true -> NoDup dates -> strictly_ascending dates = true.
Proof.
  unfold ascending, strictly_ascending.
  induction dates as [|x r IH]; intros Hc Hn; [reflexivity|].
  inversion Hn as [|? ? Hx Hr]; subst.
  destruct r as [|y r']; [reflexivity|].
  rewrite chain_cons2 in *. apply andb_true_iff in Hc. destruct Hc as [H1 H2].
  apply andb_true_iff. split.
  - apply date_leb_neq_ltb; [exact H1|]. intros ->. apply Hx. left. reflexivity.
  - apply IH; assumption.
Qed.

Lemma date_ltb_spec (a b : date) :
  date_ltb a b = true <->
  (year a < year b \/
   (year a = year b /\
    (month a < month b \/ (month a = month b /\ day a < day b))))%Z.
Proof.
  unfold date_ltb, date_compare.
  destruct (Z.compare_spec (year a) (year b));
    destruct (Z.compare_spec (month a) (month b));
    destruct (Z.compare_spec (day a) (day b));
    split; intros Hlt; try reflexivity; try discriminate Hlt; lia.
Qed.

Lemma date_ltb_trans (a b c : date) :
  date_ltb a b = true -> date_ltb b c = true -> date_ltb a c = true.
Proof. rewrite !date_ltb_spec. lia. Qed.

Lemma date_ltb_irrefl (a : date) : date_ltb a a = false.
Proof.
  destruct (date_ltb a a) eqn:E; [|reflexivity].
  apply date_ltb_spec in E. lia.
Qed.

Lemma strictly_ascending_above (x : date) (r : list date) :
  strictly_ascending (x :: r) = true -> forall y, In y r -> date_ltb x y = true.
Proof.
  unfold strictly_ascending. revert x.
  induction r as [|z r IH]; intros x Hc y Hy; [contradiction|].
  rewrite chain_cons2 in Hc. apply andb_true_iff in Hc. destruct Hc as [Hxz Hc].
  destruct Hy as [<-|Hy]; [exact Hxz|].
  apply (date_ltb_trans x z y Hxz). apply IH; assumption.
Qed.

Lemma strictly_ascending_nodup (dates : list date) :
  strictly_ascending dates = true -> NoDup dates.
Proof.
  induction dates as [|x r IH]; intros Hc; [constructor|].
  constructor.
  - intros Hin. pose proof (strictly_ascending_above x r Hc x Hin) as H.
    rewrite date_ltb_irrefl in H. discriminate H.
  - apply IH. exact (chain_tail _ _ _ Hc).
Qed.

Lemma sort_values_perm {A K : Type} (le : K -> K -> bool) (key : A -> K)
  (df : list A) : Permutation (Frame.sort_values le key df) df.
Proof. apply sort_perm. Qed.

Lemma sort_values_ascending {A : Type} (key : A -> date) (df : list A) :
  ascending (map key (Frame.sort_values date_leb key df)) = true.
Proof.
  unfold ascending, Frame.sort_values. rewrite chain_map.
  apply sort_chain with (P := fun _ => True).
  - intros x y _ _. apply date_leb_total.
  - apply Forall_forall. intros; exact I.
Qed.

(** ** Facts on the order of floats *)

Lemma SFcompare_antisym (x y : float) :
  SFcompare y x = option_map CompOpp (SFcompare x y).
Proof.
  destruct x as [sx|sx| |sx mx ex], y as [sy|sy| |sy my ey]; simpl;
    try reflexivity;
    try (destruct sx; reflexivity); try (destruct sy; reflexivity);
    try (destruct sx, sy; reflexivity).
  f_equal. rewrite (Z.compare_antisym ex ey).
  change (Pos.compare_cont Eq my mx) with (Pos.compare my mx).
  change (Pos.compare_cont Eq mx my) with (Pos.compare mx my).
  rewrite (Pos.compare_antisym mx my).
  destruct sx, sy; try reflexivity;
    destruct (ex ?= ey)%Z; simpl; try reflexivity;
    destruct (mx ?= my)%positive; reflexivity.
Qed.

Lemma SFcompare_numbers (x y : float) :
  isnan x = false -> isnan y = false -> exists c, SFcompare x y = Some c.
Proof.
  destruct x as [sx|sx| |sx mx ex], y as [sy|sy| |sy my ey];
    simpl; intros Hx Hy; try discriminate; eexists; reflexivity.
Qed.

Lemma SFleb_total (x y : float) :
  isnan x = false -> isnan y = false -> SFleb x y = true \/ SFleb y x = true.
Proof.
  intros Hx Hy. unfold SFleb. rewrite (SFcompare_antisym x y).
  destruct (SFcompare_numbers x y Hx Hy) as [c Hc]. rewrite Hc.
  destruct c; simpl; auto.
Qed.

Lemma sort_values_desc_order {A : Type} (key : A -> float) (df : list A) :
  descending_nan_last (map key (Frame.sort_values_desc key df)) = true.
Proof.
  unfold descending_nan_last, Frame.sort_values_desc. rewrite chain_map.
  set (numeric := filter (fun a => negb (isnan (key a))) df).
  set (missing := filter (fun a => isnan (key a)) df).
  assert (Hnum : Forall (fun a => isnan (key a) = false) numeric).
  { apply Forall_forall. intros a Ha. apply filter_In in Ha.
    destruct Ha as [_ Ha]. apply negb_true_iff, Ha. }
  assert (Hmiss : forall b, In b missing -> isnan (key b) = true).
  { intros b Hb. apply filter_In in Hb. apply Hb. }
  apply chain_app.
  - apply chain_weaken
      with (R1 := fun a b => SFleb (key b) (key a))
           (P := fun a => isnan (key a) = false).
    + intros a b Ha Hb H. unfold before_desc. rewrite Ha, Hb. exact H.
    + apply Forall_forall. intros a Ha.
      apply (Permutation_in _ (sort_perm _ numeric)) in Ha.
      revert a Ha. apply Forall_forall, Hnum.
    + apply sort_chain with (P := fun a => isnan (key a) = false); [|exact Hnum].
      intros x y Hx Hy. destruct (SFleb_total (key x) (key y) Hx Hy); auto.
  - apply chain_weaken with (R1 := fun _ _ => true) (P := fun b => isnan (key b) = true).
    + intros a b _ Hb _. unfold before_desc. rewrite Hb. reflexivity.
    + apply Forall_forall, Hmiss.
    + clear. induction missing as [|x r IH]; [reflexivity|].
      destruct r; [reflexivity|]. rewrite chain_cons2. exact IH.
  - intros a b _ Hb. unfold before_desc. rewrite (Hmiss b Hb). reflexivity.
Qed.

(** ** Facts on stripping *)

Section StripFacts.
Variable p : ascii -> bool.

Lemma rstrip_by_cons_keep (c : ascii) (r : string) :
  p c = false -> rstrip_by p (String c r) = String c (rstrip_by p r).
Proof. intros H. simpl. rewrite H, andb_false_r. reflexivity. Qed.

Lemma rstrip_by_snoc_strip (c : ascii) (x : string) :
  p c = true -> rstrip_by p (x ++ String c EmptyString) = rstrip_by p x.
Proof.
  intros H. induction x as [|a r IH]; simpl.
  - rewrite H. reflexivity.
  - rewrite IH. reflexivity.
Qed.

Lemma rstrip_by_snoc_keep (c : ascii) (x : string) :
  p c = false -> rstrip_by p (x ++ String c EmptyString) = x ++ String c EmptyString.
Proof.
  intros H. induction x as [|a r IH]; simpl.
  - rewrite H. reflexivity.
  - rewrite IH. destruct r; reflexivity.
Qed.

Lemma lstrip_by_snoc_keep (c : ascii) (x : string) :
  p c = false -> lstrip_by p (x ++ String c EmptyString) = lstrip_by p x ++ String c EmptyString.
Proof.
  intros H. induction x as [|a r IH]; simpl.
  - rewrite H. reflexivity.
  - destruct (p a); [exact IH|reflexivity].
Qed.

Lemma strip_by_snoc_strip (c : ascii) (x : string) :
  p c = true -> strip_by p (x ++ String c EmptyString) = strip_by p x.
Proof.
  intros H. unfold strip_by. induction x as [|a r IH]; simpl.
  - rewrite H. reflexivity.
  - destruct (p a); [exact IH|].
    change (String a (r ++ String c EmptyString))
      with (String a r ++ String c EmptyString).
    apply rstrip_by_snoc_strip, H.
Qed.

Lemma strip_by_cons_strip (c : ascii) (x : string) :
  p c = true -> strip_by p (String c x) = strip_by p x.
Proof. intros H. unfold strip_by. simpl. rewrite H. reflexivity. Qed.
End StripFacts.

Lemma endswith_snoc (c : ascii) (x : string) :
  endswith (String c EmptyString) (x ++ String c EmptyString) = true.
Proof.
  induction x as [|a r IH]; simpl.
  - rewrite Ascii.eqb_refl. reflexivity.
  - rewrite IH. apply orb_true_r.
Qed.

Lemma endswith_cons (c d : ascii) (r : string) :
  is_empty r = false ->
  endswith (String d EmptyString) (String c r) = endswith (String d EmptyString) r.
Proof.
  intros H. destruct r as [|b r']; [discriminate|].
  cbn [endswith]. cbn [String.eqb].
  replace (if Ascii.eqb c d then false else false) with false
    by (destruct (Ascii.eqb c d); reflexivity).
  reflexivity.
Qed.

Lemma startswith_snoc (c d : ascii) (x : string) :
  is_empty x = false ->
  startswith (String d EmptyString) (x ++ String c EmptyString) =
  startswith (String d EmptyString) x.
Proof.
  destruct x as [|a r]; [discriminate|]. intros _.
  unfold startswith. simpl. destruct (ascii_dec d a); [|reflexivity].
  destruct r; reflexivity.
Qed.

Lemma startswith_nil (x : string) : startswith EmptyString x = true.
Proof. destruct x; reflexivity. Qed.

Lemma snoc_not_dash (x : string) :
  String.eqb (x ++ ")") "-" = false.
Proof.
  destruct x as [|a [|b r]]; simpl; try reflexivity.
  - apply andb_false_r.
  - apply andb_false_r.
Qed.

Lemma is_empty_snoc (c : ascii) (x : string) :
  is_empty (x ++ String c EmptyString) = false.
Proof. destruct x; reflexivity. Qed.

(** ** The number normalizer *)

Lemma clean_open (s : string) : clean (String "(" s) = clean s.
Proof.
  unfold clean, strip_chars. rewrite strip_by_cons_strip; reflexivity.
Qed.

Lemma clean_close (s : string) : clean (s ++ ")") = clean s.
Proof.
  unfold clean, strip_chars. rewrite strip_by_snoc_strip; reflexivity.
Qed.

(** X1: the normalizer raises nothing but [IndexError], and raises it exactly on
    a text that is neither blank nor a lone dash and that cleaning empties. *)
Lemma to_number_raises_iff (value : string) (e : exn) :
  _to_number value = Raise e <->
  e = IndexError /\
  is_empty (strip value) = false /\ String.eqb (strip value) "-" = false /\
  clean (strip value) = EmptyString.
Proof.
  unfold _to_number.
  destruct (is_empty (strip value)) eqn:E1; simpl.
  { split; [discriminate|]. intros (_ & H & _). discriminate. }
  destruct (String.eqb (strip value) "-") eqn:E2; simpl.
  { split; [discriminate|]. intros (_ & _ & H & _). discriminate. }
  destruct (clean (strip value)) as [|c r] eqn:E3.
  - simpl. split.
    + intros H. inversion H. auto.
    + intros (-> & _). reflexivity.
  - assert (Hl : exists d, last_char (String c r) = Some d).
    { clear. revert c. induction r as [|b r IH]; intros c.
      - exists c. reflexivity.
      - destruct (IH b) as [d Hd]. exists d. exact Hd. }
    destruct Hl as [d Hd]. rewrite Hd.
    split.
    + destruct (multipliers (lower_char d));
        destruct (parse_float _); discriminate.
    + intros (_ & _ & _ & H). discriminate.
Qed.

Lemma strip_trimmed (s : string) :
  lstrip_by isspace s = s -> rstrip_by isspace s = s -> strip s = s.
Proof. intros Hl Hr. unfold strip, strip_by. rewrite Hl. exact Hr. Qed.

Lemma strip_open (s : string) :
  rstrip_by isspace s = s -> strip (String "(" s) = String "(" s.
Proof.
  intros Hr. unfold strip, strip_by.
  change (lstrip_by isspace (String "(" s)) with (String "(" s).
  rewrite rstrip_by_cons_keep by reflexivity. rewrite Hr. reflexivity.
Qed.

Lemma strip_close (s : string) :
  lstrip_by isspace s = s -> strip (s ++ ")") = s ++ ")".
Proof.
  intros Hl. unfold strip, strip_by.
  rewrite lstrip_by_snoc_keep by reflexivity. rewrite Hl.
  apply rstrip_by_snoc_keep. reflexivity.
Qed.

(** C1: the number normalizer raises [IndexError] on "$", "()" and "+",
    texts that cleaning reduces to the empty string, where the missing-value
    sentinel is asked for. *)
Theorem to_number_raises_on_emptied_text :
  _to_number "$" = Raise IndexError /\
  _to_number "()" = Raise IndexError /\
  _to_number "+" = Raise IndexError.
Proof. repeat split; vm_compute; reflexivity. Qed.

(** The float that [float()] reads from "inf" or from a literal beyond the
    binary64 range is returned as it is: an infinity. *)
Lemma to_number_returns_infinity :
  _to_number "inf" = Ok (S754_infinity false) /\
  _to_number "(1e999)" = Ok (S754_infinity true).
Proof. split; vm_compute; reflexivity. Qed.

(** C7: the number normalizer maps "(1,234.5)" to -1234.5, "1.2b" to 1.2e9,
    "-" to the missing-value sentinel NaN, "45.3%" to 45.3 and "1,000 BTC"
    to 1000.0. *)
Theorem to_number_examples :
  _to_number "(1,234.5)" = Ok (lit (-1234.5)) /\
  _to_number "1.2b" = Ok (lit 1.2e9) /\
  _to_number "-" = Ok nan /\
  _to_number "45.3%" = Ok (lit 45.3) /\
  _to_number "1,000 BTC" = Ok (lit 1000.0).
Proof. repeat split; vm_compute; reflexivity. Qed.

(** C10: the negative-value marker needs both parentheses. For a text [s]
    without white space at its ends and not empty: an opening parenthesis
    put before [s], when [s] does not end with a closing one, is stripped
    and the result is that of [s]; a closing parenthesis put after [s],
    when [s] does not start with an opening one, likewise; with both, the
    result of [s] is negated. In particular "(5" and "5)" give 5.0, and
    "(5)" gives -5.0. *)
Theorem unmatched_parenthesis_is_stripped (s : string) :
  lstrip_by isspace s = s -> rstrip_by isspace s = s -> is_empty s = false ->
  (endswith ")" s = false -> _to_number (String "(" s) = _to_number s) /\
  (startswith "(" s = false -> _to_number (s ++ ")") = _to_number s) /\
  (startswith "(" s = false -> endswith ")" s = false ->
   _to_number (String "(" (s ++ ")")) =
   x <- _to_number s ;; Ok (fneg x)) /\
  _to_number "(5" = Ok (lit 5.0) /\
  _to_number "5)" = Ok (lit 5.0) /\
  _to_number "(5)" = Ok (lit (-5.0)).
Proof.
  intros Hl Hr Hne.
  assert (Hs : strip s = s) by (apply strip_trimmed; assumption).
  assert (Hdash : String.eqb s "-" = true -> s = "-") by apply String.eqb_eq.
  split; [|split; [|split]].
  - intros Hend. unfold _to_number.
    rewrite (strip_open s Hr), Hs, Hne, clean_open.
    unfold negative_marker at 1. rewrite (endswith_cons _ _ _ Hne), Hend.
    unfold negative_marker. rewrite Hend, !andb_false_r.
    destruct (String.eqb s "-") eqn:E.
    + rewrite (Hdash eq_refl). reflexivity.
    + reflexivity.
  - intros Hstart. unfold _to_number.
    rewrite (strip_close s Hl), Hs, Hne, clean_close, is_empty_snoc, snoc_not_dash.
    unfold negative_marker.
    rewrite (startswith_snoc _ _ _ Hne), Hstart.
    destruct (String.eqb s "-") eqn:E.
    + rewrite (Hdash eq_refl). reflexivity.
    + reflexivity.
  - intros Hstart Hend. unfold _to_number.
    assert (Hr' : rstrip_by isspace (s ++ ")") = s ++ ")")
      by (apply rstrip_by_snoc_keep; reflexivity).
    rewrite (strip_open _ Hr'), Hs, Hne, clean_open, clean_close.
    unfold negative_marker.
    rewrite (endswith_cons _ _ _ (is_empty_snoc _ _)), endswith_snoc, Hstart.
    destruct (String.eqb s "-") eqn:E.
    + rewrite (Hdash eq_refl). reflexivity.
    + simpl. rewrite startswith_nil. simpl.
      destruct (last_char (clean s)); [|reflexivity].
      destruct (multipliers _); destruct (parse_float _); reflexivity.
  - repeat split; vm_compute; reflexivity.
Qed.

Lemma unmatched_parenthesis_at_5 :
  lstrip_by isspace "5" = "5" /\ rstrip_by isspace "5" = "5" /\
  is_empty "5" = false /\
  _to_number (String "(" "5") = _to_number "5" /\
  _to_number ("5" ++ ")") = _to_number "5".
Proof.
  split; [reflexivity|]. split; [reflexivity|]. split; [reflexivity|].
  destruct (unmatched_parenthesis_is_stripped "5") as (H1 & H2 & _);
    try reflexivity.
  split; [apply H1|apply H2]; reflexivity.
Defined.

(** ** The timestamps of the valuation ratio *)

Section Timestamps.
Variable rt : runtime.

Lemma mvrv_record_timestamp (row : json) (r : mvrv_row) :
  mvrv_record rt row = Ok r ->
  exists t, PyObj.getitem row "time" = Ok (JStr t) /\
            fromisoformat rt (replace "Z" "+00:00" t) = Some (mvrv_date r).
Proof.
  unfold mvrv_record, mvrv_timestamp. intros H.
  destruct (PyObj.getitem row "time") as [tm|e] eqn:Et.
  - cbn [bind] in H. destruct tm as [| | | |t| |]; cbn in H; try discriminate H.
    exists t. split; [reflexivity|].
    destruct (fromisoformat rt (replace "Z" "+00:00" t)) as [d|];
      cbn in H; [|discriminate H].
    bind_cases H. injection H as <-. reflexivity.
  - cbn in H. destruct (handled_timestamp e); discriminate H.
Qed.

Lemma timestamp_defect_raises (row : json) (k : timestamp_defect) :
  timestamp_defect_of rt row = Some k ->
  mvrv_timestamp rt row = Raise (defect_exn k) /\
  mvrv_record rt row = Raise (defect_exn k).
Proof.
  unfold mvrv_record, mvrv_timestamp, timestamp_defect_of.
  destruct row as [| | | | | |fields]; try (intros H; injection H as <-; split; reflexivity).
  cbn [PyObj.getitem]. destruct (PyObj.lookup "time" fields) as [v|].
  - destruct v as [| | | |t| |];
      try (intros H; injection H as <-; split; reflexivity).
    cbn. destruct (fromisoformat rt (replace "Z" "+00:00" t)); [discriminate|].
    intros H. injection H as <-. split; reflexivity.
  - intros H. injection H as <-. split; reflexivity.
Qed.

Lemma timestamp_fine (row : json) :
  timestamp_defect_of rt row = None <-> exists d, mvrv_timestamp rt row = Ok d.
Proof.
  split.
  - unfold mvrv_timestamp, timestamp_defect_of.
    destruct row as [| | | | | |fields]; try discriminate.
    cbn [PyObj.getitem]. destruct (PyObj.lookup "time" fields) as [v|]; [|discriminate].
    destruct v as [| | | |t| |]; try discriminate.
    cbn. destruct (fromisoformat rt (replace "Z" "+00:00" t)) as [d|]; [|discriminate].
    intros _. exists d. reflexivity.
  - intros [d Hd]. destruct (timestamp_defect_of rt row) as [k|] eqn:Ek; [|reflexivity].
    rewrite (proj1 (timestamp_defect_raises row k Ek)) in Hd. discriminate Hd.
Qed.

Lemma mvrv_rows_ok (yielded : list json) (how : stop) (rows : list mvrv_row) :
  mvrv_rows rt yielded how = Ok rows ->
  Forall2 (fun row r => mvrv_record rt row = Ok r) yielded rows.
Proof.
  revert rows. induction yielded as [|row rest IH]; intros rows H.
  - cbn in H. destruct how; [discriminate H|]. injection H as <-. constructor.
  - cbn [mvrv_rows] in H.
    destruct (mvrv_record rt row) as [r|e] eqn:Er; [|discriminate H].
    cbn [bind] in H.
    destruct (mvrv_rows rt rest how) as [rs|e]; [|discriminate H].
    cbn [bind] in H. injection H as <-. constructor; [exact Er|apply IH; reflexivity].
Qed.

Lemma mvrv_rows_first_failure (before after : list json) (row : json)
  (how : stop) (e : exn) :
  Forall (fun r => returns (mvrv_record rt r) = true) before ->
  mvrv_record rt row = Raise e ->
  mvrv_rows rt (before ++ row :: after)%list how = Raise e.
Proof.
  intros Hb Hr. induction Hb as [|r0 rest H0 _ IH]; cbn [app mvrv_rows].
  - rewrite Hr. reflexivity.
  - destruct (mvrv_record rt r0); [|discriminate H0].
    cbn [bind]. rewrite IH. reflexivity.
Qed.

Lemma mvrv_rows_some_failure (yielded : list json) (row : json) (how : stop)
  (e : exn) :
  In row yielded -> mvrv_record rt row = Raise e ->
  exists e', mvrv_rows rt yielded how = Raise e'.
Proof.
  intros Hin Hr. induction yielded as [|r0 rest IH]; [contradiction|].
  cbn [mvrv_rows]. destruct (mvrv_record rt r0) as [r|e0] eqn:E0.
  - destruct Hin as [->|Hin]; [congruence|].
    destruct (IH Hin) as [e' He']. exists e'. cbn [bind]. rewrite He'. reflexivity.
  - exists e0. reflexivity.
Qed.
End Timestamps.

(** ** The loop over the pages *)

Section Laziness.
Variable rt : runtime.
Variable www : web.

Lemma mvrv_rows_app (a b : list json) (how : stop) :
  mvrv_rows rt (a ++ b)%list how =
  (read <- mvrv_rows rt a None ;; more <- mvrv_rows rt b how ;; Ok (read ++ more)%list).
Proof.
  induction a as [|row rest IH]; cbn [app mvrv_rows bind].
  - destruct (mvrv_rows rt b how); reflexivity.
  - destruct (mvrv_record rt row) as [r|e]; [|reflexivity]. cbn [bind].
    rewrite IH. destruct (mvrv_rows rt rest None) as [read|e]; [|reflexivity].
    cbn [bind]. destruct (mvrv_rows rt b how); reflexivity.
Qed.

Lemma mvrv_rows_then (rows : list json) (e : exn) :
  mvrv_rows rt rows (Some e) =
  match mvrv_rows rt rows None with
  | Ok _ => Raise e
  | Raise e' => Raise e'
  end.
Proof.
  induction rows as [|row rest IH]; [reflexivity|]. cbn [mvrv_rows].
  destruct (mvrv_record rt row) as [r|e0]; [|reflexivity]. cbn [bind].
  rewrite IH. destruct (mvrv_rows rt rest None); reflexivity.
Qed.

(** When the run of the generator ends within the bound, the loop that
    resumes it row by row ends as the loop over the whole run. *)
Lemma mvrv_loop_run (base_url : string) (fuel : nat) (tok : option json)
  (yielded : list json) (how : stop) :
  _paginate_coinmetrics rt www fuel base_url tok = Some (yielded, how) ->
  mvrv_loop rt www fuel base_url tok = Some (mvrv_rows rt yielded how).
Proof.
  revert tok yielded how. induction fuel as [|fuel IH]; intros tok yielded how H;
    [discriminate H|].
  cbn [_paginate_coinmetrics mvrv_loop] in *.
  destruct (payload <- _request_json www _ ;;
            data <- PyObj.get_default payload "data" (JArr []) ;;
            rows <- PyObj.iterate data ;; Ok (payload, rows)) as [[payload rows]|e].
  - destruct (PyObj.get payload "next_page_token") as [next|e].
    + destruct (negb (PyObj.truthy next)).
      * injection H as <- <-. destruct (mvrv_rows rt rows None); reflexivity.
      * destruct (_paginate_coinmetrics rt www fuel base_url (Some next))
          as [[more how']|] eqn:Hp; [|discriminate H].
        injection H as <- <-. rewrite (IH _ _ _ Hp), mvrv_rows_app.
        destruct (mvrv_rows rt rows None); reflexivity.
    + injection H as <- <-. rewrite mvrv_rows_then.
      destruct (mvrv_rows rt rows None); reflexivity.
  - injection H as <- <-. reflexivity.
Qed.

(** A loop that ends without an exception has run the generator to its
    end. *)
Lemma mvrv_loop_ok (base_url : string) (fuel : nat) (tok : option json)
  (rows : list mvrv_row) :
  mvrv_loop rt www fuel base_url tok = Some (Ok rows) ->
  exists yielded,
    _paginate_coinmetrics rt www fuel base_url tok = Some (yielded, None) /\
    mvrv_rows rt yielded None = Ok rows.
Proof.
  revert tok rows. induction fuel as [|fuel IH]; intros tok rows H; [discriminate H|].
  cbn [_paginate_coinmetrics mvrv_loop] in *.
  destruct (payload <- _request_json www _ ;;
            data <- PyObj.get_default payload "data" (JArr []) ;;
            rows <- PyObj.iterate data ;; Ok (payload, rows)) as [[payload page]|e];
    [|discriminate H].
  destruct (mvrv_rows rt page None) as [read|e] eqn:Hr; [|discriminate H].
  destruct (PyObj.get payload "next_page_token") as [next|e]; [|discriminate H].
  destruct (negb (PyObj.truthy next)).
  - injection H as <-. exists page. split; [reflexivity|exact Hr].
  - destruct (mvrv_loop rt www fuel base_url (Some next)) as [[more|e]|] eqn:Hl;
      try discriminate H.
    cbn [bind] in H. injection H as <-.
    destruct (IH _ _ Hl) as (later & Hp & Hm). rewrite Hp.
    exists (page ++ later)%list. split; [reflexivity|].
    rewrite mvrv_rows_app, Hr. cbn [bind]. rewrite Hm. reflexivity.
Qed.

Lemma mvrv_rows_accepted (rows : list json) :
  Forall (fun r => returns (mvrv_record rt r) = true) rows ->
  exists read, mvrv_rows rt rows None = Ok read.
Proof.
  induction 1 as [|row rest H0 _ [read IH]]; [exists []; reflexivity|].
  cbn [mvrv_rows]. destruct (mvrv_record rt row) as [r|e]; [|discriminate H0].
  cbn [bind]. rewrite IH. exists (r :: read). reflexivity.
Qed.

(** The first row that raises ends the loop, whatever the pages after it. *)
Lemma mvrv_loop_first_failure (base_url : string) (tok : option json)
  (before : list json) (row : json) (pages fuel : nat) (e : exn) :
  row_reached rt www base_url tok before row pages -> (pages <= fuel)%nat ->
  Forall (fun r => returns (mvrv_record rt r) = true) before ->
  mvrv_record rt row = Raise e ->
  mvrv_loop rt www fuel base_url tok = Some (Raise e).
Proof.
  intros H. revert fuel.
  induction H as [tok payload data before after row Hreq Hdata Hit
                 |tok payload data next rows before row n Hreq Hdata Hit Hnext Htrue _ IH];
    intros fuel Hf Hb Hr; (destruct fuel as [|fuel]; [lia|]);
    cbn [mvrv_loop]; unfold page_url in Hreq;
    rewrite Hreq; cbn [bind]; rewrite Hdata; cbn [bind]; rewrite Hit; cbn [bind].
  - rewrite (mvrv_rows_first_failure rt before after row None e Hb Hr). reflexivity.
  - apply Forall_app in Hb. destruct Hb as [Hrows Hbefore].
    destruct (mvrv_rows_accepted rows Hrows) as [read Hread]. rewrite Hread.
    rewrite Hnext, Htrue. cbn [negb].
    rewrite (IH fuel) by (try lia; assumption). reflexivity.
Qed.

Lemma fetch_mvrv_run (fuel : nat) (today start : date) (yielded : list json)
  (how : stop) :
  _paginate_coinmetrics rt www fuel (mvrv_base_url start today) None =
    Some (yielded, how) ->
  fetch_mvrv_timeseries rt www fuel today start =
  Some (rows <- mvrv_rows rt yielded how ;; mvrv_table rows).
Proof.
  intros H. unfold fetch_mvrv_timeseries. rewrite (mvrv_loop_run _ _ _ _ _ H).
  reflexivity.
Qed.

Lemma fetch_mvrv_ok (fuel : nat) (today start : date) (table : list mvrv_row) :
  fetch_mvrv_timeseries rt www fuel today start = Some (Ok table) ->
  exists yielded rows,
    _paginate_coinmetrics rt www fuel (mvrv_base_url start today) None =
      Some (yielded, None) /\
    mvrv_rows rt yielded None = Ok rows /\
    mvrv_table rows = Ok table.
Proof.
  unfold fetch_mvrv_timeseries. intros H.
  destruct (mvrv_loop rt www fuel (mvrv_base_url start today) None) as [[rows|e]|] eqn:Hl;
    try discriminate H.
  cbn [bind] in H. injection H as H.
  destruct (mvrv_loop_ok _ _ _ _ Hl) as (yielded & Hp & Hr).
  exists yielded, rows. split; [exact Hp|]. split; [exact Hr|exact H].
Qed.
End Laziness.

(** ** Time series tables *)

Lemma fetch_ahr_rows (rt : runtime) (www : web) (table : list ahr_row) :
  fetch_ahr_timeseries rt www = Ok table ->
  exists html raw_values raw_labels values,
    _get_text www ahr_url = Ok html /\
    ahr_blocks html = Ok (raw_values, raw_labels) /\
    List.length raw_values = List.length raw_labels /\
    floats_of raw_values = Ok values /\
    table = Frame.sort_values date_leb ahr_date
              (ahr_dropna (map (to_datetime rt "%Y-%m-%d") raw_labels) values).
Proof.
  unfold fetch_ahr_timeseries. intros H.
  destruct (_get_text www ahr_url) as [html|e]; [|discriminate H]. cbn [bind] in H.
  destruct (ahr_blocks html) as [[raw_values raw_labels]|e] eqn:Eb; [|discriminate H].
  cbn [bind] in H.
  destruct (List.length raw_values =? List.length raw_labels)%nat eqn:El;
    [|discriminate H].
  cbn [negb] in H.
  destruct (floats_of raw_values) as [values|e] eqn:Ev; [|discriminate H].
  cbn [bind] in H.
  remember (Frame.sort_values date_leb ahr_date
              (ahr_dropna (map (to_datetime rt "%Y-%m-%d") raw_labels) values))
    as sorted eqn:Hs.
  injection H as <-.
  exists html, raw_values, raw_labels, values.
  split; [reflexivity|]. split; [exact Eb|].
  split; [apply Nat.eqb_eq; exact El|]. split; [exact Ev|exact Hs].
Qed.

Lemma parse_flows_rows (rt : runtime) (text : string) (table : list flow_row) :
  _parse_farside_daily_flows rt text = Ok table ->
  exists rows,
    flow_scan (splitlines text) = Ok rows /\ rows <> [] /\
    table = Frame.sort_values date_leb flow_date (flow_dated rt rows).
Proof.
  unfold _parse_farside_daily_flows. intros H.
  destruct (flow_scan (splitlines text)) as [rows|e] eqn:Es; [|discriminate H].
  cbn [bind] in H. destruct rows as [|r rows]; [discriminate H|].
  remember (Frame.sort_values date_leb flow_date (flow_dated rt (r :: rows)))
    as sorted eqn:Hs.
  injection H as <-.
  exists (r :: rows). split; [reflexivity|]. split; [discriminate|exact Hs].
Qed.

Lemma mvrv_table_sorted (rows table : list mvrv_row) :
  mvrv_table rows = Ok table ->
  rows <> [] /\ table = Frame.sort_values date_leb mvrv_date rows.
Proof.
  unfold mvrv_table. destruct rows as [|r rows]; [discriminate|].
  remember (Frame.sort_values date_leb mvrv_date (r :: rows)) as sorted eqn:Hs.
  intros H. injection H as <-. split; [discriminate|reflexivity].
Qed.

(** The rows that a parser has accepted, for each table it returns. *)
Lemma series_dates_rows (rt : runtime) (www : web) (dates : list date) :
  series_dates rt www dates -> exists accepted, series_rows rt www accepted dates.
Proof.
  intros [(fuel & today & start & table & H & ->)
         |[(table & H & ->)|(text & table & H & ->)]].
  - destruct (fetch_mvrv_ok rt www _ _ _ _ H) as (yielded & rows & Hp & Hr & _).
    exists (map mvrv_date rows). left.
    exists fuel, today, start, yielded, rows, table.
    split; [exact Hp|]. split; [exact (mvrv_rows_ok rt _ _ _ Hr)|].
    split; [exact H|]. split; reflexivity.
  - destruct (fetch_ahr_rows rt www table H)
      as (html & raw_values & raw_labels & values & Ht & Hb & _ & Hv & _).
    eexists. right. left. exists html, raw_values, raw_labels, values, table.
    split; [exact Ht|]. split; [exact Hb|]. split; [exact Hv|].
    split; [exact H|]. split; reflexivity.
  - destruct (parse_flows_rows rt text table H) as (rows & Hs & _ & _).
    eexists. right. right. exists text, rows, table.
    split; [exact Hs|]. split; [exact H|]. split; reflexivity.
Qed.

(** The table holds the accepted rows, each as often as it was accepted. *)
Lemma series_rows_kept (rt : runtime) (www : web) (accepted dates : list date) :
  series_rows rt www accepted dates -> Permutation accepted dates.
Proof.
  intros [(fuel & today & start & yielded & rows & table & Hp & HF & H & -> & ->)
         |[(html & raw_values & raw_labels & values & table & Ht & Hb & Hv & H & -> & ->)
          |(text & rows & table & Hs & H & -> & ->)]].
  - destruct (fetch_mvrv_ok rt www _ _ _ _ H) as (yielded' & rows' & Hp' & Hr & Htab).
    rewrite Hp in Hp'. injection Hp' as <-.
    assert (rows' = rows) as ->.
    { pose proof (mvrv_rows_ok rt _ _ _ Hr) as HF'. clear - HF HF'.
      revert rows' HF'. induction HF as [|row r yielded rows Hr _ IH]; intros rows' HF';
        inversion HF' as [|? r' ? rs' Hr' Hrest]; subst; [reflexivity|].
      rewrite Hr in Hr'. injection Hr' as <-. rewrite (IH rs' Hrest). reflexivity. }
    destruct (mvrv_table_sorted _ _ Htab) as [_ ->].
    apply Permutation_map, Permutation_sym, sort_values_perm.
  - destruct (fetch_ahr_rows rt www table H)
      as (html' & raw_values' & raw_labels' & values' & Ht' & Hb' & _ & Hv' & ->).
    rewrite Ht in Ht'. injection Ht' as <-.
    rewrite Hb in Hb'. injection Hb' as <- <-.
    rewrite Hv in Hv'. injection Hv' as <-.
    apply Permutation_map, Permutation_sym, sort_values_perm.
  - destruct (parse_flows_rows rt text table H) as (rows' & Hs' & _ & ->).
    rewrite Hs in Hs'. injection Hs' as <-.
    apply Permutation_map, Permutation_sym, sort_values_perm.
Qed.

(** C2 (amended): the date column of every table returned by the MVRV, the
    AHR999 and the ETF-flow parser is ascending, each date on or after the
    one before it; it is strictly ascending exactly when it holds no date
    twice. No row is removed for its date: the dates of the table are the
    dates of the rows that the parser accepted, each as often as it was
    accepted. *)
Theorem timeseries_tables_ascending (rt : runtime) (www : web) (dates : list date) :
  series_dates rt www dates ->
  ascending dates = true /\
  (NoDup dates <-> strictly_ascending dates = true) /\
  (exists accepted, series_rows rt www accepted dates) /\
  (forall accepted, series_rows rt www accepted dates -> Permutation accepted dates).
Proof.
  intros H.
  assert (Ha : ascending dates = true).
  { destruct H as [(fuel & today & start & table & H & ->)
                  |[(table & H & ->)|(text & table & H & ->)]].
    - destruct (fetch_mvrv_ok rt www _ _ _ _ H) as (yielded & rows & _ & _ & Htab).
      destruct (mvrv_table_sorted _ _ Htab) as [_ ->].
      exact (sort_values_ascending mvrv_date rows).
    - destruct (fetch_ahr_rows rt www table H) as (? & ? & ? & ? & _ & _ & _ & _ & ->).
      apply sort_values_ascending.
    - destruct (parse_flows_rows rt text table H) as (rows & _ & _ & ->).
      exact (sort_values_ascending flow_date (flow_dated rt rows)). }
  split; [exact Ha|]. split; [split|split].
  - intros Hn. apply ascending_nodup_strict; assumption.
  - apply strictly_ascending_nodup.
  - exact (series_dates_rows rt www dates H).
  - intros accepted. apply series_rows_kept.
Qed.

Lemma timeseries_tables_ascending_two_pages :
  series_dates python mvrv_two_pages [mkdate 2024 1 1; mkdate 2024 1 2] /\
  ascending [mkdate 2024 1 1; mkdate 2024 1 2] = true /\
  exists accepted,
    series_rows python mvrv_two_pages accepted [mkdate 2024 1 1; mkdate 2024 1 2] /\
    Permutation accepted [mkdate 2024 1 1; mkdate 2024 1 2].
Proof.
  assert (H : series_dates python mvrv_two_pages [mkdate 2024 1 1; mkdate 2024 1 2]).
  { left. exists 2%nat, day0, day0. eexists. split; vm_compute; reflexivity. }
  split; [exact H|].
  destruct (timeseries_tables_ascending python mvrv_two_pages _ H)
    as (Ha & _ & [accepted Hr] & Hk).
  split; [exact Ha|]. exists accepted. split; [exact Hr|exact (Hk accepted Hr)].
Defined.

(** C2, as stated, fails: two flow lines for one day give a table with
    that day twice, which is not strictly ascending. *)
Lemma flows_table_repeats_a_date :
  exists table,
    _parse_farside_daily_flows python repeated_day_text = Ok table /\
    map flow_date table = [mkdate 2024 1 1; mkdate 2024 1 2; mkdate 2024 1 2] /\
    strictly_ascending (map flow_date table) = false /\
    ~ NoDup (map flow_date table).
Proof.
  eexists. split; [vm_compute; reflexivity|].
  split; [reflexivity|]. split; [reflexivity|].
  intros H. inversion H as [|? ? _ H']; subst. inversion H' as [|? ? Hin _]; subst.
  apply Hin. left. reflexivity.
Qed.

(** ** Treasury tables *)

Lemma ranked_order (column : nat) (top_n : Z) (rows : list (list string))
  (table : list treasury_row) :
  (0 <= top_n)%Z -> ranked column top_n rows = Ok table ->
  (Z.of_nat (List.length table) <= top_n)%Z /\
  descending_nan_last (map held table) = true.
Proof.
  intros Hn H. unfold ranked in H.
  destruct (decode_column column rows) as [df|e]; [|discriminate].
  cbn [bind] in H. injection H as <-.
  assert (Hh : Frame.head top_n (Frame.sort_values_desc held df) =
               firstn (Z.to_nat top_n) (Frame.sort_values_desc held df)).
  { destruct top_n; try reflexivity. lia. }
  rewrite Hh. split.
  - pose proof (firstn_le_length (Z.to_nat top_n) (Frame.sort_values_desc held df)).
    lia.
  - unfold descending_nan_last. rewrite <- firstn_map.
    apply chain_firstn. apply sort_values_desc_order.
Qed.

(** C3 (amended): for a top-N that is not negative, every table returned by
    the three treasury fetchers has at most top-N rows and its holding
    amounts are in decreasing order, equal amounts allowed, with the rows
    whose amount is NaN after all the rows with a number. *)
Theorem treasury_tables_ranked (www : web) (top_n : Z) (table : list treasury_row) :
  (0 <= top_n)%Z -> treasury_table www top_n table ->
  (Z.of_nat (List.length table) <= top_n)%Z /\
  descending_nan_last (map held table) = true.
Proof.
  intros Hn [H|[H|H]].
  - unfold fetch_btc_treasury_holdings in H.
    destruct (_get_text www _) as [text|e]; [|discriminate]. cbn [bind] in H.
    destruct (collect btc_line (splitlines text)) as [|row rows]; [discriminate|].
    exact (ranked_order _ _ _ _ Hn H).
  - unfold fetch_eth_treasury_holdings in H.
    destruct (_get_text www _) as [text|e]; [|discriminate]. cbn [bind] in H.
    destruct (collect eth_line (splitlines text)) as [|row rows]; [discriminate|].
    exact (ranked_order _ _ _ _ Hn H).
  - unfold fetch_sol_treasury_holdings in H.
    destruct (_get_text www _) as [text|e]; [|discriminate]. cbn [bind] in H.
    destruct (collect sol_line (splitlines text)) as [|row rows]; [discriminate|].
    exact (ranked_order _ _ _ _ Hn H).
Qed.

Lemma treasury_tables_ranked_top3 :
  exists table,
    fetch_btc_treasury_holdings btc_treasury_tie 3 = Ok table /\
    (Z.of_nat (List.length table) <= 3)%Z /\
    descending_nan_last (map held table) = true.
Proof.
  eexists. split; [vm_compute; reflexivity|].
  apply (treasury_tables_ranked btc_treasury_tie 3); [lia|].
  left. vm_compute. reflexivity.
Defined.

(** C3, as stated, fails: two companies with the same holdings stand next
    to each other in the table, which is not strictly decreasing. *)
Lemma treasury_table_with_a_tie :
  exists table,
    fetch_btc_treasury_holdings btc_treasury_tie 15 = Ok table /\
    map held table = [lit 2.5e9; lit 1000; lit 1000; nan] /\
    strictly_descending_nan_last (map held table) = false.
Proof.
  eexists. split; [vm_compute; reflexivity|]. split; vm_compute; reflexivity.
Qed.

(** ** Empty tables *)

Lemma flow_scan_without_dated_line (lines : list string) :
  (forall line, In line lines -> date_pattern_match line = None) ->
  flow_scan lines = Ok [].
Proof.
  induction lines as [|line rest IH]; intros H; [reflexivity|].
  cbn [flow_scan]. rewrite (H line (or_introl eq_refl)).
  destruct (negb _); apply IH; intros l Hl; apply H; right; exact Hl.
Qed.

(** X15: a text without a line that matches the date pattern is refused. *)
Lemma flows_without_dated_line_raise (rt : runtime) (text : string) :
  (forall line, In line (splitlines text) -> date_pattern_match line = None) ->
  _parse_farside_daily_flows rt text =
  Raise (DataFetchError "No daily ETF flow rows found in Farside table").
Proof.
  intros H. unfold _parse_farside_daily_flows.
  rewrite (flow_scan_without_dated_line _ H). reflexivity.
Qed.

(** A text whose dated lines all carry a date that does not parse passes the
    test for emptiness and comes out as an empty table. *)
Lemma flows_all_undated_return_empty (rt : runtime) (text : string)
  (row : string * float) (rows : list (string * float)) :
  flow_scan (splitlines text) = Ok (row :: rows) ->
  (forall r, In r (row :: rows) -> to_datetime rt "%d %b %Y" (fst r) = None) ->
  _parse_farside_daily_flows rt text = Ok [].
Proof.
  intros Hs Hd. unfold _parse_farside_daily_flows. rewrite Hs. cbn [bind].
  assert (He : flow_dated rt (row :: rows) = []).
  { revert Hd. generalize (row :: rows). intros l.
    induction l as [|[d v] l IH]; intros Hd; [reflexivity|].
    cbn [flow_dated]. pose proof (Hd (d, v) (or_introl eq_refl)) as H0.
    cbn [fst] in H0. rewrite H0.
    apply IH. intros r Hr. apply Hd. right. exact Hr. }
  rewrite He. reflexivity.
Qed.

(** C4: the ETF-flow parser returns an empty table, and raises nothing, for
    a text whose only dated line has a date that does not parse: the test
    for emptiness comes before the rows without a date are dropped. The
    sentiment-index parser, which has no such test, returns an empty table
    for a document whose two arrays are empty. *)
Theorem empty_tables_are_returned :
  _parse_farside_daily_flows python undated_flow_text = Ok [] /\
  fetch_btc_etf_flows python (page undated_flow_text) = Ok [] /\
  fetch_ahr_timeseries python (page ahr_empty) = Ok [].
Proof. repeat split; vm_compute; reflexivity. Qed.

(** ** The single error kind *)

(** C5: exceptions other than the fetch error leave the parsers. A row of
    the valuation-ratio feed without its realised cap raises [KeyError], one
    whose market cap is not a number raises [ValueError]; a broad-money
    record whose year is not an integer text raises [ValueError], and a
    broad-money payload of one element raises [IndexError]. *)
Theorem other_exceptions_escape :
  fetch_mvrv_timeseries python mvrv_missing_metric 5 day0 day0 = Some (Raise KeyError) /\
  fetch_mvrv_timeseries python mvrv_bad_metric 5 day0 day0 = Some (Raise ValueError) /\
  fetch_global_m2 m2_bad_year = Raise ValueError /\
  fetch_global_m2 m2_short_payload = Raise IndexError.
Proof. repeat split; vm_compute; reflexivity. Qed.

(** A timestamp that is not a text has no [replace] method: the
    [AttributeError] is not among the handled exceptions. *)
Lemma timestamp_without_text_escapes :
  fetch_mvrv_timeseries python mvrv_null_timestamp 5 day0 day0 =
  Some (Raise AttributeError).
Proof. vm_compute. reflexivity. Qed.

(** ** The market-cap snapshot *)

(** C6: the snapshot has gold_market_cap = gold_price x (205000 x
    32150.7466), the product being taken in this order in binary64, and,
    for a BTC market cap that is not zero, gold_vs_btc_upside =
    gold_market_cap / btc_market_cap. With BTC price 60000, BTC market cap
    1.2e12 and gold price 2000, the gold market cap is 1.3182e13 to five
    digits and the upside is 10.98 to two decimals. *)
Theorem gold_market_cap_formula (www : web) (s : MarketCapSnapshot) :
  fetch_market_caps www = Ok s ->
  gold_market_cap s = fmul (gold_price s) (fmul (lit 205000) (lit 32150.7466)) /\
  (PyNum.truthy (btc_market_cap s) = true ->
   gold_vs_btc_upside s = fdiv (gold_market_cap s) (btc_market_cap s)) /\
  (btc_price s = lit 60000 -> btc_market_cap s = lit 1.2e12 ->
   gold_price s = lit 2000 ->
   SFleb (lit 1.31815e13) (gold_market_cap s) = true /\
   SFltb (gold_market_cap s) (lit 1.31825e13) = true /\
   SFleb (lit 10.975) (gold_vs_btc_upside s) = true /\
   SFltb (gold_vs_btc_upside s) (lit 10.985) = true).
Proof.
  intros H. unfold fetch_market_caps in H. bind_cases H.
  injection H as <-. cbn [gold_market_cap gold_price btc_market_cap btc_price].
  split; [reflexivity|]. split.
  - intros Ht. unfold gold_vs_btc_upside. cbn [gold_market_cap btc_market_cap].
    rewrite Ht. reflexivity.
  - intros _ Hcap Hgold. unfold gold_vs_btc_upside.
    cbn [gold_market_cap btc_market_cap]. rewrite Hcap, Hgold.
    repeat split; vm_compute; reflexivity.
Qed.

Lemma gold_market_cap_formula_example :
  exists s,
    fetch_market_caps caps_example = Ok s /\
    btc_price s = lit 60000 /\ btc_market_cap s = lit 1.2e12 /\
    gold_price s = lit 2000 /\
    gold_market_cap s = fmul (lit 2000) (fmul (lit 205000) (lit 32150.7466)) /\
    gold_vs_btc_upside s = fdiv (gold_market_cap s) (lit 1.2e12).
Proof.
  eexists. split; [vm_compute; reflexivity|].
  split; [reflexivity|]. split; [reflexivity|]. split; [reflexivity|].
  match goal with
  | |- gold_market_cap ?s = _ /\ _ =>
      destruct (gold_market_cap_formula caps_example s) as (H1 & H2 & _);
        [vm_compute; reflexivity|]
  end.
  split; [exact H1|]. apply H2. reflexivity.
Defined.

(** ** The sentiment index *)

(** C8: when the two bracketed blocks after the anchor are found and hold
    different numbers of entries, the sentiment-index parser raises the
    fetch error of the count mismatch; no table is built. *)
Theorem ahr_count_mismatch_raises (rt : runtime) (www : web) (html : string)
  (raw_values raw_labels : list string) :
  _get_text www ahr_url = Ok html ->
  ahr_blocks html = Ok (raw_values, raw_labels) ->
  List.length raw_values <> List.length raw_labels ->
  fetch_ahr_timeseries rt www =
  Raise (DataFetchError "Mismatched label/value counts in AHR data").
Proof.
  intros Ht Hb Hn. unfold fetch_ahr_timeseries. rewrite Ht. cbn [bind].
  rewrite Hb. cbn [bind].
  apply Nat.eqb_neq in Hn. rewrite Hn. reflexivity.
Qed.

Lemma ahr_count_mismatch_three_two :
  ahr_blocks ahr_mismatch = Ok (["0.45"; "0.52"; "0.61"], ["2024-01-01"; "2024-01-02"]) /\
  fetch_ahr_timeseries python (page ahr_mismatch) =
  Raise (DataFetchError "Mismatched label/value counts in AHR data").
Proof.
  assert (Hb : ahr_blocks ahr_mismatch =
               Ok (["0.45"; "0.52"; "0.61"], ["2024-01-01"; "2024-01-02"]))
    by (vm_compute; reflexivity).
  split; [exact Hb|].
  apply (ahr_count_mismatch_raises python (page ahr_mismatch) ahr_mismatch
           ["0.45"; "0.52"; "0.61"] ["2024-01-01"; "2024-01-02"]);
    [reflexivity|exact Hb|discriminate].
Defined.

Lemma Forall2_In_left {A B : Type} (R : A -> B -> Prop) (l : list A)
  (l' : list B) (a : A) :
  Forall2 R l l' -> In a l -> exists b, In b l' /\ R a b.
Proof.
  intros H. induction H as [|x y r r' Hxy _ IH]; intros Hin; [contradiction|].
  destruct Hin as [->|Hin].
  - exists y. split; [left; reflexivity|exact Hxy].
  - destruct (IH Hin) as (b & Hb & Hab). exists b. split; [right; exact Hb|exact Hab].
Qed.

Lemma trailing_Z_replaced (body : string) :
  mem_char "Z" body = false ->
  replace "Z" "+00:00" (body ++ "Z") = body ++ "+00:00".
Proof.
  unfold replace. induction body as [|c r IH]; intros H; [reflexivity|].
  cbn [mem_char] in H. apply orb_false_iff in H. destruct H as [Hc Hr].
  cbn [append replace_from String.prefix].
  destruct (ascii_dec "Z" c) as [<-|_]; [discriminate Hc|].
  rewrite (IH Hr). reflexivity.
Qed.

(** C9: a row whose timestamp is missing or malformed is never skipped, but
    the fetch error is not all that it ends in. When the fetch returns a
    table, every row that the pages hold is in it, with a timestamp text
    that [fromisoformat] accepts once its "Z" is replaced by "+00:00" (for a
    text whose only "Z" is the last character, the text with "+00:00" in its
    place). The first row with a defect that the loop meets, after rows that
    are accepted, ends the fetch, whatever the pages after it: with the
    fetch error when the row has no "time" entry or a text that is rejected,
    with [AttributeError] when the entry is no text, and with [TypeError]
    when the row is no object. These defects are all the ways in which the
    reading of the timestamp raises. *)
Theorem timestamp_defects_end_the_fetch (rt : runtime) (www : web) (fuel : nat)
  (today start : date) :
  (forall table,
     fetch_mvrv_timeseries rt www fuel today start = Some (Ok table) ->
     exists yielded,
       _paginate_coinmetrics rt www fuel (mvrv_base_url start today) None =
         Some (yielded, None) /\
       List.length table = List.length yielded /\
       forall row, In row yielded ->
         timestamp_defect_of rt row = None /\
         exists t d, PyObj.getitem row "time" = Ok (JStr t) /\
                     fromisoformat rt (replace "Z" "+00:00" t) = Some d /\
                     In d (map mvrv_date table)) /\
  (forall body, mem_char "Z" body = false ->
     replace "Z" "+00:00" (body ++ "Z") = body ++ "+00:00") /\
  (forall before row pages k,
     row_reached rt www (mvrv_base_url start today) None before row pages ->
     (pages <= fuel)%nat ->
     Forall (fun r => returns (mvrv_record rt r) = true) before ->
     timestamp_defect_of rt row = Some k ->
     fetch_mvrv_timeseries rt www fuel today start = Some (Raise (defect_exn k))) /\
  (forall k, is_fetch_error (Raise (defect_exn k) : result (list mvrv_row)) = true <->
             k = no_entry \/ k = rejected_text) /\
  (forall row, bad_timestamp rt row <-> exists e, mvrv_timestamp rt row = Raise e).
Proof.
  split; [|split; [exact trailing_Z_replaced|split; [|split]]].
  - intros table H.
    destruct (fetch_mvrv_ok rt www _ _ _ _ H) as (yielded & rows & Hp & Hr & Htab).
    destruct (mvrv_table_sorted _ _ Htab) as [_ ->].
    pose proof (mvrv_rows_ok rt _ _ _ Hr) as HF.
    pose proof (sort_values_perm date_leb mvrv_date rows) as Hperm.
    exists yielded. split; [exact Hp|]. split.
    + rewrite (Permutation_length Hperm). symmetry. exact (Forall2_length HF).
    + intros row Hin.
      destruct (Forall2_In_left _ _ _ _ HF Hin) as (r1 & Hin1 & Hrec).
      destruct (mvrv_record_timestamp rt _ _ Hrec) as (t & Ht & Hd). split.
      * destruct (timestamp_defect_of rt row) as [k|] eqn:Ek; [|reflexivity].
        rewrite (proj2 (timestamp_defect_raises rt row k Ek)) in Hrec.
        discriminate Hrec.
      * exists t, (mvrv_date r1). split; [exact Ht|]. split; [exact Hd|].
        apply in_map. apply (Permutation_in _ (Permutation_sym Hperm)). exact Hin1.
  - intros before row pages k Hreach Hf Hb Hk. unfold fetch_mvrv_timeseries.
    rewrite (mvrv_loop_first_failure rt www _ _ _ _ _ _ _ Hreach Hf Hb
               (proj2 (timestamp_defect_raises rt row k Hk))).
    reflexivity.
  - intros k. destruct k; cbn; split; intros H;
      try reflexivity; try discriminate H; auto;
      destruct H as [H|H]; discriminate H.
  - intros row. unfold bad_timestamp. split.
    + intros Hbad. destruct (timestamp_defect_of rt row) as [k|] eqn:Ek; [|contradiction].
      exists (defect_exn k). exact (proj1 (timestamp_defect_raises rt row k Ek)).
    + intros [e He] Hnone. apply (timestamp_fine rt) in Hnone.
      destruct Hnone as [d Hd]. rewrite Hd in He. discriminate He.
Qed.

(** The failing input of C9: a row whose timestamp is [null], on a source
    whose pages never end. *)
Lemma null_timestamp_raises_attribute_error :
  timestamp_defect_of python (JObj (("time", JNull) :: metrics)) = Some not_text /\
  fetch_mvrv_timeseries python mvrv_endless_null_timestamp 1 day0 day0 =
  Some (Raise AttributeError).
Proof.
  split; [reflexivity|].
  destruct (timestamp_defects_end_the_fetch python mvrv_endless_null_timestamp 1
              day0 day0) as (_ & _ & H & _ & _).
  apply (H [] (JObj (("time", JNull) :: metrics)) 1%nat not_text).
  - eapply reached_here with (after := []); reflexivity.
  - lia.
  - constructor.
  - reflexivity.
Defined.

(** ** Failures of the access layer *)

(** A status other than 200 and a body that is not JSON are fetch errors. *)
Lemma request_failures_are_fetch_errors (www : web) (url : string) (e : exn) :
  _request_json www url = Raise e -> is_fetch_error (Raise e : result json) = true.
Proof.
  unfold _request_json. destruct (negb _).
  - intros H. injection H as <-. reflexivity.
  - destruct (decoded (www url)); [discriminate|].
    intros H. injection H as <-. reflexivity.
Qed.

(** * Further properties of the number normalizer *)

Lemma append_nil_r (s : string) : s ++ EmptyString = s.
Proof. induction s as [|c r IH]; [reflexivity|]. simpl. rewrite IH. reflexivity. Qed.

Lemma append_assoc (a b c : string) : (a ++ b) ++ c = a ++ (b ++ c).
Proof. induction a as [|x r IH]; [reflexivity|]. simpl. rewrite IH. reflexivity. Qed.

Lemma strip_by_app_left (p : ascii -> bool) (a s : string) :
  all_chars p a = true -> strip_by p (a ++ s) = strip_by p s.
Proof.
  induction a as [|c r IH]; intros H; [reflexivity|].
  cbn [all_chars] in H. apply andb_true_iff in H. destruct H as [Hc Hr].
  cbn [append]. rewrite strip_by_cons_strip by exact Hc. apply IH, Hr.
Qed.

Lemma strip_by_app_right (p : ascii -> bool) (b s : string) :
  all_chars p b = true -> strip_by p (s ++ b) = strip_by p s.
Proof.
  revert s. induction b as [|c r IH]; intros s H.
  - rewrite append_nil_r. reflexivity.
  - cbn [all_chars] in H. apply andb_true_iff in H. destruct H as [Hc Hr].
    change (String c r) with (String c EmptyString ++ r).
    rewrite <- append_assoc. rewrite (IH _ Hr).
    apply strip_by_snoc_strip, Hc.
Qed.

(** X2: white space around a text does not change what the normalizer makes of
    it. *)
Theorem to_number_ignores_outer_space (a s b : string) :
  all_chars isspace a = true -> all_chars isspace b = true ->
  _to_number (a ++ s ++ b) = _to_number s.
Proof.
  intros Ha Hb. unfold _to_number.
  replace (strip (a ++ s ++ b)) with (strip s); [reflexivity|].
  unfold strip. rewrite strip_by_app_left by exact Ha.
  rewrite strip_by_app_right by exact Hb. reflexivity.
Qed.

Lemma to_number_ignores_outer_space_example :
  all_chars isspace "  " = true /\ all_chars isspace " " = true /\
  _to_number ("  " ++ "1.2b" ++ " ") = _to_number "1.2b".
Proof.
  split; [reflexivity|]. split; [reflexivity|].
  apply to_number_ignores_outer_space; reflexivity.
Defined.

(** ** A character appended to a text *)

Lemma prefix_nil (x : string) : String.prefix EmptyString x = true.
Proof. destruct x; reflexivity. Qed.

Lemma prefix_of_nil (old : string) :
  String.prefix old EmptyString = is_empty old.
Proof. destruct old; reflexivity. Qed.

Lemma prefix_length (old x : string) :
  String.prefix old x = true -> (String.length old <= String.length x)%nat.
Proof.
  revert old. induction x as [|b r IH]; intros old H.
  - destruct old; [apply Nat.le_refl|discriminate H].
  - destruct old as [|a o]; [apply Nat.le_0_l|].
    cbn [String.prefix] in H. destruct (ascii_dec a b); [|discriminate H].
    cbn [String.length]. apply le_n_S, IH, H.
Qed.

Lemma prefix_snoc (c : ascii) (old x : string) :
  is_empty old = false -> last_char old <> Some c ->
  String.prefix old (x ++ String c EmptyString) = String.prefix old x.
Proof.
  revert old. induction x as [|b r IH]; intros old Hne Hl.
  - destruct old as [|a o]; [discriminate Hne|].
    cbn [append String.prefix]. destruct (ascii_dec a c) as [->|_]; [|reflexivity].
    destruct o as [|a' o']; [|reflexivity].
    elim Hl. reflexivity.
  - destruct old as [|a o]; [discriminate Hne|].
    cbn [append String.prefix]. destruct (ascii_dec a b) as [_|_]; [|reflexivity].
    destruct o as [|a' o'].
    + rewrite !prefix_nil. reflexivity.
    + apply IH; [reflexivity|exact Hl].
Qed.

Lemma replace_from_snoc (c : ascii) (old new : string) :
  is_empty old = false -> last_char old <> Some c ->
  forall (s : string) (skip : nat),
    (skip <= String.length s)%nat ->
    replace_from old new skip (s ++ String c EmptyString) =
    replace_from old new skip s ++ String c EmptyString.
Proof.
  intros Hne Hl. induction s as [|a r IH]; intros skip Hs.
  - assert (skip = O) by (cbn in Hs; lia). subst skip.
    cbn [append replace_from].
    change (String c EmptyString) with (EmptyString ++ String c EmptyString) at 1.
    rewrite (prefix_snoc c old EmptyString Hne Hl), prefix_of_nil, Hne.
    reflexivity.
  - destruct skip as [|k].
    + cbn [append replace_from].
      change (String a (r ++ String c EmptyString))
        with (String a r ++ String c EmptyString).
      rewrite (prefix_snoc c old (String a r) Hne Hl).
      destruct (String.prefix old (String a r)) eqn:Ep.
      * apply prefix_length in Ep. cbn [String.length] in Ep.
        rewrite IH by lia. rewrite append_assoc. reflexivity.
      * cbn [append]. rewrite IH by apply Nat.le_0_l. reflexivity.
    + cbn [append replace_from]. apply IH. cbn [String.length] in Hs. lia.
Qed.

Lemma replace_snoc (c : ascii) (old new s : string) :
  is_empty old = false -> last_char old <> Some c ->
  replace old new (s ++ String c EmptyString) =
  replace old new s ++ String c EmptyString.
Proof.
  intros Hne Hl. unfold replace.
  apply replace_from_snoc; [exact Hne|exact Hl|apply Nat.le_0_l].
Qed.

Lemma last_char_snoc (c : ascii) (s : string) :
  last_char (s ++ String c EmptyString) = Some c.
Proof.
  induction s as [|a r IH]; [reflexivity|].
  cbn [append last_char]. rewrite IH. destruct r; reflexivity.
Qed.

Lemma drop_last_snoc (c : ascii) (s : string) :
  drop_last (s ++ String c EmptyString) = s.
Proof.
  induction s as [|a r IH]; [reflexivity|].
  cbn [append drop_last]. rewrite IH. destruct r; reflexivity.
Qed.

Lemma endswith_snoc_other (c d : ascii) (s : string) :
  Ascii.eqb c d = false ->
  endswith (String d EmptyString) (s ++ String c EmptyString) = false.
Proof.
  intros H. induction s as [|a r IH].
  - cbn. rewrite H. reflexivity.
  - cbn [append endswith]. rewrite IH. cbn [String.eqb].
    destruct (Ascii.eqb a d); [|reflexivity].
    destruct r; reflexivity.
Qed.

Lemma snoc_not_one (c d : ascii) (s : string) :
  Ascii.eqb c d = false ->
  String.eqb (s ++ String c EmptyString) (String d EmptyString) = false.
Proof.
  intros H. destruct s as [|a r]; cbn.
  - rewrite H. reflexivity.
  - destruct (Ascii.eqb a d); [|reflexivity]. destruct r; reflexivity.
Qed.

Lemma clean_scrub (value : string) :
  clean value = scrub (strip_chars "()" value).
Proof. reflexivity. Qed.

Lemma scrub_snoc (c : ascii) (y : string) :
  mem_char c ",$+LHC%" = false ->
  scrub (y ++ String c EmptyString) = scrub y ++ String c EmptyString.
Proof.
  intros Hm. cbn [mem_char] in Hm.
  repeat (apply orb_false_iff in Hm; destruct Hm as [? Hm]).
  assert (Hone : forall d, Ascii.eqb c d = false ->
                 last_char (String d EmptyString) <> Some c).
  { intros d Hd Heq. injection Heq as ->. rewrite Ascii.eqb_refl in Hd. discriminate Hd. }
  assert (Htok : forall a b d, Ascii.eqb c d = false ->
                 last_char (String a (String b (String d EmptyString))) <> Some c).
  { intros a b d Hd Heq. injection Heq as ->. rewrite Ascii.eqb_refl in Hd. discriminate Hd. }
  unfold scrub.
  rewrite (replace_snoc c "," EmptyString) by (try reflexivity; apply Hone; assumption).
  rewrite (replace_snoc c "$" EmptyString) by (try reflexivity; apply Hone; assumption).
  rewrite (replace_snoc c "+" EmptyString) by (try reflexivity; apply Hone; assumption).
  rewrite (replace_snoc c "SOL" EmptyString) by (try reflexivity; apply Htok; assumption).
  rewrite (replace_snoc c "ETH" EmptyString) by (try reflexivity; apply Htok; assumption).
  rewrite (replace_snoc c "BTC" EmptyString) by (try reflexivity; apply Htok; assumption).
  rewrite (replace_snoc c "%" EmptyString) by (try reflexivity; apply Hone; assumption).
  reflexivity.
Qed.

(** What the normalizer returns for a text that ends in a multiplier
    letter [c]: the number read from the rest, scaled. *)
Lemma to_number_with_suffix (c : ascii) (k : float) (s : string) :
  isspace c = false -> mem_char c "(),$+LHC%-" = false ->
  multipliers (lower_char c) = Some k ->
  _to_number (s ++ String c EmptyString) =
  match parse_float
          (scrub (lstrip_by (fun a => mem_char a "()") (lstrip_by isspace s))) with
  | None => Ok nan
  | Some number => Ok (fmul number k)
  end.
Proof.
  intros Hs Hm Hk.
  assert (Hst : strip (s ++ String c EmptyString) =
                lstrip_by isspace s ++ String c EmptyString).
  { unfold strip, strip_by. rewrite lstrip_by_snoc_keep by exact Hs.
    apply rstrip_by_snoc_keep, Hs. }
  cbn [mem_char] in Hm.
  repeat (apply orb_false_iff in Hm; destruct Hm as [? Hm]).
  assert (Hp : mem_char c "()" = false).
  { cbn [mem_char]. repeat (apply orb_false_iff; split); assumption. }
  assert (Hq : mem_char c ",$+LHC%" = false).
  { cbn [mem_char]. repeat (apply orb_false_iff; split); assumption. }
  unfold _to_number. rewrite Hst. set (x := lstrip_by isspace s).
  rewrite is_empty_snoc, (snoc_not_one c "-" x) by assumption.
  cbn [orb]. unfold negative_marker.
  rewrite (endswith_snoc_other c ")" x) by assumption. rewrite andb_false_r.
  rewrite clean_scrub. unfold strip_chars, strip_by.
  rewrite lstrip_by_snoc_keep by exact Hp.
  rewrite rstrip_by_snoc_keep by exact Hp.
  rewrite scrub_snoc by exact Hq.
  rewrite last_char_snoc, Hk, drop_last_snoc.
  destruct (parse_float _); reflexivity.
Qed.

(** X3: the multiplier letter of a text is read without regard to its case. *)
Theorem to_number_suffix_any_case (s : string) :
  _to_number (s ++ "M") = _to_number (s ++ "m") /\
  _to_number (s ++ "B") = _to_number (s ++ "b").
Proof.
  split.
  - rewrite (to_number_with_suffix "M" (lit 1e6) s) by reflexivity.
    rewrite (to_number_with_suffix "m" (lit 1e6) s) by reflexivity.
    reflexivity.
  - rewrite (to_number_with_suffix "B" (lit 1e9) s) by reflexivity.
    rewrite (to_number_with_suffix "b" (lit 1e9) s) by reflexivity.
    reflexivity.
Qed.

(** ** Integers with grouping commas *)

Lemma digit_cases (c : ascii) :
  is_ascii_digit c = true ->
  c = "0"%char \/ c = "1"%char \/ c = "2"%char \/ c = "3"%char \/ c = "4"%char \/
  c = "5"%char \/ c = "6"%char \/ c = "7"%char \/ c = "8"%char \/ c = "9"%char.
Proof.
  destruct c as [[] [] [] [] [] [] [] []]; intros H;
    try discriminate H; auto 11.
Qed.

Ltac by_digit c H :=
  destruct (digit_cases c H)
    as [-> | [-> | [-> | [-> | [-> | [-> | [-> | [-> | [-> | ->]]]]]]]]];
  reflexivity.

Lemma digit_not_space (c : ascii) : is_ascii_digit c = true -> isspace c = false.
Proof. intros H. by_digit c H. Qed.

Lemma digit_not_special (c : ascii) :
  is_ascii_digit c = true -> mem_char c "(),$+%SEB_-" = false.
Proof. intros H. by_digit c H. Qed.

Lemma digit_no_multiplier (c : ascii) :
  is_ascii_digit c = true -> multipliers (lower_char c) = None.
Proof. intros H. by_digit c H. Qed.

Lemma digit_lower (c : ascii) : is_ascii_digit c = true -> lower_char c = c.
Proof. intros H. by_digit c H. Qed.

Lemma digit_take_sign (c : ascii) (r : string) :
  is_ascii_digit c = true -> take_sign (String c r) = (false, String c r).
Proof. intros H. by_digit c H. Qed.

Lemma digit_no_name (c : ascii) (r : string) :
  is_ascii_digit c = true ->
  String.eqb (lower (String c r)) "inf" = false /\
  String.eqb (lower (String c r)) "infinity" = false /\
  String.eqb (lower (String c r)) "nan" = false.
Proof.
  intros H.
  destruct (digit_cases c H)
    as [-> | [-> | [-> | [-> | [-> | [-> | [-> | [-> | [-> | ->]]]]]]]]];
    repeat split; reflexivity.
Qed.

Lemma all_chars_weaken (p q : ascii -> bool) (s : string) :
  (forall c, p c = true -> q c = true) ->
  all_chars p s = true -> all_chars q s = true.
Proof.
  intros Hpq. induction s as [|c r IH]; intros H; [reflexivity|].
  cbn [all_chars] in *. apply andb_true_iff in H. destruct H as [Hc Hr].
  rewrite (Hpq c Hc), (IH Hr). reflexivity.
Qed.

Lemma all_chars_app (p : ascii -> bool) (a b : string) :
  all_chars p (a ++ b) = all_chars p a && all_chars p b.
Proof.
  induction a as [|c r IH]; [reflexivity|].
  cbn [append all_chars]. rewrite IH, andb_assoc. reflexivity.
Qed.

Lemma lstrip_by_id (p : ascii -> bool) (s : string) :
  all_chars (fun c => negb (p c)) s = true -> lstrip_by p s = s.
Proof.
  destruct s as [|c r]; [reflexivity|]. cbn [all_chars lstrip_by].
  intros H. apply andb_true_iff in H. destruct H as [Hc _].
  apply negb_true_iff in Hc. rewrite Hc. reflexivity.
Qed.

Lemma rstrip_by_id (p : ascii -> bool) (s : string) :
  all_chars (fun c => negb (p c)) s = true -> rstrip_by p s = s.
Proof.
  induction s as [|c r IH]; [reflexivity|]. cbn [all_chars].
  intros H. apply andb_true_iff in H. destruct H as [Hc Hr].
  apply negb_true_iff in Hc. rewrite rstrip_by_cons_keep by exact Hc.
  rewrite (IH Hr). reflexivity.
Qed.

Lemma strip_by_id (p : ascii -> bool) (s : string) :
  all_chars (fun c => negb (p c)) s = true -> strip_by p s = s.
Proof.
  intros H. unfold strip_by. rewrite (lstrip_by_id p s H). apply rstrip_by_id, H.
Qed.

(** *** Removal of single characters and of absent tokens *)

Lemma replace_single_removes (c : ascii) (s : string) :
  replace (String c EmptyString) EmptyString s = remove_chars (String c EmptyString) s.
Proof.
  unfold replace. induction s as [|a r IH]; [reflexivity|].
  cbn [replace_from remove_chars mem_char String.prefix String.length Nat.sub].
  rewrite prefix_nil, orb_false_r, IH.
  destruct (ascii_dec c a) as [->|Hn].
  - rewrite Ascii.eqb_refl. reflexivity.
  - destruct (Ascii.eqb a c) eqn:E; [|reflexivity].
    apply Ascii.eqb_eq in E. congruence.
Qed.

Lemma replace_absent (a : ascii) (o new s : string) :
  mem_char a s = false -> replace (String a o) new s = s.
Proof.
  unfold replace. induction s as [|b r IH]; intros H; [reflexivity|].
  cbn [mem_char] in H. apply orb_false_iff in H. destruct H as [Hab Hr].
  cbn [replace_from String.prefix].
  destruct (ascii_dec a b) as [->|_].
  - rewrite Ascii.eqb_refl in Hab. discriminate Hab.
  - rewrite (IH Hr). reflexivity.
Qed.

Lemma remove_chars_app (cs a b : string) :
  remove_chars cs (a ++ b) = remove_chars cs a ++ remove_chars cs b.
Proof.
  induction a as [|c r IH]; [reflexivity|].
  cbn [append remove_chars]. rewrite IH. destruct (mem_char c cs); reflexivity.
Qed.

Lemma remove_chars_id (cs s : string) :
  all_chars (fun c => negb (mem_char c cs)) s = true -> remove_chars cs s = s.
Proof.
  induction s as [|c r IH]; [reflexivity|]. cbn [all_chars remove_chars].
  intros H. apply andb_true_iff in H. destruct H as [Hc Hr].
  apply negb_true_iff in Hc. rewrite Hc, (IH Hr). reflexivity.
Qed.

Lemma remove_commas_digits (s : string) :
  all_chars (fun c => is_ascii_digit c || Ascii.eqb c ",") s = true ->
  all_chars is_ascii_digit (remove_chars "," s) = true.
Proof.
  induction s as [|c r IH]; [reflexivity|]. cbn [all_chars remove_chars mem_char].
  intros H. apply andb_true_iff in H. destruct H as [Hc Hr].
  rewrite orb_false_r. destruct (Ascii.eqb c ",") eqn:E.
  - apply IH, Hr.
  - rewrite orb_false_r in Hc. cbn [all_chars]. rewrite Hc, (IH Hr). reflexivity.
Qed.

Lemma mem_char_absent (a : ascii) (s : string) :
  all_chars (fun c => negb (Ascii.eqb a c)) s = true -> mem_char a s = false.
Proof.
  induction s as [|c r IH]; [reflexivity|]. cbn [all_chars mem_char].
  intros H. apply andb_true_iff in H. destruct H as [Hc Hr].
  apply negb_true_iff in Hc. rewrite Hc, (IH Hr). reflexivity.
Qed.

Lemma digits_lack (d : string) (a : ascii) :
  mem_char a "(),$+%SEB_-" = true ->
  all_chars is_ascii_digit d = true -> mem_char a d = false.
Proof.
  intros Ha Hd. apply mem_char_absent.
  apply (all_chars_weaken is_ascii_digit); [|exact Hd].
  intros c Hc. apply negb_true_iff.
  destruct (Ascii.eqb a c) eqn:E; [|reflexivity].
  apply Ascii.eqb_eq in E. subst c.
  rewrite (digit_not_special a Hc) in Ha. discriminate Ha.
Qed.

Lemma digits_removal_id (d cs : string) :
  all_chars (fun c => mem_char c "(),$+%SEB_-") cs = true ->
  all_chars is_ascii_digit d = true -> remove_chars cs d = d.
Proof.
  intros Hcs Hd. apply remove_chars_id.
  apply (all_chars_weaken is_ascii_digit); [|exact Hd].
  intros c Hc. apply negb_true_iff.
  clear Hd. induction cs as [|a r IH]; [reflexivity|].
  cbn [all_chars] in Hcs. apply andb_true_iff in Hcs. destruct Hcs as [Ha Hr].
  cbn [mem_char]. rewrite (IH Hr), orb_false_r.
  destruct (Ascii.eqb c a) eqn:E; [|reflexivity].
  apply Ascii.eqb_eq in E. subst a.
  rewrite (digit_not_special c Hc) in Ha. discriminate Ha.
Qed.

(** On digits the removals of [clean] change nothing. *)
Lemma scrub_digits (d : string) :
  all_chars is_ascii_digit d = true -> scrub d = d.
Proof.
  intros Hd. unfold scrub.
  rewrite (replace_single_removes "," d), (digits_removal_id d ",") by (reflexivity || exact Hd).
  rewrite (replace_single_removes "$" d), (digits_removal_id d "$") by (reflexivity || exact Hd).
  rewrite (replace_single_removes "+" d), (digits_removal_id d "+") by (reflexivity || exact Hd).
  rewrite (replace_absent "S" "OL" EmptyString d) by (apply digits_lack; [reflexivity|exact Hd]).
  rewrite (replace_absent "E" "TH" EmptyString d) by (apply digits_lack; [reflexivity|exact Hd]).
  rewrite (replace_absent "B" "TC" EmptyString d) by (apply digits_lack; [reflexivity|exact Hd]).
  rewrite (replace_single_removes "%" d), (digits_removal_id d "%") by (reflexivity || exact Hd).
  reflexivity.
Qed.

Lemma mem_char_remove (a : ascii) (cs t : string) :
  mem_char a t = false -> mem_char a (remove_chars cs t) = false.
Proof.
  induction t as [|c r IH]; [reflexivity|]. cbn [mem_char remove_chars].
  intros H. apply orb_false_iff in H. destruct H as [Hc Hr].
  destruct (mem_char c cs); [apply IH, Hr|].
  cbn [mem_char]. rewrite Hc, (IH Hr). reflexivity.
Qed.

Lemma mem_char_app (a : ascii) (x y : string) :
  mem_char a (x ++ y) = mem_char a x || mem_char a y.
Proof.
  induction x as [|c r IH]; [reflexivity|].
  cbn [append mem_char]. rewrite IH, orb_assoc. reflexivity.
Qed.

Lemma remove_chars_twice (cs1 cs2 t : string) :
  remove_chars cs2 (remove_chars cs1 t) = remove_chars (cs1 ++ cs2) t.
Proof.
  induction t as [|c r IH]; [reflexivity|]. cbn [remove_chars].
  rewrite mem_char_app. destruct (mem_char c cs1); cbn [orb remove_chars].
  - exact IH.
  - rewrite IH. reflexivity.
Qed.

(** On a text without the first letters of the unit tokens, [clean] removes
    the commas, the dollar, plus and percent signs, and nothing else. *)
Lemma scrub_removes (t : string) :
  mem_char "S" t = false -> mem_char "E" t = false -> mem_char "B" t = false ->
  scrub t = remove_chars ",$+%" t.
Proof.
  intros HS HE HB. unfold scrub.
  rewrite (replace_single_removes "," t).
  rewrite (replace_single_removes "$"), (replace_single_removes "+").
  rewrite !remove_chars_twice.
  rewrite (replace_absent "S" "OL") by (apply mem_char_remove, HS).
  rewrite (replace_absent "E" "TH") by (apply mem_char_remove, HE).
  rewrite (replace_absent "B" "TC") by (apply mem_char_remove, HB).
  rewrite (replace_single_removes "%"), remove_chars_twice.
  reflexivity.
Qed.

Section GroupedIntegers.
Variable s : string.
Hypothesis grouped : grouped_integer s = true.

Let digits_or_commas :
  all_chars (fun c => is_ascii_digit c || Ascii.eqb c ",") s = true.
Proof. apply andb_true_iff in grouped. apply grouped. Qed.

Let some_digit : is_empty (remove_chars "," s) = false.
Proof. apply andb_true_iff in grouped. apply negb_true_iff, grouped. Qed.

Lemma grouped_lacks (a : ascii) :
  mem_char a "()$+%SEB_-" = true -> mem_char a s = false.
Proof.
  intros Ha. apply mem_char_absent.
  apply (all_chars_weaken _ _ s) with (2 := digits_or_commas).
  intros c Hc. apply negb_true_iff.
  destruct (Ascii.eqb a c) eqn:E; [|reflexivity].
  apply Ascii.eqb_eq in E. subst c. apply orb_true_iff in Hc.
  destruct Hc as [Hc|Hc].
  - pose proof (digit_not_special a Hc) as Hn.
    cbn [mem_char] in Ha, Hn.
    repeat (apply orb_false_iff in Hn; destruct Hn as [? Hn]).
    repeat match goal with H : Ascii.eqb a _ = false |- _ => rewrite H in Ha end.
    discriminate Ha.
  - apply Ascii.eqb_eq in Hc. subst a. discriminate Ha.
Qed.

Lemma grouped_plain (p : ascii -> bool) :
  (forall c, p c = true -> mem_char c "()$+%SEB_-" = true \/ isspace c = true) ->
  all_chars (fun c => negb (p c)) s = true.
Proof.
  intros Hp. apply (all_chars_weaken _ _ s) with (2 := digits_or_commas).
  intros c Hc. apply negb_true_iff.
  destruct (p c) eqn:E; [|reflexivity].
  apply orb_true_iff in Hc. destruct (Hp c E) as [Hm|Hm].
  - destruct Hc as [Hc|Hc].
    + pose proof (digit_not_special c Hc) as Hn.
      cbn [mem_char] in Hm, Hn.
      repeat (apply orb_false_iff in Hn; destruct Hn as [? Hn]).
      repeat match goal with H : Ascii.eqb c _ = false |- _ => rewrite H in Hm end.
      discriminate Hm.
    + apply Ascii.eqb_eq in Hc. subst c. discriminate Hm.
  - destruct Hc as [Hc|Hc].
    + rewrite (digit_not_space c Hc) in Hm. discriminate Hm.
    + apply Ascii.eqb_eq in Hc. subst c. discriminate Hm.
Qed.

Lemma grouped_strip : strip s = s.
Proof.
  apply strip_by_id, grouped_plain. intros c Hc. right. exact Hc.
Qed.

Lemma grouped_strip_parens : strip_chars "()" s = s.
Proof.
  apply strip_by_id, grouped_plain. intros c Hc. left.
  cbn [mem_char] in *. apply orb_true_iff in Hc. destruct Hc as [Hc|Hc].
  - rewrite Hc. reflexivity.
  - rewrite orb_false_r in Hc. rewrite Hc. apply orb_true_r.
Qed.

Lemma grouped_removals : remove_chars ",$+%" s = remove_chars "," s.
Proof.
  clear some_digit grouped. induction s as [|c r IH]; [reflexivity|].
  cbn [all_chars] in digits_or_commas.
  apply andb_true_iff in digits_or_commas. destruct digits_or_commas as [Hc Hr].
  cbn [remove_chars]. rewrite (IH Hr).
  apply orb_true_iff in Hc. destruct Hc as [Hc|Hc].
  - pose proof (digit_not_special c Hc) as Hn.
    cbn [mem_char] in Hn |- *.
    repeat (apply orb_false_iff in Hn; destruct Hn as [? Hn]).
    repeat match goal with H : Ascii.eqb c _ = false |- _ => rewrite H end.
    reflexivity.
  - apply Ascii.eqb_eq in Hc. subst c. reflexivity.
Qed.

Lemma grouped_scrub : scrub s = remove_chars "," s.
Proof.
  rewrite scrub_removes by (apply grouped_lacks; reflexivity).
  apply grouped_removals.
Qed.

Lemma grouped_digits : all_chars is_ascii_digit (remove_chars "," s) = true.
Proof. apply remove_commas_digits, digits_or_commas. Qed.

End GroupedIntegers.

Lemma span_digits_all (d : string) :
  all_chars is_ascii_digit d = true -> span_digits d = (d, EmptyString).
Proof.
  induction d as [|c r IH]; [reflexivity|]. cbn [all_chars span_digits].
  intros H. apply andb_true_iff in H. destruct H as [Hc Hr].
  rewrite Hc, (IH Hr). reflexivity.
Qed.

Lemma lower_digits (d : string) :
  all_chars is_ascii_digit d = true -> lower d = d.
Proof.
  induction d as [|c r IH]; [reflexivity|]. cbn [all_chars lower].
  intros H. apply andb_true_iff in H. destruct H as [Hc Hr].
  rewrite (digit_lower c Hc), (IH Hr). reflexivity.
Qed.

Lemma ungroup_digits (d : string) (prev : ascii) :
  all_chars is_ascii_digit d = true -> is_ascii_digit prev = true ->
  ungroup (Some prev) d = Some d.
Proof.
  revert prev. induction d as [|c r IH]; intros prev Hd Hp.
  - cbn [ungroup].
    replace (Ascii.eqb prev "_") with false; [reflexivity|].
    pose proof (digit_not_special prev Hp) as Hn. cbn [mem_char] in Hn.
    repeat (apply orb_false_iff in Hn; destruct Hn as [? Hn]). congruence.
  - cbn [all_chars] in Hd. apply andb_true_iff in Hd. destruct Hd as [Hc Hr].
    cbn [ungroup]. rewrite Hc. cbn [negb]. rewrite andb_false_r.
    replace (Ascii.eqb c "_") with false.
    + rewrite (IH c Hr Hc). reflexivity.
    + pose proof (digit_not_special c Hc) as Hn. cbn [mem_char] in Hn.
      repeat (apply orb_false_iff in Hn; destruct Hn as [? Hn]). congruence.
Qed.

Lemma digit_not_literal_space (c : ascii) :
  is_ascii_digit c = true -> literal_space c = false.
Proof.
  destruct c as [[] [] [] [] [] [] [] []]; intros H; try discriminate H; reflexivity.
Qed.

(** [float()] on a text of digits gives the float nearest to the integer
    they denote. *)
Lemma parse_float_digits (d : string) :
  all_chars is_ascii_digit d = true -> is_empty d = false ->
  parse_float d = Some (of_decimal false (digits_val 0 d) 0).
Proof.
  intros Hd Hne. unfold parse_float.
  assert (Hst : strip_by literal_space d = d).
  { apply strip_by_id, (all_chars_weaken is_ascii_digit); [|exact Hd].
    intros c Hc. rewrite (digit_not_literal_space c Hc). reflexivity. }
  rewrite Hst. destruct d as [|c r]; [discriminate Hne|].
  cbn [all_chars] in Hd. apply andb_true_iff in Hd. destruct Hd as [Hc Hr].
  assert (Hall : all_chars is_ascii_digit (String c r) = true)
    by (cbn [all_chars]; rewrite Hc, Hr; reflexivity).
  assert (Hu : ungroup None (String c r) = Some (String c r)).
  { cbn [ungroup]. cbn [andb].
    replace (Ascii.eqb c "_") with false.
    - rewrite (ungroup_digits r c Hr Hc). reflexivity.
    - pose proof (digit_not_special c Hc) as Hn. cbn [mem_char] in Hn.
      repeat (apply orb_false_iff in Hn; destruct Hn as [? Hn]). congruence. }
  rewrite Hu, (digit_take_sign c r Hc). unfold parse_unsigned.
  destruct (digit_no_name c r Hc) as (H1 & H2 & H3). rewrite H1, H2, H3.
  cbn [orb]. rewrite (span_digits_all _ Hall). cbn [is_empty andb parse_exponent].
  rewrite append_nil_r. reflexivity.
Qed.

Lemma last_char_of_digits (d : string) :
  all_chars is_ascii_digit d = true -> is_empty d = false ->
  exists c, last_char d = Some c /\ is_ascii_digit c = true.
Proof.
  induction d as [|c r IH]; intros Hd Hne; [discriminate Hne|].
  cbn [all_chars] in Hd. apply andb_true_iff in Hd. destruct Hd as [Hc Hr].
  destruct r as [|b r'].
  - exists c. split; [reflexivity|exact Hc].
  - destruct (IH Hr eq_refl) as (x & Hx & Hdx). exists x. split; [exact Hx|exact Hdx].
Qed.

Lemma not_dash (s : string) :
  mem_char "-" s = false -> String.eqb s "-" = false.
Proof.
  intros H. destruct (String.eqb s "-") eqn:E; [|reflexivity].
  apply String.eqb_eq in E. subst s. discriminate H.
Qed.

(** The normalizer on a trimmed text that cleaning turns into digits. *)
Lemma to_number_of_digits (value d : string) :
  strip value = value -> is_empty value = false -> String.eqb value "-" = false ->
  clean value = d -> all_chars is_ascii_digit d = true -> is_empty d = false ->
  _to_number value =
  Ok (if negative_marker value
      then fneg (of_decimal false (digits_val 0 d) 0)
      else of_decimal false (digits_val 0 d) 0).
Proof.
  intros Hst Hne Hdash Hcl Hd Hdne. unfold _to_number.
  rewrite Hst, Hne, Hdash, Hcl. cbn [orb].
  destruct (last_char_of_digits d Hd Hdne) as (c & Hl & Hc).
  rewrite Hl, (digit_no_multiplier c Hc), (parse_float_digits d Hd Hdne).
  reflexivity.
Qed.

(** X4: for an integer written with digits and grouping commas: the normalizer
    returns the float nearest to it; with a final [m] or [b], that float
    times 1e6 or 1e9; between parentheses, its negation; after a dollar
    sign, the float itself. *)
Theorem to_number_grouped_integer (s : string) :
  grouped_integer s = true ->
  _to_number s = Ok (integer_value s) /\
  _to_number (s ++ "m") = Ok (fmul (integer_value s) (lit 1e6)) /\
  _to_number (s ++ "b") = Ok (fmul (integer_value s) (lit 1e9)) /\
  _to_number ("(" ++ s ++ ")") = Ok (fneg (integer_value s)) /\
  _to_number ("$" ++ s) = Ok (integer_value s).
Proof.
  intros Hg.
  pose proof (grouped_strip s Hg) as Hst.
  pose proof (grouped_strip_parens s Hg) as Hsp.
  pose proof (grouped_scrub s Hg) as Hsc.
  pose proof (grouped_digits s Hg) as Hd.
  assert (Hdne : is_empty (remove_chars "," s) = false).
  { apply andb_true_iff in Hg. apply negb_true_iff, Hg. }
  assert (Hne : is_empty s = false).
  { destruct s; [discriminate Hdne|reflexivity]. }
  assert (Hlp : lstrip_by (fun a => mem_char a "()") (lstrip_by isspace s) = s).
  { assert (H1 : lstrip_by isspace s = s).
    { apply lstrip_by_id, grouped_plain; [exact Hg|]. intros c Hc. right. exact Hc. }
    rewrite H1. apply lstrip_by_id, grouped_plain; [exact Hg|].
    intros c Hc. left. cbn [mem_char] in *.
    apply orb_true_iff in Hc. destruct Hc as [Hc|Hc].
    - rewrite Hc. reflexivity.
    - rewrite orb_false_r in Hc. rewrite Hc. apply orb_true_r. }
  assert (Hopen : startswith "(" s = false).
  { destruct s as [|c r]; [reflexivity|].
    pose proof (grouped_lacks _ Hg "(" eq_refl) as Hm.
    cbn [mem_char] in Hm. apply orb_false_iff in Hm. destruct Hm as [Hm _].
    unfold startswith. cbn [String.prefix].
    destruct (ascii_dec "(" c) as [<-|_]; [discriminate Hm|reflexivity]. }
  split; [|split; [|split; [|split]]].
  - rewrite (to_number_of_digits s (remove_chars "," s)); try assumption.
    + unfold negative_marker. rewrite Hopen. reflexivity.
    + apply not_dash, (grouped_lacks s Hg). reflexivity.
    + rewrite clean_scrub, Hsp. exact Hsc.
  - rewrite (to_number_with_suffix "m" (lit 1e6) s) by reflexivity.
    rewrite Hlp, Hsc, (parse_float_digits _ Hd Hdne). reflexivity.
  - rewrite (to_number_with_suffix "b" (lit 1e9) s) by reflexivity.
    rewrite Hlp, Hsc, (parse_float_digits _ Hd Hdne). reflexivity.
  - assert (Hv : strip ("(" ++ s ++ ")") = "(" ++ s ++ ")").
    { apply strip_by_id. cbn [append all_chars]. rewrite all_chars_app.
      rewrite (grouped_plain s Hg isspace) by (intros c Hc; right; exact Hc).
      reflexivity. }
    assert (Hc : clean ("(" ++ s ++ ")") = remove_chars "," s).
    { rewrite clean_scrub. unfold strip_chars. cbn [append].
      rewrite strip_by_cons_strip by reflexivity.
      rewrite strip_by_snoc_strip by reflexivity.
      fold (strip_chars "()" s). rewrite Hsp. exact Hsc. }
    assert (Hm : negative_marker ("(" ++ s ++ ")") = true).
    { unfold negative_marker. cbn [append].
      rewrite (endswith_cons _ _ _ (is_empty_snoc _ _)), endswith_snoc.
      unfold startswith. cbn [String.prefix].
      destruct (ascii_dec "(" "("); [|congruence].
      rewrite prefix_nil. reflexivity. }
    rewrite (to_number_of_digits _ _ Hv eq_refl eq_refl Hc Hd Hdne), Hm.
    reflexivity.
  - assert (Hv : strip ("$" ++ s) = "$" ++ s).
    { apply strip_by_id. cbn [append all_chars].
      rewrite (grouped_plain s Hg isspace) by (intros c Hc; right; exact Hc).
      reflexivity. }
    assert (Hp : strip_chars "()" ("$" ++ s) = "$" ++ s).
    { apply strip_by_id. cbn [append all_chars].
      rewrite (grouped_plain s Hg (fun a => mem_char a "()")).
      - reflexivity.
      - intros c Hc. left. cbn [mem_char] in *.
        apply orb_true_iff in Hc. destruct Hc as [Hc|Hc].
        + rewrite Hc. reflexivity.
        + rewrite orb_false_r in Hc. rewrite Hc. apply orb_true_r. }
    assert (Hc : clean ("$" ++ s) = remove_chars "," s).
    { rewrite clean_scrub, Hp. rewrite scrub_removes.
      - change (remove_chars ",$+%" ("$" ++ s)) with (remove_chars ",$+%" s).
        apply (grouped_removals s Hg).
      - change (mem_char "S" ("$" ++ s)) with (mem_char "S" s).
        apply (grouped_lacks s Hg). reflexivity.
      - change (mem_char "E" ("$" ++ s)) with (mem_char "E" s).
        apply (grouped_lacks s Hg). reflexivity.
      - change (mem_char "B" ("$" ++ s)) with (mem_char "B" s).
        apply (grouped_lacks s Hg). reflexivity. }
    assert (Hdash : String.eqb ("$" ++ s) "-" = false) by reflexivity.
    rewrite (to_number_of_digits _ _ Hv eq_refl Hdash Hc Hd Hdne).
    reflexivity.
Qed.

Lemma to_number_grouped_integer_example :
  grouped_integer "1,234,567" = true /\
  _to_number "1,234,567" = Ok (lit 1234567) /\
  _to_number "(1,234,567)" = Ok (lit (-1234567)).
Proof.
  split; [reflexivity|].
  destruct (to_number_grouped_integer "1,234,567" eq_refl) as (H1 & _ & _ & H4 & _).
  split; [exact H1|exact H4].
Defined.

(** * Further properties of the access layer *)

Lemma request_json_unavailable (www : web) (url : string) :
  status_code (www url) <> 200%Z ->
  _request_json www url = Raise (DataFetchError (status_message url (www url))).
Proof.
  intros H. unfold _request_json. apply Z.eqb_neq in H. rewrite H. reflexivity.
Qed.

Lemma get_text_unavailable (www : web) (url : string) :
  status_code (www url) <> 200%Z ->
  _get_text www url = Raise (DataFetchError (status_message url (www url))).
Proof.
  intros H. unfold _get_text. apply Z.eqb_neq in H. rewrite H. reflexivity.
Qed.

(** X5: when the remote side answers no request with the status 200, each of
    the nine fetch operations raises the fetch error; none returns a value
    and none raises another exception. *)
Theorem unavailable_source_is_fetch_error (rt : runtime) (www : web) :
  unavailable www ->
  is_fetch_error (fetch_global_m2 www) = true /\
  is_fetch_error (fetch_market_caps www) = true /\
  (forall fuel today start,
     exists msg,
       fetch_mvrv_timeseries rt www (S fuel) today start =
       Some (Raise (DataFetchError msg))) /\
  is_fetch_error (fetch_ahr_timeseries rt www) = true /\
  is_fetch_error (fetch_btc_etf_flows rt www) = true /\
  is_fetch_error (fetch_eth_etf_flows rt www) = true /\
  (forall fetch top_n, In fetch treasury_fetchers ->
     is_fetch_error (fetch www top_n) = true).
Proof.
  intros Hu. repeat split.
  - unfold fetch_global_m2. rewrite request_json_unavailable by apply Hu. reflexivity.
  - unfold fetch_market_caps. rewrite request_json_unavailable by apply Hu. reflexivity.
  - intros fuel today start. unfold fetch_mvrv_timeseries.
    cbn [mvrv_loop]. rewrite request_json_unavailable by apply Hu.
    cbn [bind]. eexists. reflexivity.
  - unfold fetch_ahr_timeseries. rewrite get_text_unavailable by apply Hu. reflexivity.
  - unfold fetch_btc_etf_flows. rewrite get_text_unavailable by apply Hu. reflexivity.
  - unfold fetch_eth_etf_flows. rewrite get_text_unavailable by apply Hu. reflexivity.
  - intros fetch top_n [<-|[<-|[<-|[]]]].
    + unfold fetch_btc_treasury_holdings.
      rewrite get_text_unavailable by apply Hu. reflexivity.
    + unfold fetch_eth_treasury_holdings.
      rewrite get_text_unavailable by apply Hu. reflexivity.
    + unfold fetch_sol_treasury_holdings.
      rewrite get_text_unavailable by apply Hu. reflexivity.
Qed.

Lemma unavailable_source_example :
  unavailable down /\
  fetch_global_m2 down =
  Raise (DataFetchError
           ("Failed to fetch " ++ m2_url ++ " (status 503)")) /\
  is_fetch_error (fetch_btc_treasury_holdings down 15) = true.
Proof.
  assert (Hd : unavailable down) by (intros url; discriminate).
  split; [exact Hd|]. split; [vm_compute; reflexivity|].
  destruct (unavailable_source_is_fetch_error python down Hd)
    as (_ & _ & _ & _ & _ & _ & H).
  apply H. left. reflexivity.
Defined.

(** X6: slashes around the path do not change the address of the proxied
    page. *)
Theorem proxied_url_ignores_outer_slashes (a path b : string) :
  all_chars (fun c => mem_char c "/") a = true ->
  all_chars (fun c => mem_char c "/") b = true ->
  _proxied_farside_url (a ++ path ++ b) = _proxied_farside_url path.
Proof.
  intros Ha Hb. unfold _proxied_farside_url, strip_chars.
  rewrite strip_by_app_left by exact Ha.
  rewrite strip_by_app_right by exact Hb. reflexivity.
Qed.

Lemma proxied_url_ignores_outer_slashes_example :
  _proxied_farside_url ("/" ++ "btc" ++ "//") = _proxied_farside_url "btc" /\
  _proxied_farside_url "btc" = "https://r.jina.ai/https://farside.co.uk/btc/".
Proof.
  split; [|reflexivity].
  apply proxied_url_ignores_outer_slashes; reflexivity.
Defined.

(** * Further properties of the broad-money series *)

Lemma Z_leb_total (x y : Z) : Z.leb x y = true \/ Z.leb y x = true.
Proof. destruct (Z.leb_spec x y); [left; reflexivity|right; apply Z.leb_le; lia]. Qed.

Lemma perm_nonempty {A : Type} (l l' : list A) :
  Permutation l l' -> l' <> [] -> l <> [].
Proof.
  intros Hp Hn ->. apply Permutation_nil in Hp. contradiction.
Qed.

(** X7: a table of the broad-money series is not empty, its years ascend, and
    each row carries its value divided by 1e12. *)
Theorem m2_table_shape (www : web) (table : list m2_row) :
  fetch_global_m2 www = Ok table ->
  table <> [] /\
  Frame.chain Z.leb (map m2_year table) = true /\
  Forall (fun r => value_trillion r = fdiv (m2_value r) (lit 1e12)) table.
Proof.
  intros H. unfold fetch_global_m2 in H.
  destruct (_request_json www m2_url) as [payload|e]; [|discriminate H].
  cbn [bind] in H.
  destruct (PyObj.getindex payload 1) as [records|e]; [|discriminate H].
  cbn [bind] in H.
  destruct (PyObj.iterate records) as [entries|e]; [|discriminate H].
  cbn [bind] in H.
  destruct (m2_rows entries) as [[|row rows]|e]; try discriminate H.
  cbn [bind] in H. cbv beta iota in H.
  remember (Frame.sort_values Z.leb fst (row :: rows)) as sorted eqn:Hs.
  assert (Hperm : Permutation sorted (row :: rows))
    by (subst sorted; apply sort_values_perm).
  assert (Hc : Frame.chain Z.leb (map fst sorted) = true).
  { subst sorted. unfold Frame.sort_values. rewrite chain_map.
    apply sort_chain with (P := fun _ => True).
    - intros x y _ _. apply Z_leb_total.
    - apply Forall_forall. intros; exact I. }
  clear Hs. injection H as <-. split; [|split].
  - intros Hm. apply map_eq_nil in Hm.
    apply (perm_nonempty _ _ Hperm); [discriminate|exact Hm].
  - rewrite map_map. exact Hc.
  - apply Forall_forall. intros r Hr. apply in_map_iff in Hr.
    destruct Hr as (x & <- & _). reflexivity.
Qed.

Lemma m2_table_shape_example :
  exists table,
    fetch_global_m2
      (api (JArr [JNull;
                  JArr [m2_record (JStr "2021") (JFloat (lit 1.1e14));
                        m2_record (JStr "2020") JNull;
                        m2_record (JStr "2019") (JStr "9e13")]])) = Ok table /\
    map m2_year table = [2019%Z; 2021%Z] /\
    Frame.chain Z.leb (map m2_year table) = true.
Proof.
  eexists. split; [vm_compute; reflexivity|]. split; [reflexivity|].
  match goal with
  | |- Frame.chain Z.leb (map m2_year ?t) = true =>
      apply (m2_table_shape
               (api (JArr [JNull;
                           JArr [m2_record (JStr "2021") (JFloat (lit 1.1e14));
                                 m2_record (JStr "2020") JNull;
                                 m2_record (JStr "2019") (JStr "9e13")]])) t)
  end.
  vm_compute. reflexivity.
Defined.

Lemma unusable_record_passed_over (entry : json) (rest : list json) :
  unusable_record entry -> m2_rows (entry :: rest) = m2_rows rest.
Proof.
  intros (fields & -> & H). cbn [m2_rows PyObj.get PyObj.get_default bind].
  destruct H as [H|[H|[H|[H|[(v & H & Hv)|[(l & H)|(m & H)]]]]]];
    rewrite H; cbn [PyObj.is_none orb]; try reflexivity.
  - destruct (PyObj.lookup "value" fields) as [[| | | | | |]|]; reflexivity.
  - destruct (PyObj.lookup "value" fields) as [[| | | | | |]|]; reflexivity.
  - destruct (PyObj.lookup "date" fields) as [y|]; [|reflexivity].
    destruct (PyObj.is_none y); [reflexivity|].
    cbn [PyObj.to_float]. unfold float_of_str. rewrite Hv. reflexivity.
  - destruct (PyObj.lookup "date" fields) as [y|]; [|reflexivity].
    destruct (PyObj.is_none y); reflexivity.
  - destruct (PyObj.lookup "date" fields) as [y|]; [|reflexivity].
    destruct (PyObj.is_none y); reflexivity.
Qed.

Lemma request_json_api (payload : json) (url : string) :
  _request_json (api payload) url = Ok payload.
Proof. reflexivity. Qed.

Lemma m2_rows_cons_congr (entry : json) (l l' : list json) :
  m2_rows l = m2_rows l' -> m2_rows (entry :: l) = m2_rows (entry :: l').
Proof. intros H. cbn [m2_rows]. rewrite H. reflexivity. Qed.

(** X8: a record without value or year, or with a value that is not a number,
    changes nothing wherever it stands among the records: the series, or
    the exception, is the one obtained without it. *)
Theorem m2_unusable_record_is_ignored (meta bad : json) (before after : list json) :
  unusable_record bad ->
  fetch_global_m2 (api (JArr [meta; JArr (before ++ bad :: after)%list])) =
  fetch_global_m2 (api (JArr [meta; JArr (before ++ after)%list])).
Proof.
  intros Hbad.
  assert (H : m2_rows (before ++ bad :: after)%list = m2_rows (before ++ after)%list).
  { induction before as [|e r IH].
    - apply unusable_record_passed_over, Hbad.
    - cbn [app]. apply m2_rows_cons_congr, IH. }
  unfold fetch_global_m2. rewrite !request_json_api.
  cbn [bind PyObj.getindex nth_error PyObj.iterate].
  rewrite H. reflexivity.
Qed.

Lemma m2_unusable_record_is_ignored_example :
  unusable_record (m2_record (JStr "2020") JNull) /\
  fetch_global_m2
    (api (JArr [JNull;
                JArr ([m2_record (JStr "2021") (JInt 5)] ++
                      m2_record (JStr "2020") JNull ::
                      [m2_record (JStr "2019") (JInt 4)])%list])) =
  fetch_global_m2
    (api (JArr [JNull;
                JArr ([m2_record (JStr "2021") (JInt 5)] ++
                      [m2_record (JStr "2019") (JInt 4)])%list])).
Proof.
  assert (H : unusable_record (m2_record (JStr "2020") JNull)).
  { eexists. split; [reflexivity|]. right. left. reflexivity. }
  split; [exact H|].
  apply (m2_unusable_record_is_ignored JNull _ _ _ H).
Defined.

(** * Further properties of the valuation-ratio series *)

Lemma paginate_pages (rt : runtime) (www : web) (base_url : string)
  (tok : option json) (rows : list json) (pages fuel : nat) :
  pages_from rt www base_url tok rows pages -> (pages <= fuel)%nat ->
  _paginate_coinmetrics rt www fuel base_url tok = Some (rows, None).
Proof.
  intros H. revert fuel.
  induction H as [tok payload data next rows Hreq Hdata Hit Hnext Hfalse
                 |tok payload data next rows more n Hreq Hdata Hit Hnext Htrue _ IH];
    intros fuel Hf; (destruct fuel as [|fuel]; [lia|]);
    cbn [_paginate_coinmetrics]; unfold page_url in Hreq;
    rewrite Hreq; cbn [bind]; rewrite Hdata; cbn [bind]; rewrite Hit; cbn [bind].
  - rewrite Hnext, Hfalse. reflexivity.
  - rewrite Hnext, Htrue. cbn [negb]. rewrite IH by lia. reflexivity.
Qed.

Lemma mvrv_rows_stopped (rt : runtime) (yielded : list json) (e : exn) :
  (exists e', mvrv_rows rt yielded (Some e) = Raise e') /\
  (Forall (fun r => returns (mvrv_record rt r) = true) yielded ->
   mvrv_rows rt yielded (Some e) = Raise e).
Proof.
  induction yielded as [|row rest [[e' IH1] IH2]].
  - split; [exists e; reflexivity|reflexivity].
  - cbn [mvrv_rows]. destruct (mvrv_record rt row) as [r|e0] eqn:Er.
    + cbn [bind]. split.
      * exists e'. rewrite IH1. reflexivity.
      * intros HF. inversion HF as [|? ? _ Hrest]; subst.
        rewrite (IH2 Hrest). reflexivity.
    + split; [exists e0; reflexivity|].
      intros HF. inversion HF as [|? ? H0 _]; subst.
      rewrite Er in H0. discriminate H0.
Qed.

(** X10: when a page cannot be fetched or read, the rows of the pages before it
    are not returned as a table: the fetch raises, and when those rows are
    all accepted it raises the exception of the page. *)
Theorem failed_page_leaves_no_table (rt : runtime) (www : web) (fuel : nat)
  (today start : date) (yielded : list json) (e : exn) :
  _paginate_coinmetrics rt www fuel (mvrv_base_url start today) None =
    Some (yielded, Some e) ->
  (exists e', fetch_mvrv_timeseries rt www fuel today start = Some (Raise e')) /\
  (Forall (fun r => returns (mvrv_record rt r) = true) yielded ->
   fetch_mvrv_timeseries rt www fuel today start = Some (Raise e)).
Proof.
  intros Hp. rewrite (fetch_mvrv_run rt www _ _ _ _ _ Hp).
  destruct (mvrv_rows_stopped rt yielded e) as [[e' H1] H2]. split.
  - exists e'. rewrite H1. reflexivity.
  - intros HF. rewrite (H2 HF). reflexivity.
Qed.

Lemma failed_page_leaves_no_table_example :
  exists msg,
    _paginate_coinmetrics python mvrv_second_page_down 5 (mvrv_base_url day0 day0) None =
      Some ([mvrv_entry "2024-01-02T00:00:00Z" metrics], Some (DataFetchError msg)) /\
    fetch_mvrv_timeseries python mvrv_second_page_down 5 day0 day0 =
      Some (Raise (DataFetchError msg)).
Proof.
  eexists.
  assert (Hp : _paginate_coinmetrics python mvrv_second_page_down 5
                 (mvrv_base_url day0 day0) None =
               Some ([mvrv_entry "2024-01-02T00:00:00Z" metrics],
                     Some (DataFetchError _))) by (vm_compute; reflexivity).
  split; [exact Hp|].
  apply (proj2 (failed_page_leaves_no_table _ _ _ _ _ _ _ Hp)).
  constructor; [vm_compute; reflexivity|constructor].
Defined.

(** ** The latest row *)

Lemma date_leb_spec (a b : date) :
  date_leb a b = true <->
  (year a < year b \/
   (year a = year b /\
    (month a < month b \/ (month a = month b /\ day a <= day b))))%Z.
Proof.
  unfold date_leb, date_compare.
  destruct (Z.compare_spec (year a) (year b));
    destruct (Z.compare_spec (month a) (month b));
    destruct (Z.compare_spec (day a) (day b));
    split; intros Hle; try reflexivity; try discriminate Hle; lia.
Qed.

Lemma date_leb_refl (a : date) : date_leb a a = true.
Proof. apply date_leb_spec. lia. Qed.

Lemma date_leb_trans (a b c : date) :
  date_leb a b = true -> date_leb b c = true -> date_leb a c = true.
Proof. rewrite !date_leb_spec. lia. Qed.

Lemma chain_last {A : Type} (R : A -> A -> bool) (d : A) (l : list A) :
  (forall x, R x x = true) ->
  (forall x y z, R x y = true -> R y z = true -> R x z = true) ->
  Frame.chain R l = true ->
  forall x, In x l -> R x (last l d) = true.
Proof.
  intros Hrefl Htrans. induction l as [|a r IH]; intros Hc x Hx; [contradiction|].
  destruct r as [|b r'].
  - destruct Hx as [<-|[]]. apply Hrefl.
  - rewrite chain_cons2 in Hc. apply andb_true_iff in Hc. destruct Hc as [Hab Hc].
    change (last (a :: b :: r') d) with (last (b :: r') d).
    destruct Hx as [<-|Hx].
    + apply (Htrans a b); [exact Hab|]. apply IH; [exact Hc|left; reflexivity].
    + apply IH; assumption.
Qed.

(** X11: a table of the valuation-ratio series is not empty, and no row has a
    date after that of its last row: the last row is the latest. *)
Theorem mvrv_last_row_is_latest (rt : runtime) (www : web) (fuel : nat)
  (today start : date) (table : list mvrv_row) :
  fetch_mvrv_timeseries rt www fuel today start = Some (Ok table) ->
  table <> [] /\
  forall d r, In r table ->
    date_leb (mvrv_date r) (mvrv_date (last table d)) = true.
Proof.
  intros H.
  destruct (fetch_mvrv_ok rt www _ _ _ _ H) as (yielded & rows & _ & _ & Htab).
  destruct (mvrv_table_sorted _ _ Htab) as [Hne Hs].
  remember table as sorted eqn:Ht. clear Ht H Htab.
  assert (Hperm : Permutation sorted rows)
    by (subst sorted; apply sort_values_perm).
  assert (Hc : Frame.chain (fun a b => date_leb (mvrv_date a) (mvrv_date b)) sorted = true).
  { subst sorted. rewrite <- chain_map. apply sort_values_ascending. }
  clear Hs. split.
  - destruct rows as [|row rows]; [contradiction|].
    apply (perm_nonempty _ _ Hperm). discriminate.
  - intros d r Hr.
    apply (chain_last (fun a b => date_leb (mvrv_date a) (mvrv_date b)) d sorted);
      [intros x; apply date_leb_refl
      |intros x y z; apply date_leb_trans|exact Hc|exact Hr].
Qed.

Lemma mvrv_last_row_is_latest_example :
  exists table,
    fetch_mvrv_timeseries python mvrv_two_pages 2 day0 day0 = Some (Ok table) /\
    map mvrv_date table = [mkdate 2024 1 1; mkdate 2024 1 2] /\
    table <> [].
Proof.
  eexists. split; [vm_compute; reflexivity|]. split; [reflexivity|].
  match goal with
  | |- ?t <> [] =>
      apply (mvrv_last_row_is_latest python mvrv_two_pages 2 day0 day0 t)
  end.
  vm_compute. reflexivity.
Defined.

(** X9: the generator yields the rows of all the pages that the tokens lead
    to, in the order of the pages, and stops at the page without a token;
    it needs as many requests as there are pages. When the rows are all
    accepted, and there is one at least, the table holds each of them
    once. *)
Theorem pagination_follows_tokens (rt : runtime) (www : web) (fuel pages : nat)
  (today start : date) (yielded : list json) :
  pages_from rt www (mvrv_base_url start today) None yielded pages ->
  (pages <= fuel)%nat ->
  _paginate_coinmetrics rt www fuel (mvrv_base_url start today) None =
    Some (yielded, None) /\
  forall rows, mvrv_rows rt yielded None = Ok rows -> rows <> [] ->
    exists table,
      fetch_mvrv_timeseries rt www fuel today start = Some (Ok table) /\
      Permutation table rows /\
      List.length table = List.length yielded.
Proof.
  intros Hp Hf.
  pose proof (paginate_pages _ _ _ _ _ _ _ Hp Hf) as Hy.
  split; [exact Hy|]. intros rows Hr Hne.
  rewrite (fetch_mvrv_run rt www _ _ _ _ _ Hy), Hr. cbn [bind].
  destruct rows as [|r rows]; [contradiction|].
  exists (Frame.sort_values date_leb mvrv_date (r :: rows)).
  split; [reflexivity|]. split; [apply sort_values_perm|].
  rewrite (Permutation_length (sort_values_perm date_leb mvrv_date (r :: rows))).
  symmetry. exact (Forall2_length (mvrv_rows_ok rt _ _ _ Hr)).
Qed.

Lemma pagination_follows_tokens_two_pages :
  pages_from python mvrv_two_pages (mvrv_base_url day0 day0) None
    ([mvrv_entry "2024-01-02T00:00:00Z" metrics] ++
     [mvrv_entry "2024-01-01T00:00:00Z" metrics])%list 2 /\
  _paginate_coinmetrics python mvrv_two_pages 7 (mvrv_base_url day0 day0) None =
  Some ([mvrv_entry "2024-01-02T00:00:00Z" metrics;
         mvrv_entry "2024-01-01T00:00:00Z" metrics], None) /\
  exists table,
    fetch_mvrv_timeseries python mvrv_two_pages 7 day0 day0 = Some (Ok table) /\
    List.length table = 2%nat.
Proof.
  assert (H : pages_from python mvrv_two_pages (mvrv_base_url day0 day0) None
                ([mvrv_entry "2024-01-02T00:00:00Z" metrics] ++
                 [mvrv_entry "2024-01-01T00:00:00Z" metrics])%list 2).
  { eapply pages_more with (next := JStr "p2");
      [vm_compute; reflexivity|reflexivity|reflexivity|reflexivity|reflexivity|].
    eapply pages_last; [vm_compute; reflexivity|reflexivity|reflexivity
                       |reflexivity|reflexivity]. }
  split; [exact H|].
  destruct (pagination_follows_tokens python mvrv_two_pages 7 2 day0 day0 _ H)
    as [Hy Ht]; [lia|].
  split; [exact Hy|].
  destruct (Ht [mk_mvrv_row (mkdate 2024 1 2) (lit 1200000000000.5)
                  (lit 600000000000) (lit 2.0);
                mk_mvrv_row (mkdate 2024 1 1) (lit 1200000000000.5)
                  (lit 600000000000) (lit 2.0)])
    as (table & Hf & _ & Hl); [vm_compute; reflexivity|discriminate|].
  exists table. split; [exact Hf|exact Hl].
Defined.

(** * Further properties of the sentiment index *)

Lemma ahr_dropna_rows (dates : list (option date)) (values : list float) (r : ahr_row) :
  In r (ahr_dropna dates values) ->
  isnan (ahr r) = false /\
  exists i, nth_error dates i = Some (Some (ahr_date r)) /\
            nth_error values i = Some (ahr r).
Proof.
  revert values. induction dates as [|d ds IH]; intros values Hin; [contradiction|].
  destruct values as [|v vs]; [contradiction|].
  cbn [ahr_dropna] in Hin.
  assert (Hrest : In r (ahr_dropna ds vs) ->
                  isnan (ahr r) = false /\
                  exists i, nth_error (d :: ds) i = Some (Some (ahr_date r)) /\
                            nth_error (v :: vs) i = Some (ahr r)).
  { intros H. destruct (IH vs H) as (Hn & i & Hd & Hv).
    split; [exact Hn|]. exists (S i). split; assumption. }
  destruct d as [d'|]; [|exact (Hrest Hin)].
  destruct (isnan v) eqn:Ev; [exact (Hrest Hin)|].
  destruct Hin as [<-|Hin]; [|exact (Hrest Hin)].
  split; [exact Ev|]. exists O. split; reflexivity.
Qed.

Lemma floats_of_nth (raw_values : list string) (values : list float) (i : nat)
  (x : float) :
  floats_of raw_values = Ok values -> nth_error values i = Some x ->
  exists v, nth_error raw_values i = Some v /\ parse_float v = Some x.
Proof.
  revert values i. induction raw_values as [|v rest IH]; intros values i H Hn.
  - injection H as <-. destruct i; discriminate Hn.
  - cbn [floats_of] in H. unfold float_of_str in H.
    destruct (parse_float v) as [y|] eqn:Ev; [|discriminate H]. cbn [bind] in H.
    destruct (floats_of rest) as [ys|e]; [|discriminate H]. cbn [bind] in H.
    injection H as <-. destruct i as [|i].
    + injection Hn as <-. exists v. split; [reflexivity|exact Ev].
    + apply (IH ys i eq_refl Hn).
Qed.

(** X13: every row of a table of the sentiment index pairs the label and the
    value that stand at the same position in the two arrays: its date is
    the one read from the label, its value the number read from the value
    text, and that number is not NaN. *)
Theorem ahr_rows_pair_by_position (rt : runtime) (www : web) (table : list ahr_row) :
  fetch_ahr_timeseries rt www = Ok table ->
  exists html raw_values raw_labels,
    _get_text www ahr_url = Ok html /\
    ahr_blocks html = Ok (raw_values, raw_labels) /\
    List.length raw_values = List.length raw_labels /\
    forall r, In r table ->
      isnan (ahr r) = false /\
      exists i label v,
        nth_error raw_labels i = Some label /\
        nth_error raw_values i = Some v /\
        to_datetime rt "%Y-%m-%d" label = Some (ahr_date r) /\
        parse_float v = Some (ahr r).
Proof.
  intros H. unfold fetch_ahr_timeseries in H.
  destruct (_get_text www ahr_url) as [html|e]; [|discriminate H]. cbn [bind] in H.
  destruct (ahr_blocks html) as [[raw_values raw_labels]|e] eqn:Eb; [|discriminate H].
  cbn [bind] in H.
  destruct (List.length raw_values =? List.length raw_labels)%nat eqn:El;
    [|discriminate H].
  cbn [negb] in H.
  destruct (floats_of raw_values) as [values|e] eqn:Ef; [|discriminate H].
  cbn [bind] in H.
  remember (Frame.sort_values date_leb ahr_date
              (ahr_dropna (map (to_datetime rt "%Y-%m-%d") raw_labels) values))
    as sorted eqn:Hs.
  assert (Hperm : Permutation sorted
                    (ahr_dropna (map (to_datetime rt "%Y-%m-%d") raw_labels) values))
    by (subst sorted; apply sort_values_perm).
  clear Hs. injection H as <-.
  exists html, raw_values, raw_labels.
  split; [reflexivity|]. split; [exact Eb|].
  split; [apply Nat.eqb_eq, El|].
  intros r Hr. apply (Permutation_in _ Hperm) in Hr.
  destruct (ahr_dropna_rows _ _ _ Hr) as (Hn & i & Hd & Hv).
  split; [exact Hn|].
  destruct (floats_of_nth _ _ _ _ Ef Hv) as (v & Hrv & Hpv).
  rewrite nth_error_map in Hd.
  destruct (nth_error raw_labels i) as [label|] eqn:Hl; [|discriminate Hd].
  cbn [option_map] in Hd. injection Hd as Hd.
  exists i, label, v. repeat split; assumption.
Qed.

Lemma ahr_rows_pair_by_position_example :
  exists table,
    fetch_ahr_timeseries python (page ahr_two_days) = Ok table /\
    map ahr_date table = [mkdate 2024 1 1; mkdate 2024 1 2] /\
    Forall (fun r => isnan (ahr r) = false) table.
Proof.
  eexists. split; [vm_compute; reflexivity|]. split; [reflexivity|].
  match goal with
  | |- Forall _ ?t =>
      destruct (ahr_rows_pair_by_position python (page ahr_two_days) t)
        as (html & raw_values & raw_labels & _ & _ & _ & H);
        [vm_compute; reflexivity|]
  end.
  apply Forall_forall. intros r Hr. apply (H r Hr).
Defined.

(** * Further properties of the ETF daily flows *)

Lemma pattern_needs_pipe (line g : string) :
  date_pattern_match line = Some g -> exists r, line = String "|" r.
Proof.
  destruct line as [|c r]; [discriminate|].
  destruct c as [[] [] [] [] [] [] [] []]; try discriminate.
  intros _. exists r. reflexivity.
Qed.

(** A line at the head of which the pattern finds a date passes the test
    on its first character. *)
Lemma pattern_implies_pipe_test (line g : string) :
  date_pattern_match line = Some g -> startswith "|" (strip line) = true.
Proof.
  intros H. destruct (pattern_needs_pipe line g H) as [r ->].
  unfold strip, strip_by.
  change (lstrip_by isspace (String "|" r)) with (String "|" r).
  rewrite rstrip_by_cons_keep by reflexivity.
  unfold startswith. cbn [String.prefix].
  destruct (ascii_dec "|" "|"); [apply prefix_nil|congruence].
Qed.

Lemma split_nonempty (sep : ascii) (s : string) : split sep s <> [].
Proof.
  induction s as [|c r IH]; [discriminate|]. cbn [split].
  destruct (Ascii.eqb c sep); [discriminate|].
  destruct (split sep r); [contradiction|discriminate].
Qed.

Lemma rev_last {A : Type} (d : A) (l : list A) :
  l <> [] -> exists t, rev l = last l d :: t.
Proof.
  intros Hn. pose proof (app_removelast_last d Hn) as H.
  exists (rev (removelast l)).
  transitivity (rev (removelast l ++ [last l d])%list); [f_equal; exact H|].
  apply rev_app_distr.
Qed.

(** A line always has a last cell. *)
Lemma rev_pipe_parts (line : string) :
  exists t, rev (pipe_parts line) = last_part line :: t.
Proof.
  apply rev_last. unfold pipe_parts. intros H. apply map_eq_nil in H.
  exact (split_nonempty _ _ H).
Qed.

Lemma flow_scan_rows (lines : list string) (rows : list (string * float)) :
  flow_scan lines = Ok rows ->
  Forall2 (fun line row =>
             date_pattern_match line = Some (fst row) /\
             _to_number (last_part line) = Ok (snd row))
          (dated_lines lines) rows.
Proof.
  revert rows. induction lines as [|line rest IH]; intros rows H.
  - injection H as <-. constructor.
  - cbn [flow_scan] in H. unfold dated_lines. cbn [filter].
    destruct (date_pattern_match line) as [g|] eqn:Eg.
    + rewrite (pattern_implies_pipe_test line g Eg) in H. cbn [negb] in H.
      destruct (rev_pipe_parts line) as [t Ht]. rewrite Ht in H.
      destruct (_to_number (last_part line)) as [value|e] eqn:Ev; [|discriminate H].
      cbn [bind] in H.
      destruct (flow_scan rest) as [more|e]; [|discriminate H].
      cbn [bind] in H. injection H as <-.
      constructor; [split; [exact Eg|exact Ev]|apply IH; reflexivity].
    + assert (Hr : flow_scan rest = Ok rows) by (destruct (negb _); exact H).
      apply IH, Hr.
Qed.

Lemma flow_scan_dates (lines : list string) (rows : list (string * float)) :
  flow_scan lines = Ok rows -> map fst rows = matched_dates lines.
Proof.
  intros H. apply flow_scan_rows in H. unfold dated_lines in H.
  revert rows H. induction lines as [|line rest IH]; intros rows H.
  - inversion H. reflexivity.
  - cbn [filter matched_dates] in *.
    destruct (date_pattern_match line) as [g|] eqn:Eg.
    + inversion H as [|? row ? more [Hg _] Hrest]; subst.
      cbn [map]. rewrite Eg in Hg. injection Hg as Hg.
      rewrite <- Hg, (IH more Hrest). reflexivity.
    + apply IH, H.
Qed.

Lemma flow_dated_dates (rt : runtime) (rows : list (string * float)) :
  map date_str (flow_dated rt rows) = filter (date_parses rt) (map fst rows).
Proof.
  induction rows as [|[g v] rest IH]; [reflexivity|].
  cbn [flow_dated map filter fst]. unfold date_parses at 1.
  destruct (to_datetime rt "%d %b %Y" g); cbn [map]; rewrite IH; reflexivity.
Qed.

Lemma flow_dated_rows (rt : runtime) (rows : list (string * float)) (r : flow_row) :
  In r (flow_dated rt rows) ->
  In (date_str r, total_flow r) rows /\
  to_datetime rt "%d %b %Y" (date_str r) = Some (flow_date r).
Proof.
  induction rows as [|[g v] rest IH]; intros Hin; [contradiction|].
  cbn [flow_dated] in Hin.
  destruct (to_datetime rt "%d %b %Y" g) as [d|] eqn:Ed.
  - destruct Hin as [<-|Hin].
    + split; [left; reflexivity|exact Ed].
    + destruct (IH Hin) as [H1 H2]. split; [right; exact H1|exact H2].
  - destruct (IH Hin) as [H1 H2]. split; [right; exact H1|exact H2].
Qed.

Lemma Forall2_In_right {A B : Type} (R : A -> B -> Prop) (l : list A)
  (l' : list B) (b : B) :
  Forall2 R l l' -> In b l' -> exists a, In a l /\ R a b.
Proof.
  intros H. induction H as [|x y r r' Hxy _ IH]; intros Hin; [contradiction|].
  destruct Hin as [->|Hin].
  - exists x. split; [left; reflexivity|exact Hxy].
  - destruct (IH Hin) as (a & Ha & Hab). exists a. split; [right; exact Ha|exact Hab].
Qed.

(** X14: every row of a table of daily flows comes from a line of the text: the
    pattern finds the date text of the row at the head of the line, the
    flow is what the normalizer makes of the last cell of the line, and the
    date is the one read from the date text. The date texts of the table
    are those of the dated lines whose date can be read, each as many times
    as it occurs; no row is left out because of its flow. *)
Theorem flow_rows_come_from_lines (rt : runtime) (text : string)
  (table : list flow_row) :
  _parse_farside_daily_flows rt text = Ok table ->
  (forall r, In r table ->
     exists line,
       In line (splitlines text) /\
       date_pattern_match line = Some (date_str r) /\
       _to_number (last_part line) = Ok (total_flow r) /\
       to_datetime rt "%d %b %Y" (date_str r) = Some (flow_date r)) /\
  Permutation (map date_str table)
    (filter (date_parses rt) (matched_dates (splitlines text))).
Proof.
  intros H. unfold _parse_farside_daily_flows in H.
  destruct (flow_scan (splitlines text)) as [rows|e] eqn:Es; [|discriminate H].
  cbn [bind] in H. destruct rows as [|row rows]; [discriminate H|].
  cbv beta iota in H.
  remember (Frame.sort_values date_leb flow_date (flow_dated rt (row :: rows)))
    as sorted eqn:Hs.
  assert (Hperm : Permutation sorted (flow_dated rt (row :: rows)))
    by (subst sorted; apply sort_values_perm).
  clear Hs. injection H as <-. split.
  - intros r Hr. apply (Permutation_in _ Hperm) in Hr.
    destruct (flow_dated_rows rt _ r Hr) as [Hin Hd].
    destruct (Forall2_In_right _ _ _ _ (flow_scan_rows _ _ Es) Hin)
      as (line & Hl & Hg & Hv).
    exists line. unfold dated_lines in Hl. apply filter_In in Hl.
    split; [apply Hl|]. split; [exact Hg|]. split; [exact Hv|exact Hd].
  - rewrite <- (flow_scan_dates _ _ Es), <- flow_dated_dates.
    apply Permutation_map, Hperm.
Qed.

Lemma flow_rows_come_from_lines_example :
  exists table,
    _parse_farside_daily_flows python repeated_day_text = Ok table /\
    Permutation (map date_str table) ["02 Jan 2024"; "01 Jan 2024"; "02 Jan 2024"].
Proof.
  eexists. split; [vm_compute; reflexivity|].
  match goal with
  | |- Permutation (map date_str ?t) _ =>
      destruct (flow_rows_come_from_lines python repeated_day_text t) as [_ H];
        [vm_compute; reflexivity|]
  end.
  exact H.
Defined.

Lemma flows_without_dated_line_example :
  (forall line, In line (splitlines ("Date | Total" ++ newline ++ "| n/a | 5 |")) ->
                date_pattern_match line = None) /\
  _parse_farside_daily_flows python ("Date | Total" ++ newline ++ "| n/a | 5 |") =
  Raise (DataFetchError "No daily ETF flow rows found in Farside table").
Proof.
  assert (H : forall line,
             In line (splitlines ("Date | Total" ++ newline ++ "| n/a | 5 |")) ->
             date_pattern_match line = None).
  { intros line [<-|[<-|[]]]; reflexivity. }
  split; [exact H|].
  apply flows_without_dated_line_raise, H.
Defined.

(** ** The date pattern *)

Lemma lstrip_by_split (p : ascii -> bool) (s : string) :
  exists ws, all_chars p ws = true /\ s = ws ++ lstrip_by p s.
Proof.
  induction s as [|c r (ws & Hws & Hr)].
  - exists EmptyString. split; reflexivity.
  - cbn [lstrip_by]. destruct (p c) eqn:E.
    + exists (String c ws). split.
      * cbn [all_chars]. rewrite E, Hws. reflexivity.
      * cbn [append]. rewrite <- Hr. reflexivity.
    + exists EmptyString. split; reflexivity.
Qed.

Lemma lstrip_by_app_all (p : ascii -> bool) (ws s : string) :
  all_chars p ws = true -> lstrip_by p (ws ++ s) = lstrip_by p s.
Proof.
  induction ws as [|c r IH]; intros H; [reflexivity|].
  cbn [all_chars] in H. apply andb_true_iff in H. destruct H as [Hc Hr].
  cbn [append lstrip_by]. rewrite Hc. apply IH, Hr.
Qed.

Lemma take_drop (n : nat) (s : string) : take n s ++ drop n s = s.
Proof.
  revert s. induction n as [|n IH]; intros s; [reflexivity|].
  destruct s as [|c r]; [reflexivity|]. cbn [take drop append]. rewrite IH. reflexivity.
Qed.

Lemma take_take (n : nat) (s : string) : take n (take n s) = take n s.
Proof.
  revert s. induction n as [|n IH]; intros s; [reflexivity|].
  destruct s as [|c r]; [reflexivity|]. cbn [take]. rewrite IH. reflexivity.
Qed.

Lemma date_group_parts (s g rest : string) :
  date_group s = Some (g, rest) -> g = take 11 s /\ rest = drop 11 s.
Proof.
  unfold date_group. intros H.
  destruct (list_ascii_of_string (take 11 s))
    as [|d1 [|d2 [|s1 [|a1 [|a2 [|a3 [|s2 [|y1 [|y2 [|y3 [|y4 [|x l]]]]]]]]]]]];
    try discriminate H.
  destruct (_ && _); [|discriminate H]. injection H as <- <-. split; reflexivity.
Qed.

Lemma pipe_cases (s : string) (A : Type) (x y z : A) :
  match s with
  | String "|" _ => x
  | _ => y
  end = z ->
  z <> y -> exists t, s = String "|" t.
Proof.
  destruct s as [|c t]; [intros H Hn; elim Hn; symmetry; exact H|].
  destruct c as [[] [] [] [] [] [] [] []]; intros H Hn;
    try (elim Hn; symmetry; exact H).
  exists t. reflexivity.
Qed.

Lemma drop_take (n : nat) (s : string) : drop n (take n s) = EmptyString.
Proof.
  revert s. induction n as [|n IH]; intros s; [reflexivity|].
  destruct s as [|c r]; [reflexivity|]. cbn [take drop]. apply IH.
Qed.

Lemma date_group_text (s g rest : string) :
  date_group s = Some (g, rest) -> date_text g = true.
Proof.
  intros H. destruct (date_group_parts s g rest H) as [-> _].
  unfold date_text. unfold date_group in H |- *. rewrite take_take.
  destruct (list_ascii_of_string (take 11 s))
    as [|d1 [|d2 [|s1 [|a1 [|a2 [|a3 [|s2 [|y1 [|y2 [|y3 [|y4 [|x l]]]]]]]]]]]];
    try discriminate H.
  destruct (_ && _); [|discriminate H]. rewrite drop_take. reflexivity.
Qed.

Lemma date_text_group (g rest : string) :
  date_text g = true ->
  date_group (g ++ rest) = Some (g, rest) /\
  lstrip_by isspace (g ++ rest) = g ++ rest.
Proof.
  unfold date_text, date_group. intros H.
  destruct g as [|c1 [|c2 [|c3 [|c4 [|c5 [|c6 [|c7 [|c8 [|c9 [|c10 [|c11 g']]]]]]]]]]];
    cbn [take drop list_ascii_of_string append] in H |- *; try discriminate H.
  destruct (is_ascii_digit c1 && is_ascii_digit c2 && Ascii.eqb c3 " " &&
            is_ascii_alpha c4 && is_ascii_alpha c5 && is_ascii_alpha c6 &&
            Ascii.eqb c7 " " && is_ascii_digit c8 && is_ascii_digit c9 &&
            is_ascii_digit c10 && is_ascii_digit c11) eqn:Ec; [|discriminate H].
  destruct g' as [|x g']; [|discriminate H]. cbn [append].
  split; [reflexivity|].
  assert (Hd1 : is_ascii_digit c1 = true)
    by (destruct (is_ascii_digit c1); [reflexivity|discriminate Ec]).
  cbn [lstrip_by]. rewrite (digit_not_space c1 Hd1). reflexivity.
Qed.

(** X16: the pattern finds the date [g] at the head of a line exactly when [g]
    has the form [DD Mon YYYY] and the line is a pipe, white space, [g],
    white space, a pipe, and anything after it. *)
Theorem date_pattern_shape (line g : string) :
  date_pattern_match line = Some g <->
  date_text g = true /\
  exists ws1 ws2 tail,
    all_chars isspace ws1 = true /\ all_chars isspace ws2 = true /\
    line = "|" ++ ws1 ++ g ++ ws2 ++ "|" ++ tail.
Proof.
  split.
  - intros H. destruct (pattern_needs_pipe line g H) as [r ->].
    unfold date_pattern_match in H. cbv iota beta in H.
    destruct (date_group (lstrip_by isspace r)) as [[g' rest]|] eqn:Eg;
      [|discriminate H].
    destruct (pipe_cases (lstrip_by isspace rest) _ (Some g') None (Some g) H)
      as [t Ht]; [discriminate|].
    rewrite Ht in H. injection H as ->.
    destruct (date_group_parts _ _ _ Eg) as [Hg Hrest].
    split; [exact (date_group_text _ _ _ Eg)|].
    destruct (lstrip_by_split isspace r) as (ws1 & Hws1 & Hr).
    destruct (lstrip_by_split isspace rest) as (ws2 & Hws2 & Hrest').
    exists ws1, ws2, t. split; [exact Hws1|]. split; [exact Hws2|].
    cbn [append]. f_equal. rewrite Hr at 1. f_equal.
    rewrite <- (take_drop 11 (lstrip_by isspace r)) at 1.
    rewrite <- Hg, <- Hrest. f_equal. rewrite Hrest' at 1. rewrite Ht. reflexivity.
  - intros (Ht & ws1 & ws2 & tail & Hws1 & Hws2 & ->).
    cbn [append]. unfold date_pattern_match. cbv iota beta.
    rewrite (lstrip_by_app_all isspace ws1 _ Hws1).
    destruct (date_text_group g (ws2 ++ String "|" tail) Ht) as [Hg Hl].
    rewrite Hl, Hg. rewrite (lstrip_by_app_all isspace ws2 _ Hws2).
    reflexivity.
Qed.

Lemma date_pattern_shape_example :
  date_pattern_match "|  03 Feb 2025 | 1.5 | (2.0) |" = Some "03 Feb 2025".
Proof.
  apply (proj2 (date_pattern_shape _ _)). split; [reflexivity|].
  exists "  ", " ", " 1.5 | (2.0) |". repeat split; reflexivity.
Defined.

(** * Further properties of the treasury tables *)

Section TreasurySources.
Variable sp : treasury_source.
Hypothesis known : In sp treasury_sources.

(** Each fetcher is the shared scheme at its own constants. *)
Lemma treasury_fetch_scheme (www : web) (top_n : Z) :
  ts_fetch sp www top_n =
  (text <- _get_text www (ts_url sp) ;;
   match collect (ts_keep sp) (splitlines text) with
   | [] => Raise (DataFetchError (ts_empty sp))
   | rows => ranked (ts_column sp) top_n rows
   end).
Proof.
  destruct known as [<-|[<-|[<-|[]]]]; reflexivity.
Qed.

Lemma treasury_fetch_ranked (www : web) (top_n : Z) (table : list treasury_row) :
  ts_fetch sp www top_n = Ok table ->
  usable_rows sp www <> [] /\
  ranked (ts_column sp) top_n (usable_rows sp www) = Ok table.
Proof.
  rewrite treasury_fetch_scheme. unfold usable_rows.
  destruct (_get_text www (ts_url sp)) as [text|e]; [|discriminate].
  cbn [bind]. destruct (collect (ts_keep sp) (splitlines text)) as [|row rows];
    [discriminate|].
  intros H. split; [discriminate|exact H].
Qed.

Lemma treasury_kept_line (line : string) (row : list string) :
  ts_keep sp line = Some row ->
  startswith "|" line = true /\
  List.length row = ts_width sp /\
  ~ In (hd EmptyString row) (ts_headers sp).
Proof.
  destruct known as [<-|[<-|[<-|[]]]];
    cbn [ts_keep ts_width ts_headers btc_source eth_source sol_source].
  - unfold btc_line. destruct (startswith "|" line); [|discriminate].
    cbn [negb]. destruct (List.length (pipe_parts line) <? 9)%nat eqn:El;
      [discriminate|].
    cbn [orb]. destruct (String.eqb (hd EmptyString (pipe_parts line)) "Ticker") eqn:E1;
      [discriminate|].
    destruct (String.eqb (hd EmptyString (pipe_parts line)) EmptyString) eqn:E2;
      [discriminate|].
    cbn [orb]. intros H. injection H as <-.
    apply Nat.ltb_ge in El. split; [reflexivity|]. split.
    + exact (firstn_length_le (pipe_parts line) El).
    + destruct (pipe_parts line) as [|p ps]; [cbn in El; lia|].
      cbn [firstn hd In] in *. apply String.eqb_neq in E1, E2.
      intros [H|[H|[]]]; [apply E1|apply E2]; symmetry; exact H.
  - unfold eth_line. destruct (startswith "|" line); [|discriminate].
    cbn [negb]. destruct (List.length (pipe_parts line) <? 8)%nat eqn:El;
      [discriminate|].
    cbn [orb]. destruct (String.eqb (hd EmptyString (pipe_parts line)) "Company Name") eqn:E1;
      [discriminate|].
    intros H. injection H as <-.
    apply Nat.ltb_ge in El. split; [reflexivity|]. split.
    + exact (firstn_length_le (pipe_parts line) El).
    + destruct (pipe_parts line) as [|p ps]; [cbn in El; lia|].
      cbn [firstn hd In] in *. apply String.eqb_neq in E1.
      intros [H|[]]. apply E1. symmetry. exact H.
  - unfold sol_line. destruct (startswith "|" line); [|discriminate].
    cbn [negb]. destruct (List.length (pipe_parts line) <? 8)%nat; [discriminate|].
    cbn [orb]. destruct (String.eqb (hd EmptyString (pipe_parts line)) "Company");
      [discriminate|].
    set (parts := if isdigit (hd EmptyString (pipe_parts line))
                  then tl (pipe_parts line) else pipe_parts line).
    destruct (List.length parts <? 7)%nat eqn:El; [discriminate|].
    intros H. injection H as <-. apply Nat.ltb_ge in El.
    split; [reflexivity|]. split; [exact (firstn_length_le parts El)|intros []].
Qed.

(** The cells of a kept line are the first cells of the line, after the
    rank number on the SOL page when the line has one. *)
Lemma treasury_kept_cells (line : string) (row : list string) :
  ts_keep sp line = Some row ->
  row = firstn (ts_width sp) (pipe_parts line) \/
  (sp = sol_source /\ isdigit (hd EmptyString (pipe_parts line)) = true /\
   row = firstn (ts_width sp) (tl (pipe_parts line))).
Proof.
  destruct known as [<-|[<-|[<-|[]]]];
    cbn [ts_keep ts_width btc_source eth_source sol_source].
  - unfold btc_line. destruct (negb (startswith "|" line)); [discriminate|].
    destruct (_ || _); [discriminate|].
    remember (firstn 9 (pipe_parts line)) as kept. intros H. injection H as <-.
    left. reflexivity.
  - unfold eth_line. destruct (negb (startswith "|" line)); [discriminate|].
    destruct (_ || _); [discriminate|].
    remember (firstn 8 (pipe_parts line)) as kept. intros H. injection H as <-.
    left. reflexivity.
  - unfold sol_line. destruct (negb (startswith "|" line)); [discriminate|].
    destruct (_ || _); [discriminate|].
    destruct (isdigit (hd EmptyString (pipe_parts line))).
    + destruct (List.length (tl (pipe_parts line)) <? 7)%nat; [discriminate|].
      remember (firstn 7 (tl (pipe_parts line))) as kept. intros H. injection H as <-.
      right. split; [reflexivity|]. split; reflexivity.
    + destruct (List.length (pipe_parts line) <? 7)%nat; [discriminate|].
      remember (firstn 7 (pipe_parts line)) as kept. intros H. injection H as <-.
      left. reflexivity.
Qed.

End TreasurySources.

Lemma collect_in (keep : string -> option (list string)) (lines : list string)
  (row : list string) :
  In row (collect keep lines) -> exists line, In line lines /\ keep line = Some row.
Proof.
  induction lines as [|line rest IH]; intros Hin; [contradiction|].
  cbn [collect] in Hin. destruct (keep line) as [row'|] eqn:Ek.
  - destruct Hin as [->|Hin].
    + exists line. split; [left; reflexivity|exact Ek].
    + destruct (IH Hin) as (l & Hl & Hk). exists l. split; [right; exact Hl|exact Hk].
  - destruct (IH Hin) as (l & Hl & Hk). exists l. split; [right; exact Hl|exact Hk].
Qed.

Lemma decode_column_rows (column : nat) (rows : list (list string))
  (df : list treasury_row) :
  decode_column column rows = Ok df ->
  Forall2 (fun row r => cells r = row /\
                        _to_number (nth column row EmptyString) = Ok (held r))
          rows df.
Proof.
  revert df. induction rows as [|row rest IH]; intros df H.
  - injection H as <-. constructor.
  - cbn [decode_column] in H.
    destruct (_to_number (nth column row EmptyString)) as [x|e] eqn:Ex; [|discriminate H].
    cbn [bind] in H. destruct (decode_column column rest) as [more|e]; [|discriminate H].
    cbn [bind] in H. injection H as <-.
    constructor; [split; [reflexivity|exact Ex]|apply IH; reflexivity].
Qed.

Lemma filter_split_perm {A : Type} (p : A -> bool) (l : list A) :
  Permutation (filter (fun a => negb (p a)) l ++ filter p l)%list l.
Proof.
  induction l as [|x r IH]; [apply perm_nil|]. cbn [filter].
  destruct (p x); cbn [negb].
  - apply Permutation_sym, Permutation_cons_app, Permutation_sym, IH.
  - cbn [app]. apply perm_skip, IH.
Qed.

Lemma sort_values_desc_perm {A : Type} (key : A -> float) (df : list A) :
  Permutation (Frame.sort_values_desc key df) df.
Proof.
  unfold Frame.sort_values_desc.
  apply perm_trans with
    (filter (fun a => negb (isnan (key a))) df ++ filter (fun a => isnan (key a)) df)%list.
  - apply Permutation_app_tail, sort_perm.
  - apply (filter_split_perm (fun a => isnan (key a))).
Qed.

Lemma head_firstn {A : Type} (n : Z) (l : list A) :
  (0 <= n)%Z -> Frame.head n l = firstn (Z.to_nat n) l.
Proof. intros H. destruct n; try reflexivity. lia. Qed.

Lemma firstn_in {A : Type} (k : nat) (l : list A) (x : A) :
  In x (firstn k l) -> In x l.
Proof.
  intros H. rewrite <- (firstn_skipn k l). apply in_or_app. left. exact H.
Qed.

Lemma head_incl {A : Type} (n : Z) (l : list A) (x : A) :
  In x (Frame.head n l) -> In x l.
Proof. unfold Frame.head. destruct n; apply firstn_in. Qed.

Lemma ranked_rows (column : nat) (top_n : Z) (rows : list (list string))
  (table : list treasury_row) (r : treasury_row) :
  ranked column top_n rows = Ok table -> In r table ->
  In (cells r) rows /\ _to_number (nth column (cells r) EmptyString) = Ok (held r).
Proof.
  unfold ranked. intros H Hr.
  destruct (decode_column column rows) as [df|e] eqn:Ed; [|discriminate H].
  cbn [bind] in H. injection H as <-.
  apply head_incl in Hr. apply (Permutation_in _ (sort_values_desc_perm held df)) in Hr.
  destruct (Forall2_In_right _ _ _ _ (decode_column_rows _ _ _ Ed) Hr)
    as (row & Hrow & Hc & Hv).
  rewrite Hc. split; [exact Hrow|exact Hv].
Qed.

(** X17: every row of a treasury table comes from a line of the page that
    begins with a pipe: its cells are what the line reader of the source
    keeps of that line, the first cells of the line (9 for BTC, 8 for ETH,
    7 for SOL), taken after the rank number on the SOL page when the line
    starts with one. The first cell is none of the header marks of the
    source, and the holding amount is what the normalizer makes of the cell
    of the holding column. *)
Theorem treasury_rows_shape (sp : treasury_source) (www : web) (top_n : Z)
  (table : list treasury_row) :
  In sp treasury_sources -> ts_fetch sp www top_n = Ok table ->
  forall r, In r table ->
    List.length (cells r) = ts_width sp /\
    ~ In (hd EmptyString (cells r)) (ts_headers sp) /\
    _to_number (nth (ts_column sp) (cells r) EmptyString) = Ok (held r) /\
    exists text line,
      _get_text www (ts_url sp) = Ok text /\ In line (splitlines text) /\
      startswith "|" line = true /\
      ts_keep sp line = Some (cells r) /\
      (cells r = firstn (ts_width sp) (pipe_parts line) \/
       (sp = sol_source /\ isdigit (hd EmptyString (pipe_parts line)) = true /\
        cells r = firstn (ts_width sp) (tl (pipe_parts line)))).
Proof.
  intros Hsp H r Hr.
  destruct (treasury_fetch_ranked sp Hsp www top_n table H) as [_ Hrk].
  destruct (ranked_rows _ _ _ _ r Hrk Hr) as [Hin Hv].
  unfold usable_rows in Hin.
  destruct (_get_text www (ts_url sp)) as [text|e]; [|contradiction].
  destruct (collect_in _ _ _ Hin) as (line & Hl & Hk).
  destruct (treasury_kept_line sp Hsp line _ Hk) as (Hp & Hw & Hh).
  split; [exact Hw|]. split; [exact Hh|]. split; [exact Hv|].
  exists text, line. split; [reflexivity|]. split; [exact Hl|].
  split; [exact Hp|]. split; [exact Hk|].
  exact (treasury_kept_cells sp Hsp line _ Hk).
Qed.

Lemma treasury_rows_shape_example :
  exists table,
    fetch_btc_treasury_holdings btc_treasury_tie 2 = Ok table /\
    Forall (fun r => List.length (cells r) = 9%nat /\
                     hd EmptyString (cells r) <> "Ticker" /\
                     exists line,
                       cells r = firstn 9 (pipe_parts line) /\
                       btc_line line = Some (cells r)) table.
Proof.
  eexists. split; [vm_compute; reflexivity|].
  apply Forall_forall. intros r Hr.
  match type of Hr with
  | In r ?t =>
      destruct (treasury_rows_shape btc_source btc_treasury_tie 2 t
                  (or_introl eq_refl)) with (r := r)
        as (Hw & Hh & _ & text & line & _ & _ & _ & Hk & Hc);
        [vm_compute; reflexivity|exact Hr|]
  end.
  split; [exact Hw|]. split.
  - intros Heq. apply Hh. left. symmetry. exact Heq.
  - exists line. split; [|exact Hk].
    destruct Hc as [Hc|(Hs & _)]; [exact Hc|discriminate Hs].
Defined.

Lemma ranked_sorted (column : nat) (top_n : Z) (rows : list (list string))
  (table : list treasury_row) :
  (0 <= top_n)%Z -> ranked column top_n rows = Ok table ->
  exists df,
    decode_column column rows = Ok df /\
    List.length df = List.length rows /\
    table = firstn (Z.to_nat top_n) (Frame.sort_values_desc held df).
Proof.
  unfold ranked. intros Hn H.
  destruct (decode_column column rows) as [df|e] eqn:Ed; [|discriminate H].
  cbn [bind] in H. rewrite (head_firstn _ _ Hn) in H. injection H as <-.
  exists df. split; [reflexivity|]. split; [|reflexivity].
  symmetry. exact (Forall2_length (decode_column_rows _ _ _ Ed)).
Qed.

(** X18: for a top-N that is not negative, a treasury table has top-N rows, or
    as many as the page has usable lines when these are fewer; the page has
    one usable line at least, so that the table is not empty for a positive
    top-N. *)
Theorem treasury_table_length (sp : treasury_source) (www : web) (top_n : Z)
  (table : list treasury_row) :
  In sp treasury_sources -> (0 <= top_n)%Z ->
  ts_fetch sp www top_n = Ok table ->
  List.length table = Nat.min (Z.to_nat top_n) (List.length (usable_rows sp www)) /\
  usable_rows sp www <> [] /\
  ((0 < top_n)%Z -> table <> []).
Proof.
  intros Hsp Hn H.
  destruct (treasury_fetch_ranked sp Hsp www top_n table H) as [Hne Hrk].
  destruct (ranked_sorted _ _ _ _ Hn Hrk) as (df & _ & Hl & ->).
  assert (Hlen : List.length (firstn (Z.to_nat top_n) (Frame.sort_values_desc held df)) =
                 Nat.min (Z.to_nat top_n) (List.length (usable_rows sp www))).
  { rewrite length_firstn, (Permutation_length (sort_values_desc_perm held df)), Hl.
    reflexivity. }
  split; [exact Hlen|]. split; [exact Hne|].
  intros Hpos Hnil. rewrite Hnil in Hlen. cbn [List.length] in Hlen.
  destruct (usable_rows sp www) as [|row rows]; [contradiction|].
  cbn [List.length] in Hlen. lia.
Qed.

Lemma treasury_table_length_example :
  exists table,
    fetch_btc_treasury_holdings btc_treasury_tie 3 = Ok table /\
    List.length table = 3%nat /\ List.length (usable_rows btc_source btc_treasury_tie) = 4%nat.
Proof.
  eexists. split; [vm_compute; reflexivity|].
  split; [|vm_compute; reflexivity].
  match goal with
  | |- List.length ?t = _ =>
      destruct (treasury_table_length btc_source btc_treasury_tie 3 t
                  (or_introl eq_refl)) as (Hl & _); [lia|vm_compute; reflexivity|]
  end.
  rewrite Hl. vm_compute. reflexivity.
Defined.

(** ** The rows kept are the largest *)

Ltac split_compares :=
  repeat match goal with
         | |- context [Z.compare ?a ?b] => destruct (Z.compare_spec a b)
         | |- context [Pos.compare_cont Eq ?a ?b] =>
             change (Pos.compare_cont Eq a b) with (Pos.compare a b);
             destruct (Pos.compare_spec a b)
         end.

Lemma SFleb_trans (x y z : float) :
  SFleb x y = true -> SFleb y z = true -> SFleb x z = true.
Proof.
  unfold SFleb.
  destruct x as [sx|sx| |sx mx ex], y as [sy|sy| |sy my ey], z as [sz|sz| |sz mz ez];
    cbn [SFcompare]; try discriminate; try reflexivity;
    try (destruct sx; try discriminate; try reflexivity);
    try (destruct sy; try discriminate; try reflexivity);
    try (destruct sz; try discriminate; try reflexivity);
    split_compares; cbn [CompOpp]; try discriminate; try reflexivity;
    intros; try lia.
Qed.

Lemma before_desc_trans (a b c : float) :
  before_desc false a b = true -> before_desc false b c = true ->
  before_desc false a c = true.
Proof.
  unfold before_desc. destruct (isnan c); [reflexivity|].
  destruct (isnan b); [discriminate|]. destruct (isnan a); [discriminate|].
  intros Hba Hcb. exact (SFleb_trans c b a Hcb Hba).
Qed.

Lemma chain_head_all {A : Type} (R : A -> A -> bool) (x : A) (l : list A) :
  (forall a b c, R a b = true -> R b c = true -> R a c = true) ->
  Frame.chain R (x :: l) = true -> forall y, In y l -> R x y = true.
Proof.
  intros Htrans. revert x. induction l as [|z r IH]; intros x Hc y Hy; [contradiction|].
  rewrite chain_cons2 in Hc. apply andb_true_iff in Hc. destruct Hc as [Hxz Hc].
  destruct Hy as [<-|Hy]; [exact Hxz|].
  apply (Htrans x z y Hxz). apply IH; assumption.
Qed.

Lemma chain_split {A : Type} (R : A -> A -> bool) (k : nat) (l : list A) :
  (forall a b c, R a b = true -> R b c = true -> R a c = true) ->
  Frame.chain R l = true ->
  forall a b, In a (firstn k l) -> In b (skipn k l) -> R a b = true.
Proof.
  intros Htrans. revert k. induction l as [|x r IH]; intros k Hc a b Ha Hb.
  - destruct k; contradiction.
  - destruct k as [|k]; [contradiction|]. cbn [firstn skipn] in Ha, Hb.
    destruct Ha as [<-|Ha].
    + apply (chain_head_all R x r Htrans Hc).
      rewrite <- (firstn_skipn k r). apply in_or_app. right. exact Hb.
    + apply (IH k (chain_tail _ _ _ Hc) a b Ha Hb).
Qed.

(** X19: the tables of one source for two sizes are nested: the smaller is the
    head of the larger, and each of its rows ranks at or above every row
    that only the larger has (a number not below the other, or any amount
    against a missing one). *)
Theorem treasury_top_rows_nested (sp : treasury_source) (www : web) (n m : Z)
  (small large : list treasury_row) :
  In sp treasury_sources -> (0 <= n <= m)%Z ->
  ts_fetch sp www n = Ok small -> ts_fetch sp www m = Ok large ->
  small = firstn (Z.to_nat n) large /\
  forall a b, In a small -> In b (skipn (Z.to_nat n) large) ->
    before_desc false (held a) (held b) = true.
Proof.
  intros Hsp [Hn Hnm] Hs Hl.
  destruct (treasury_fetch_ranked sp Hsp www n small Hs) as [_ Hrs].
  destruct (treasury_fetch_ranked sp Hsp www m large Hl) as [_ Hrl].
  destruct (ranked_sorted _ _ _ _ Hn Hrs) as (df & Hd & _ & ->).
  destruct (ranked_sorted _ _ _ _ (Z.le_trans _ _ _ Hn Hnm) Hrl) as (df' & Hd' & _ & ->).
  rewrite Hd in Hd'. injection Hd' as <-.
  set (sorted := Frame.sort_values_desc held df).
  assert (Hmin : Nat.min (Z.to_nat n) (Z.to_nat m) = Z.to_nat n) by lia.
  assert (Hpre : firstn (Z.to_nat n) (firstn (Z.to_nat m) sorted) =
                 firstn (Z.to_nat n) sorted).
  { rewrite firstn_firstn, Hmin. reflexivity. }
  split; [symmetry; exact Hpre|].
  intros a b Ha Hb. rewrite <- Hpre in Ha.
  assert (Hc : Frame.chain (fun x y => before_desc false (held x) (held y))
                 (firstn (Z.to_nat m) sorted) = true).
  { apply chain_firstn. rewrite <- chain_map. apply sort_values_desc_order. }
  apply (chain_split _ (Z.to_nat n) _
           (fun x y z => before_desc_trans (held x) (held y) (held z)) Hc a b Ha Hb).
Qed.

Lemma treasury_top_rows_nested_example :
  exists small large,
    fetch_btc_treasury_holdings btc_treasury_tie 1 = Ok small /\
    fetch_btc_treasury_holdings btc_treasury_tie 4 = Ok large /\
    small = firstn 1 large /\
    map held small = [lit 2.5e9].
Proof.
  eexists. eexists. split; [vm_compute; reflexivity|].
  split; [vm_compute; reflexivity|]. split; [|reflexivity].
  match goal with
  | |- ?s = firstn 1 ?l =>
      apply (treasury_top_rows_nested btc_source btc_treasury_tie 1 4 s l
               (or_introl eq_refl))
  end; [lia|vm_compute; reflexivity|vm_compute; reflexivity].
Defined.

(** * Further edge cases *)

(** X12: the generator has no bound of its own on the number of pages: when
    every page carries a token, no number of requests brings it to an
    end. *)
Theorem pagination_needs_a_last_page (rt : runtime) (www : web) (base_url : string) :
  endless www ->
  forall fuel tok, _paginate_coinmetrics rt www fuel base_url tok = None.
Proof.
  intros He. induction fuel as [|fuel IH]; intros tok; [reflexivity|].
  cbn [_paginate_coinmetrics].
  match goal with
  | |- context [_request_json www ?u] =>
      destruct (He u) as (payload & data & rows & next & Hreq & Hd & Hi & Hn & Ht)
  end.
  rewrite Hreq. cbn [bind]. rewrite Hd. cbn [bind]. rewrite Hi. cbn [bind].
  rewrite Hn, Ht. cbn [negb]. rewrite IH. reflexivity.
Qed.

Lemma pagination_needs_a_last_page_example :
  endless (api (mvrv_payload [] (JStr "again"))) /\
  _paginate_coinmetrics python (api (mvrv_payload [] (JStr "again"))) 50
    (mvrv_base_url day0 day0) None = None /\
  fetch_mvrv_timeseries python (api (mvrv_payload [] (JStr "again"))) 50 day0 day0 = None.
Proof.
  assert (He : endless (api (mvrv_payload [] (JStr "again")))).
  { intros url. exists (mvrv_payload [] (JStr "again")), (JArr []), [], (JStr "again").
    repeat split; reflexivity. }
  split; [exact He|]. split.
  - exact (pagination_needs_a_last_page python _ (mvrv_base_url day0 day0) He 50%nat None).
  - vm_compute. reflexivity.
Defined.

Lemma strip_keeps_pipe (line : string) :
  startswith "|" line = true -> startswith "|" (strip line) = true.
Proof.
  intros H. destruct line as [|c r]; [discriminate H|].
  unfold startswith in H. cbn [String.prefix] in H.
  destruct (ascii_dec "|" c) as [<-|_]; [|discriminate H].
  unfold strip, strip_by.
  change (lstrip_by isspace (String "|" r)) with (String "|" r).
  rewrite rstrip_by_cons_keep by reflexivity.
  unfold startswith. cbn [String.prefix].
  destruct (ascii_dec "|" "|"); [apply prefix_nil|congruence].
Qed.

Lemma collect_none (keep : string -> option (list string)) (lines : list string) :
  (forall line, In line lines -> keep line = None) -> collect keep lines = [].
Proof.
  induction lines as [|line rest IH]; intros H; [reflexivity|].
  cbn [collect]. rewrite (H line (or_introl eq_refl)).
  apply IH. intros l Hl. apply H. right. exact Hl.
Qed.

Lemma flow_scan_no_pipe (lines : list string) :
  (forall line, In line lines -> startswith "|" (strip line) = false) ->
  flow_scan lines = Ok [].
Proof.
  induction lines as [|line rest IH]; intros H; [reflexivity|].
  cbn [flow_scan]. rewrite (H line (or_introl eq_refl)). cbn [negb].
  apply IH. intros l Hl. apply H. right. exact Hl.
Qed.

(** X20: a page that is served with the status 200 and holds neither a line
    that begins with a pipe nor the anchor of the sentiment index makes
    each of the six scraping fetchers raise the fetch error: none returns
    an empty table. *)
Theorem page_without_table_is_fetch_error (rt : runtime) (body : string) :
  without_table body ->
  is_fetch_error (fetch_ahr_timeseries rt (page body)) = true /\
  is_fetch_error (fetch_btc_etf_flows rt (page body)) = true /\
  is_fetch_error (fetch_eth_etf_flows rt (page body)) = true /\
  forall sp top_n, In sp treasury_sources ->
    is_fetch_error (ts_fetch sp (page body) top_n) = true.
Proof.
  intros [Hl Ha].
  assert (Hflow : forall r, _parse_farside_daily_flows r body =
                    Raise (DataFetchError "No daily ETF flow rows found in Farside table")).
  { intros r. unfold _parse_farside_daily_flows.
    rewrite (flow_scan_no_pipe _ Hl). reflexivity. }
  split; [|split; [|split]].
  - unfold fetch_ahr_timeseries.
    change (_get_text (page body) ahr_url) with (Ok body : result string).
    cbn [bind]. unfold ahr_blocks. rewrite Ha. reflexivity.
  - unfold fetch_btc_etf_flows.
    change (_get_text (page body) (_proxied_farside_url "btc"))
      with (Ok body : result string).
    cbn [bind]. rewrite Hflow. reflexivity.
  - unfold fetch_eth_etf_flows.
    change (_get_text (page body) (_proxied_farside_url "eth"))
      with (Ok body : result string).
    cbn [bind]. rewrite Hflow. reflexivity.
  - intros sp top_n Hsp. rewrite (treasury_fetch_scheme sp Hsp).
    change (_get_text (page body) (ts_url sp)) with (Ok body : result string).
    cbn [bind].
    rewrite collect_none; [reflexivity|].
    intros line Hin.
    assert (Hp : startswith "|" line = false).
    { destruct (startswith "|" line) eqn:E; [|reflexivity].
      specialize (Hl line Hin). rewrite (strip_keeps_pipe line E) in Hl.
      discriminate Hl. }
    destruct Hsp as [<-|[<-|[<-|[]]]]; cbn [ts_keep btc_source eth_source sol_source];
      [unfold btc_line|unfold eth_line|unfold sol_line]; rewrite Hp; reflexivity.
Qed.

Lemma page_without_table_example :
  without_table "<html>Just a moment...</html>" /\
  fetch_sol_treasury_holdings (page "<html>Just a moment...</html>") 15 =
  Raise (DataFetchError "No Solana treasury table detected").
Proof.
  assert (H : without_table "<html>Just a moment...</html>").
  { split; [|reflexivity]. intros line [<-|[]]. reflexivity. }
  split; [exact H|].
  destruct (page_without_table_is_fetch_error python _ H) as (_ & _ & _ & Ht).
  specialize (Ht sol_source 15%Z (or_intror (or_intror (or_introl eq_refl)))).
  cbn [ts_fetch sol_source] in Ht.
  destruct (fetch_sol_treasury_holdings _ _) as [t|e] eqn:E; [discriminate Ht|].
  vm_compute in E. injection E as <-. reflexivity.
Defined.

(** * The cells of a table line *)

Lemma split_plain (sep : ascii) (a : string) :
  mem_char sep a = false -> split sep a = [a].
Proof.
  induction a as [|c r IH]; intros H; [reflexivity|].
  cbn [mem_char] in H. apply orb_false_iff in H. destruct H as [Hc Hr].
  cbn [split]. rewrite Ascii.eqb_sym, Hc, (IH Hr). reflexivity.
Qed.

Lemma split_at_sep (sep : ascii) (a b : string) :
  mem_char sep a = false ->
  split sep (a ++ String sep b) = a :: split sep b.
Proof.
  induction a as [|c r IH]; intros H.
  - cbn [append split]. rewrite Ascii.eqb_refl. reflexivity.
  - cbn [mem_char] in H. apply orb_false_iff in H. destruct H as [Hc Hr].
    cbn [append split]. rewrite Ascii.eqb_sym, Hc, (IH Hr). reflexivity.
Qed.

Lemma row_cells_inner (c : string) (rest : list string) :
  row_cells (c :: rest) = row_inner c rest ++ "|".
Proof.
  revert c. induction rest as [|c' rest' IH]; intros c.
  - cbn [row_cells row_inner]. rewrite !append_assoc, append_nil_r. reflexivity.
  - change (row_cells (c :: c' :: rest'))
      with (" " ++ c ++ " |" ++ row_cells (c' :: rest')).
    rewrite (IH c'). cbn [row_inner]. rewrite !append_assoc. reflexivity.
Qed.

Lemma row_inner_ends (c : string) (rest : list string) :
  exists y, row_inner c rest = String " " y ++ " ".
Proof.
  revert c. induction rest as [|c' rest' IH]; intros c.
  - exists c. cbn [row_inner append]. reflexivity.
  - destruct (IH c') as [y Hy]. cbn [row_inner]. rewrite Hy.
    exists (c ++ " |" ++ String " " y). cbn [append].
    rewrite !append_assoc. reflexivity.
Qed.

Lemma strip_padded (c : string) : strip (" " ++ c ++ " ") = strip c.
Proof.
  unfold strip. rewrite (strip_by_app_left isspace " ") by reflexivity.
  apply strip_by_app_right. reflexivity.
Qed.

Lemma split_row_inner (c : string) (rest : list string) :
  Forall plain_cell (c :: rest) ->
  map strip (split "|" (row_inner c rest)) = c :: rest.
Proof.
  revert c. induction rest as [|c' rest' IH]; intros c H;
    inversion H as [|? ? [Hp Hs] Hrest]; subst.
  - cbn [row_inner]. rewrite split_plain.
    + cbn [map]. rewrite strip_padded, Hs. reflexivity.
    + cbn [append mem_char]. rewrite mem_char_app, Hp. reflexivity.
  - cbn [row_inner].
    replace (" " ++ c ++ " |" ++ row_inner c' rest')
      with ((" " ++ c ++ " ") ++ String "|" (row_inner c' rest'))
      by (cbn [append]; rewrite !append_assoc; reflexivity).
    rewrite split_at_sep.
    + cbn [map]. rewrite strip_padded, Hs, (IH c' Hrest). reflexivity.
    + cbn [append mem_char]. rewrite mem_char_app, Hp. reflexivity.
Qed.

Lemma pipe_parts_row (cells : list string) :
  cells <> [] -> Forall plain_cell cells -> pipe_parts (table_row cells) = cells.
Proof.
  intros Hne Hp. destruct cells as [|c rest]; [contradiction|].
  unfold pipe_parts, table_row, strip_chars.
  change ("|" ++ row_cells (c :: rest)) with (String "|" (row_cells (c :: rest))).
  rewrite strip_by_cons_strip by reflexivity.
  rewrite row_cells_inner. rewrite strip_by_snoc_strip by reflexivity.
  destruct (row_inner_ends c rest) as [y Hy].
  assert (Hst : strip_by (fun a => mem_char a "|") (row_inner c rest) =
                row_inner c rest).
  { unfold strip_by. rewrite Hy.
    change (lstrip_by (fun a => mem_char a "|") (String " " y ++ " "))
      with (String " " y ++ " ").
    apply rstrip_by_snoc_keep. reflexivity. }
  rewrite Hst. apply split_row_inner, Hp.
Qed.

Lemma table_row_starts (cells : list string) : startswith "|" (table_row cells) = true.
Proof. unfold startswith, table_row. cbn. apply prefix_nil. Qed.

Lemma firstn_whole {A : Type} (l : list A) (n : nat) :
  List.length l = n -> firstn n l = l.
Proof. intros <-. apply firstn_all. Qed.

(** X21: a table line written with plain cells is read back as these cells: by
    the splitting of a line into cells, by the reader of the flow lines as
    to its last cell, and by the readers of the BTC and ETH treasury lines
    when the cells are as many as the table has columns and the first is no
    header mark. *)
Theorem table_row_read_back (cells : list string) :
  cells <> [] -> Forall plain_cell cells ->
  pipe_parts (table_row cells) = cells /\
  last_part (table_row cells) = last cells EmptyString /\
  forall sp, sp = btc_source \/ sp = eth_source ->
    List.length cells = ts_width sp ->
    ~ In (hd EmptyString cells) (ts_headers sp) ->
    ts_keep sp (table_row cells) = Some cells.
Proof.
  intros Hne Hp. pose proof (pipe_parts_row cells Hne Hp) as Hparts.
  split; [exact Hparts|]. split.
  { unfold last_part. rewrite Hparts. reflexivity. }
  intros sp [-> | ->] Hw Hh;
    cbn [ts_keep ts_width ts_headers btc_source eth_source] in *.
  - unfold btc_line. rewrite table_row_starts, Hparts, Hw. cbn [negb Nat.ltb Nat.leb orb].
    destruct (String.eqb (hd EmptyString cells) "Ticker") eqn:E1.
    { apply String.eqb_eq in E1. exfalso. apply Hh. left. symmetry. exact E1. }
    destruct (String.eqb (hd EmptyString cells) EmptyString) eqn:E2.
    { apply String.eqb_eq in E2. exfalso. apply Hh. right. left. symmetry. exact E2. }
    cbn [orb]. rewrite (firstn_whole cells 9 Hw). reflexivity.
  - unfold eth_line. rewrite table_row_starts, Hparts, Hw. cbn [negb Nat.ltb Nat.leb orb].
    destruct (String.eqb (hd EmptyString cells) "Company Name") eqn:E1.
    { apply String.eqb_eq in E1. exfalso. apply Hh. left. symmetry. exact E1. }
    rewrite (firstn_whole cells 8 Hw). reflexivity.
Qed.

Lemma table_row_read_back_example :
  Forall plain_cell ["MSTR"; "Strategy"; "1,000"] /\
  table_row ["MSTR"; "Strategy"; "1,000"] = "| MSTR | Strategy | 1,000 |" /\
  pipe_parts "| MSTR | Strategy | 1,000 |" = ["MSTR"; "Strategy"; "1,000"].
Proof.
  assert (H : Forall plain_cell ["MSTR"; "Strategy"; "1,000"]).
  { repeat constructor. }
  split; [exact H|]. split; [reflexivity|].
  apply (table_row_read_back ["MSTR"; "Strategy"; "1,000"]);
    [discriminate|exact H].
Defined.

(** ** The rank column of the SOL page *)

Lemma isdigit_char_plain (c : ascii) :
  isdigit_char c = true -> isspace c = false /\ Ascii.eqb "|" c = false.
Proof.
  destruct c as [[] [] [] [] [] [] [] []]; intros H;
    try discriminate H; split; reflexivity.
Qed.

Lemma isdigit_plain (s : string) : isdigit s = true -> plain_cell s.
Proof.
  unfold isdigit. intros H. apply andb_true_iff in H. destruct H as [_ H]. split.
  - apply mem_char_absent. apply (all_chars_weaken isdigit_char); [|exact H].
    intros c Hc. apply negb_true_iff. exact (proj2 (isdigit_char_plain c Hc)).
  - unfold strip. apply strip_by_id. apply (all_chars_weaken isdigit_char); [|exact H].
    intros c Hc. apply negb_true_iff. exact (proj1 (isdigit_char_plain c Hc)).
Qed.

Lemma isdigit_not_company (s : string) :
  isdigit s = true -> String.eqb s "Company" = false.
Proof.
  intros H. apply String.eqb_neq. intros ->. discriminate H.
Qed.

(** X22: a line of the SOL page with eight cells or more whose first is not
    "Company" always gives a row: the second test of the length rejects
    nothing.  A rank number before seven plain cells is dropped and the seven
    cells are the row; the same seven cells without a rank number are passed
    over, the first test asking for eight. *)
Theorem sol_rank_column (rank : string) (cells : list string) :
  Forall plain_cell cells -> List.length cells = 7%nat ->
  isdigit rank = true ->
  sol_line (table_row (rank :: cells)) = Some cells /\
  sol_line (table_row cells) = None /\
  forall line,
    startswith "|" line = true ->
    (8 <= List.length (pipe_parts line))%nat ->
    hd EmptyString (pipe_parts line) <> "Company" ->
    exists row, sol_line line = Some row /\ List.length row = 7%nat.
Proof.
  intros Hp Hl Hr. split; [|split].
  - assert (Hparts : pipe_parts (table_row (rank :: cells)) = rank :: cells).
    { apply pipe_parts_row; [discriminate|].
      constructor; [apply isdigit_plain, Hr|exact Hp]. }
    unfold sol_line. rewrite table_row_starts, Hparts.
    cbn [negb List.length hd tl]. rewrite Hl, (isdigit_not_company rank Hr), Hr.
    cbn [Nat.ltb Nat.leb orb]. rewrite Hl. cbn [Nat.ltb Nat.leb].
    rewrite (firstn_whole cells 7 Hl). reflexivity.
  - assert (Hparts : pipe_parts (table_row cells) = cells).
    { apply pipe_parts_row; [|exact Hp]. intros ->. discriminate Hl. }
    unfold sol_line. rewrite table_row_starts, Hparts, Hl. reflexivity.
  - intros line Hs Hlen Hh. unfold sol_line. rewrite Hs. cbn [negb].
    destruct (List.length (pipe_parts line) <? 8)%nat eqn:E8.
    { apply Nat.ltb_lt in E8. lia. }
    destruct (String.eqb (hd EmptyString (pipe_parts line)) "Company") eqn:Ec.
    { apply String.eqb_eq in Ec. contradiction. }
    cbn [orb].
    set (parts := if isdigit (hd EmptyString (pipe_parts line))
                  then tl (pipe_parts line) else pipe_parts line).
    assert (H7 : (7 <= List.length parts)%nat).
    { unfold parts. destruct (isdigit (hd EmptyString (pipe_parts line))); [|lia].
      destruct (pipe_parts line) as [|p ps]; cbn [List.length tl] in *; lia. }
    destruct (List.length parts <? 7)%nat eqn:E7.
    { apply Nat.ltb_lt in E7. lia. }
    exists (firstn 7 parts). split; [reflexivity|].
    exact (firstn_length_le parts H7).
Qed.

Lemma sol_rank_column_example :
  sol_line "| 1 | Forward | Public | +2% | 6,800,000 | $1B | 1.2% | link |" =
    Some ["Forward"; "Public"; "+2%"; "6,800,000"; "$1B"; "1.2%"; "link"] /\
  sol_line "| Forward | Public | +2% | 6,800,000 | $1B | 1.2% | link |" = None.
Proof.
  destruct (sol_rank_column "1"
              ["Forward"; "Public"; "+2%"; "6,800,000"; "$1B"; "1.2%"; "link"])
    as (H1 & H2 & _); [repeat constructor|reflexivity|reflexivity|].
  split; [exact H1|exact H2].
Defined.

(** ** What a treasury fetcher ends with *)

Lemma to_number_raises_index (value : string) (e : exn) :
  _to_number value = Raise e -> e = IndexError.
Proof.
  unfold _to_number.
  destruct (is_empty (strip value)); [discriminate|].
  destruct (String.eqb (strip value) "-"); [discriminate|]. cbn [orb].
  destruct (clean (strip value)) as [|c r].
  - simpl. intros H. inversion H. reflexivity.
  - assert (Hl : exists d, last_char (String c r) = Some d).
    { clear. revert c. induction r as [|b r IH]; intros c.
      - exists c. reflexivity.
      - destruct (IH b) as [d Hd]. exists d. exact Hd. }
    destruct Hl as [d Hd]. rewrite Hd.
    destruct (multipliers (lower_char d)); destruct (parse_float _); discriminate.
Qed.

Lemma decode_column_raises (column : nat) (rows : list (list string)) :
  (exists row, In row rows /\ _to_number (nth column row EmptyString) = Raise IndexError) ->
  decode_column column rows = Raise IndexError.
Proof.
  induction rows as [|row rest IH]; intros (bad & Hin & Hbad); [contradiction|].
  cbn [decode_column].
  destruct (_to_number (nth column row EmptyString)) as [x|e] eqn:Ex.
  - cbn [bind]. destruct Hin as [->|Hin]; [rewrite Hbad in Ex; discriminate Ex|].
    rewrite IH; [reflexivity|]. exists bad. split; [exact Hin|exact Hbad].
  - rewrite (to_number_raises_index _ _ Ex). reflexivity.
Qed.

Lemma decode_column_returns (column : nat) (rows : list (list string)) :
  (forall row, In row rows -> _to_number (nth column row EmptyString) <> Raise IndexError) ->
  exists df, decode_column column rows = Ok df.
Proof.
  induction rows as [|row rest IH]; intros H; [exists []; reflexivity|].
  cbn [decode_column].
  destruct (_to_number (nth column row EmptyString)) as [x|e] eqn:Ex.
  - destruct IH as [more Hm]; [intros r Hr; apply H; right; exact Hr|].
    rewrite Hm. exists (mk_treasury_row row x :: more). reflexivity.
  - exfalso. apply (H row (or_introl eq_refl)).
    rewrite Ex, (to_number_raises_index _ _ Ex). reflexivity.
Qed.

(** X23: once the page of a treasury source is retrieved, the fetcher ends in one
    of three ways: with the fetch error of the source when no line is
    usable; with [IndexError] when the holdings cell of some usable line,
    whatever its rank, is one that the normalizer raises on; with a table
    otherwise. *)
Theorem treasury_fetch_outcome (sp : treasury_source) (www : web) (top_n : Z)
  (text : string) :
  In sp treasury_sources -> _get_text www (ts_url sp) = Ok text ->
  (usable_rows sp www = [] ->
   ts_fetch sp www top_n = Raise (DataFetchError (ts_empty sp))) /\
  (usable_rows sp www <> [] ->
   (exists row, In row (usable_rows sp www) /\
                _to_number (nth (ts_column sp) row EmptyString) = Raise IndexError) ->
   ts_fetch sp www top_n = Raise IndexError) /\
  (usable_rows sp www <> [] ->
   (forall row, In row (usable_rows sp www) ->
                _to_number (nth (ts_column sp) row EmptyString) <> Raise IndexError) ->
   exists table, ts_fetch sp www top_n = Ok table).
Proof.
  intros Hsp Ht. rewrite (treasury_fetch_scheme sp Hsp). unfold usable_rows.
  rewrite Ht. cbn [bind].
  destruct (collect (ts_keep sp) (splitlines text)) as [|row rows] eqn:Ec.
  - split; [reflexivity|]. split; intros Hne; contradiction.
  - split; [discriminate|]. split; intros _ H; unfold ranked.
    + rewrite (decode_column_raises _ _ H). reflexivity.
    + destruct (decode_column_returns _ _ H) as [df Hd]. rewrite Hd. cbn [bind].
      eexists. reflexivity.
Qed.

Lemma treasury_fetch_outcome_example :
  fetch_btc_treasury_holdings
    (page (btc_treasury_line "AAA" "1,000" ++ newline ++ btc_treasury_line "BBB" "$")) 1
  = Raise IndexError.
Proof.
  set (www := page (btc_treasury_line "AAA" "1,000" ++ newline ++
                    btc_treasury_line "BBB" "$")).
  destruct (treasury_fetch_outcome btc_source www 1
              (btc_treasury_line "AAA" "1,000" ++ newline ++ btc_treasury_line "BBB" "$")
              (or_introl eq_refl) eq_refl) as (_ & H & _).
  apply H.
  - vm_compute. discriminate.
  - eexists. split; [vm_compute; right; left; reflexivity|vm_compute; reflexivity].
Defined.


(** * The display of amounts *)

Lemma format_number_samples :
  _format_number (lit 1.2e12) = "1.20" ++ unit_trillion /\
  _format_number (lit 2.345e9) = "2.35" ++ unit_billion /\
  _format_number (lit 2.5e6) = "2.50" ++ unit_million /\
  _format_number (lit 1234567.0) = "1.23" ++ unit_million /\
  _format_number (lit 999999.5) = "1,000,000" /\
  _format_number (lit 999999.4) = "999,999" /\
  _format_number (lit 2.5) = "2" /\
  _format_number (lit 3.5) = "4" /\
  _format_number (lit (-1234.5)) = "-1,234" /\
  _format_number (lit 0.0) = "0" /\
  _format_number (lit (-0.25)) = "-0" /\
  _format_number (lit 999999999999.9) = "1000.00" ++ unit_billion /\
  _format_number (lit 1.005e12) = "1.00" ++ unit_trillion /\
  _format_number (S754_infinity false) = "inf" ++ unit_trillion /\
  format_fixed false 2 (lit 0.125) = "0.12" /\
  format_fixed false 2 (lit 0.375) = "0.38" /\
  format_fixed false 2 (lit 2.675) = "2.67" /\
  format_fixed false 0 (lit 1e22) = "10000000000000000000000" /\
  format_fixed false 0 (lit 1e23) = "99999999999999991611392" /\
  format_fixed true 2 (lit 1234567.891) = "1,234,567.89" /\
  format_fixed true 0 (lit 123456.0) = "123,456" /\
  format_fixed true 0 (lit 12.0) = "12".
Proof. vm_compute. repeat split; reflexivity. Qed.


Lemma append_length (a b : string) :
  String.length (a ++ b) = (String.length a + String.length b)%nat.
Proof. induction a as [|c r IH]; [reflexivity|]. cbn. rewrite IH. reflexivity. Qed.

Lemma zstr_first (n : Z) :
  (0 <= n)%Z -> exists c r, zstr n = String c r /\ c <> "-"%char.
Proof.
  intros H. destruct n as [|p|p]; [| |lia].
  - exists "0"%char, EmptyString. split; [reflexivity|discriminate].
  - unfold zstr. cbn [Z.to_int NilZero.string_of_int].
    destruct (Pos.to_uint p); cbn; eexists; eexists; (split; [reflexivity|discriminate]).
Qed.

Lemma round_half_even_nonneg (num den : Z) :
  (0 <= num)%Z -> (0 < den)%Z -> (0 <= round_half_even num den)%Z.
Proof.
  intros Hn Hd. unfold round_half_even.
  pose proof (Z.div_pos num den Hn Hd) as Hq.
  destruct (2 * (num mod den) ?= den)%Z; [destruct (Z.even (num / den))| |]; lia.
Qed.

Lemma scaled_nonneg (places : nat) (m : positive) (e : Z) :
  (0 <= scaled places m e)%Z.
Proof.
  assert (Hp : (0 < 10 ^ Z.of_nat places)%Z) by (apply Z.pow_pos_nonneg; lia).
  unfold scaled. destruct e as [|k|k].
  - cbn [Z.pow]. lia.
  - assert (0 < 2 ^ Zpos k)%Z by (apply Z.pow_pos_nonneg; lia). nia.
  - apply round_half_even_nonneg; [nia|apply Z.pow_pos_nonneg; lia].
Qed.

Lemma plain_amount_not_dash (x : float) :
  isnan x = false -> format_fixed true 0 x <> "-".
Proof.
  intros Hx. destruct x as [s|s| |s m e]; [| |discriminate Hx|].
  - destruct s; vm_compute; discriminate.
  - destruct s; vm_compute; discriminate.
  - unfold format_fixed, digits_text.
    destruct (zstr_first (scaled 0 m e / 10 ^ Z.of_nat 0)) as (c & r & Hz & Hc).
    { apply Z.div_pos; [apply scaled_nonneg|reflexivity]. }
    rewrite Hz. cbn [group append]. destruct s; cbn [sign_text append].
    + discriminate.
    + intros H. injection H as H _. contradiction.
Qed.

Lemma with_unit_not_dash (a u : string) :
  String.length u = 7%nat -> a ++ u <> "-".
Proof.
  intros Hu H. apply (f_equal String.length) in H.
  rewrite append_length, Hu in H. cbn in H. lia.
Qed.

(** X24: the display of an amount is a lone dash for the value that is not a
    number, and for no other. *)
Theorem format_number_dash_iff_nan (value : float) :
  _format_number value = "-" <-> isnan value = true.
Proof.
  unfold _format_number. destruct (isnan value) eqn:Hn.
  { split; reflexivity. }
  split; [|discriminate]. intros H. exfalso. revert H.
  destruct (SFleb (lit 1e12) (SFabs value)); [apply with_unit_not_dash; reflexivity|].
  destruct (SFleb (lit 1e9) (SFabs value)); [apply with_unit_not_dash; reflexivity|].
  destruct (SFleb (lit 1e6) (SFabs value)); [apply with_unit_not_dash; reflexivity|].
  apply plain_amount_not_dash, Hn.
Qed.

(** ** The display of a negated amount *)

Lemma shr_1_nonneg (mrs : shr_record) :
  (0 <= shr_m mrs)%Z -> (0 <= shr_m (shr_1 mrs))%Z.
Proof.
  destruct mrs as [m r s]. cbn [shr_m]. intros H.
  destruct m as [|[p|p|]|p]; cbn; lia.
Qed.

Lemma iter_pos_nonneg (n : positive) (mrs : shr_record) :
  (0 <= shr_m mrs)%Z -> (0 <= shr_m (iter_pos shr_1 n mrs))%Z.
Proof.
  revert mrs. induction n as [n IH|n IH|]; intros mrs H; cbn [iter_pos].
  - apply IH, IH, shr_1_nonneg, H.
  - apply IH, IH, H.
  - apply shr_1_nonneg, H.
Qed.

Lemma shr_fexp_nonneg (m e : Z) (l : location) :
  (0 <= m)%Z -> (0 <= shr_m (fst (shr_fexp prec emax m e l)))%Z.
Proof.
  intros H. unfold shr_fexp, shr.
  assert (H0 : (0 <= shr_m (shr_record_of_loc m l))%Z).
  { destruct l as [|[]]; exact H. }
  destruct (fexp prec emax (Zdigits2 m + e) - e)%Z; cbn [fst]; try exact H0.
  apply iter_pos_nonneg, H0.
Qed.

Lemma round_nearest_even_nonneg (m : Z) (l : location) :
  (0 <= m)%Z -> (0 <= round_nearest_even m l)%Z.
Proof.
  intros H. destruct l as [|[]]; cbn [round_nearest_even]; try lia.
  destruct (Z.even m); lia.
Qed.

Lemma binary_round_aux_sign (s : bool) (mx ex : Z) (lx : location) :
  (0 <= mx)%Z ->
  isnan (binary_round_aux prec emax s mx ex lx) = false /\
  sign_bit (binary_round_aux prec emax s mx ex lx) = s.
Proof.
  intros H. unfold binary_round_aux.
  pose proof (shr_fexp_nonneg mx ex lx H) as H1.
  destruct (shr_fexp prec emax mx ex lx) as [mrs' e']. cbn [fst] in H1.
  pose proof (shr_fexp_nonneg _ e' loc_Exact
                (round_nearest_even_nonneg _ (loc_of_shr_record mrs') H1)) as H2.
  destruct (shr_fexp prec emax (round_nearest_even (shr_m mrs') (loc_of_shr_record mrs'))
              e' loc_Exact) as [mrs'' e'']. cbn [fst] in H2.
  destruct (shr_m mrs'') as [|m|m]; [| |lia].
  - split; reflexivity.
  - destruct (e'' <=? emax - prec)%Z; split; reflexivity.
Qed.

Lemma binary_round_aux_opp (s : bool) (mx ex : Z) (lx : location) :
  SFopp (binary_round_aux prec emax s mx ex lx) =
  binary_round_aux prec emax (negb s) mx ex lx.
Proof.
  unfold binary_round_aux.
  destruct (shr_fexp prec emax mx ex lx) as [mrs' e'].
  destruct (shr_fexp prec emax (round_nearest_even (shr_m mrs') (loc_of_shr_record mrs'))
              e' loc_Exact) as [mrs'' e''].
  destruct (shr_m mrs'') as [|m|m]; [reflexivity| |reflexivity].
  destruct (e'' <=? emax - prec)%Z; reflexivity.
Qed.

Lemma div_core_nonneg (m1 m2 : positive) (e1 e2 : Z) :
  (0 <= fst (fst (SFdiv_core_binary prec emax (Zpos m1) e1 (Zpos m2) e2)))%Z.
Proof.
  unfold SFdiv_core_binary.
  set (s := (e1 - e2 - Z.min (fexp prec emax (Zdigits2 (Zpos m1) + e1 -
                                              (Zdigits2 (Zpos m2) + e2))) (e1 - e2))%Z).
  set (m' := match s with
             | Zpos _ => Z.shiftl (Zpos m1) s
             | Z0 => Zpos m1
             | Zneg _ => Z0
             end).
  assert (Hm : (0 <= m')%Z).
  { unfold m'. destruct s; [lia| |lia]. apply Z.shiftl_nonneg. lia. }
  pose proof (Z.div_pos m' (Zpos m2) Hm eq_refl) as Hq. unfold Z.div in Hq.
  destruct (Z.div_eucl m' (Zpos m2)) as [q r]. exact Hq.
Qed.

Section Quotients.
Variables (mc : positive) (ec : Z).
Let c : float := S754_finite false mc ec.

Lemma fdiv_opp (x : float) : fdiv (fneg x) c = fneg (fdiv x c).
Proof.
  unfold fdiv, fneg, c. destruct x as [[]|[]| |s m e]; try reflexivity.
  cbn [SFopp SFdiv].
  destruct (SFdiv_core_binary prec emax (Zpos m) e (Zpos mc) ec) as [[mz ez] lz].
  rewrite binary_round_aux_opp. rewrite !xorb_false_r. reflexivity.
Qed.

Lemma fdiv_sign (x : float) :
  isnan x = false ->
  isnan (fdiv x c) = false /\ sign_bit (fdiv x c) = sign_bit x.
Proof.
  unfold fdiv, c. destruct x as [s|s| |s m e]; intros H;
    [split; cbn; rewrite ?xorb_false_r; reflexivity ..|discriminate H|].
  cbn [SFdiv sign_bit].
  pose proof (div_core_nonneg m mc e ec) as Hq.
  destruct (SFdiv_core_binary prec emax (Zpos m) e (Zpos mc) ec) as [[mz ez] lz].
  cbn [fst] in Hq. rewrite xorb_false_r. apply binary_round_aux_sign, Hq.
Qed.
End Quotients.

Lemma format_fixed_opp (grouping : bool) (places : nat) (y : float) :
  isnan y = false -> sign_bit y = false ->
  format_fixed grouping places (fneg y) = "-" ++ format_fixed grouping places y.
Proof.
  destruct y as [s|s| |s m e]; cbn [sign_bit]; intros Hn Hs;
    [subst s; reflexivity ..|discriminate Hn|subst s; reflexivity].
Qed.

Lemma scaled_amount_opp (mc : positive) (ec : Z) (x : float) (u : string) :
  isnan x = false -> sign_bit x = false ->
  format_fixed false 2 (fdiv (fneg x) (S754_finite false mc ec)) ++ u =
  "-" ++ format_fixed false 2 (fdiv x (S754_finite false mc ec)) ++ u.
Proof.
  intros Hn Hs. destruct (fdiv_sign mc ec x Hn) as [Hqn Hqs].
  rewrite fdiv_opp, format_fixed_opp; [reflexivity|exact Hqn|].
  rewrite Hqs. exact Hs.
Qed.

Lemma SFabs_opp (x : float) : SFabs (fneg x) = SFabs x.
Proof. destruct x; reflexivity. Qed.

Lemma isnan_opp (x : float) : isnan (fneg x) = isnan x.
Proof. destruct x; reflexivity. Qed.

(** X25: the display of the negation of an amount whose sign bit is clear is the
    display of the amount after a minus sign: the unit and the digits are
    the same, a negative zero included. *)
Theorem format_number_of_negation (value : float) :
  isnan value = false -> sign_bit value = false ->
  _format_number (fneg value) = "-" ++ _format_number value.
Proof.
  intros Hn Hs. unfold _format_number. rewrite isnan_opp, SFabs_opp, Hn.
  destruct (SFleb (lit 1e12) (SFabs value)).
  { exact (scaled_amount_opp _ _ value unit_trillion Hn Hs). }
  destruct (SFleb (lit 1e9) (SFabs value)).
  { exact (scaled_amount_opp _ _ value unit_billion Hn Hs). }
  destruct (SFleb (lit 1e6) (SFabs value)).
  { exact (scaled_amount_opp _ _ value unit_million Hn Hs). }
  apply format_fixed_opp; assumption.
Qed.

Lemma format_number_of_negation_example :
  _format_number (lit (-2.345e9)) = "-2.35" ++ unit_billion /\
  _format_number (lit (-1234.5)) = "-1,234" /\
  _format_number (lit (-0.0)) = "-0".
Proof.
  split; [|split].
  - exact (format_number_of_negation (lit 2.345e9) eq_refl eq_refl).
  - exact (format_number_of_negation (lit 1234.5) eq_refl eq_refl).
  - exact (format_number_of_negation (lit 0.0) eq_refl eq_refl).
Defined.
